(** * storyboard: metadata normalisation and storyboard composition

    A shallow embedding of [metadata.py] and [src/storyboard/storyboard.py]
    and the properties of the specification proved (or refuted) on it.

    Conventions of the embedding.

    - Python [int] is [Z].  Python [float] is modelled by the rational it
      denotes ([Q]); arithmetic on floats is exact in the model, so binary64
      rounding, overflow and NaN are outside it.  Values are kept in lowest
      terms ([Qred]) so that computed results can be compared with [=].
    - [None]-able attributes are [option]s; a dict coming from FFprobe's JSON
      is a record with one optional field per key the code reads; numeric
      JSON fields are taken at their numeric value.
    - A raised exception is the [Raise] result of the error monad [result];
      code that talks to the outside world (file system, ffprobe, ffmpeg,
      stderr) runs in the monad [M], which threads a log of the events
      performed so far.
    - Pillow images are records carrying their pixel size; a canvas records
      the images pasted on it, in order, with their positions.

    Of [metadata.py] the embedding has [_round_up], [_evaluate_ratio], the
    classes [Stream] and [Video] with [Video.__init__], [_extract_size],
    [_extract_duration], [_process_stream] and [_extract_streams]; of
    [storyboard.py] it has the class [Font], [draw_text_block],
    [create_thumbnail] and [tile_images] and, of the class [StoryBoard],
    [__init__], [gen_frames], [_gen_bare_storyboard] and
    [_gen_promotional_banner].  The drawing code runs against a
    [typesetter], which stands for FreeType, the text metrics of Pillow,
    [util.humantime] and the data of the package; an image with the text
    drawn on it is a [Sheet].  The methods [storyboard] and
    [_gen_metadata_sheet], which call methods that no class of these files
    defines, the SHA-1 digest, the printing of the metadata and the command
    lines are not part of it. *)

From Stdlib Require Import ZArith QArith Qabs Qround String Ascii List Bool Lia Lqa.
From Stdlib Require Import DecimalString Recdef.
From Stdlib Require DecimalFacts DecimalPos.
Import ListNotations.

Local Open Scope string_scope.
Local Open Scope Z_scope.

(** ** Python runtime fragments *)

Module Py.

(** The exception classes the two modules can raise. *)
Inductive exn : Type :=
| TypeError (msg : string)
| ValueError (msg : string)
| KeyError (key : string)
| IndexError
| ZeroDivisionError
| AttributeError (attr : string)
| OSError (msg : string).

Inductive result (A : Type) : Type :=
| Ok (a : A)
| Raise (e : exn).
Arguments Ok {A} a.
Arguments Raise {A} e.

Definition bind {A B} (r : result A) (k : A -> result B) : result B :=
  match r with
  | Ok a => k a
  | Raise e => Raise e
  end.

(** [d[key]] on a key that may be missing. *)
Definition getitem {A} (key : string) (o : option A) : result A :=
  match o with
  | Some a => Ok a
  | None => Raise (KeyError key)
  end.

(** [range(a, b)]. *)
Definition range (a b : Z) : list Z :=
  map (fun i => a + Z.of_nat i) (seq 0 (Z.to_nat (b - a))).

(** [for x in xs: s = body(x, s)], leaving at the first exception. *)
Fixpoint for_each {S : Type} (xs : list Z) (body : Z -> S -> result S) (s : S)
  : result S :=
  match xs with
  | [] => Ok s
  | x :: xs' => bind (body x s) (for_each xs' body)
  end.

(** [xs[i]] for a list; a negative index counts from the end. *)
Definition index {A} (xs : list A) (i : Z) : result A :=
  if i <? 0 then
    match nth_error (rev xs) (Z.to_nat (- i - 1)) with
    | Some a => Ok a
    | None => Raise IndexError
    end
  else
    match nth_error xs (Z.to_nat i) with
    | Some a => Ok a
    | None => Raise IndexError
    end.

(** ["%d" % n] and ["{}".format(n)] for an int. *)
Definition str_of_int (n : Z) : string := NilZero.string_of_int (Z.to_int n).

(** ["%s" % x] for a string that may be [None]. *)
Definition str_of_opt (o : option string) : string :=
  match o with
  | Some s => s
  | None => "None"
  end.

(** Truth value of a string that may be [None]. *)
Definition truthy (o : option string) : bool :=
  match o with
  | Some (String _ _) => true
  | _ => false
  end.

(** Comparisons of floats. *)
Definition Qltb (x y : Q) : bool := negb (Qle_bool y x).

(** [float(n)] and [n / 1] for an int. *)
Definition float_of_int (n : Z) : Q := inject_Z n.

(** [x / y] on floats, [ZeroDivisionError] when [y] is zero. *)
Definition truediv (x y : Q) : result Q :=
  if Qeq_bool y 0 then Raise ZeroDivisionError else Ok (Qred (x / y)).

(** [int(x)] for a float: truncation towards zero. *)
Definition int_of_float (x : Q) : Z := Z.quot (Qnum x) (Zpos (Qden x)).

(** [abs(x)]. *)
Definition fabs (x : Q) : Q := Qabs x.

(** [round(x)] of Python 3: the nearest integer, a tie going to the even
    neighbour. *)
Definition round_half_even (x : Q) : Z :=
  let lo := Qfloor x in
  let twice := Qred (2 * (x - inject_Z lo)) in
  match Qcompare twice 1 with
  | Lt => lo
  | Gt => lo + 1
  | Eq => if Z.even lo then lo else lo + 1
  end.

(** [s.rjust(width, "0")] on a string of digits. *)
Fixpoint zfill (width : nat) (s : string) : string :=
  match width - String.length s with
  | O => s
  | S _ =>
      match width with
      | O => s
      | S w' => String "0" (zfill w' s)
      end
  end%nat.

(** ["%.<nd>f" % x]: [x] rounded to [nd] decimals (the tie to even), the
    integer part, a point and exactly [nd] decimals. *)
Definition str_of_float (nd : nat) (x : Q) : string :=
  let scale := 10 ^ Z.of_nat nd in
  let m := round_half_even (Qabs x * inject_Z scale) in
  let sign := if Qltb x 0 then "-" else "" in
  let ipart := str_of_int (m / scale) in
  match nd with
  | O => sign ++ ipart
  | _ => sign ++ ipart ++ "." ++ zfill nd (str_of_int (m mod scale))
  end.

(** Zero padding of the [%0<width>d] and [%0<width>.<nd>f] conversions:
    the sign stays in front and counts in the width. *)
Definition zero_pad (width : nat) (s : string) : string :=
  match s with
  | String "-" s' => String "-" (zfill (width - 1) s')
  | _ => zfill width s
  end.

(** [x // y] on ints. *)
Definition floordiv (x y : Z) : result Z :=
  if y =? 0 then Raise ZeroDivisionError else Ok (x / y).

(** [fractions.gcd(a, b)] of the standard library of the Python versions
    that [setup.py] names (2.7 and 3.2 to 3.4):
    [while b: a, b = b, a % b] and then [return a]. *)
Function fractions_gcd (a b : Z) {measure Z.abs_nat b} : Z :=
  if b =? 0 then a else fractions_gcd b (a mod b).
Proof.
  intros a b Hb. apply Z.eqb_neq in Hb.
  pose proof (Z.mod_bound_or a b Hb). lia.
Defined.

(** ASCII part of [str.upper]. *)
Definition upper_ascii (c : ascii) : ascii :=
  let n := nat_of_ascii c in
  if ((97 <=? n) && (n <=? 122))%nat then ascii_of_nat (n - 32) else c.

Fixpoint upper (s : string) : string :=
  match s with
  | EmptyString => EmptyString
  | String c s' => String (upper_ascii c) (upper s')
  end.

End Py.

Import Py.

Declare Scope py_scope.
Delimit Scope py_scope with py.
Notation "x <- e ;; k" := (Py.bind e (fun x => k))
  (at level 61, e at next level, right associativity) : py_scope.
Notation "' pat <- e ;; k" := (Py.bind e (fun x => match x with pat => k end))
  (at level 61, pat pattern, e at next level, right associativity) : py_scope.
Local Open Scope py_scope.

(** ** Calling a Python function *)

Module Call.

(** The values that travel through the calls modelled here. *)
#[warnings="-register-all"] Inductive value : Type :=
| VNone
| VBool (b : bool)
| VInt (n : Z)
| VStr (s : string)
| VDict (items : list (string * value)).

(** A [def name(p1, p2=default, ...)] without starred parameters ([self]
    left out): the parameters in order, each with its default if any. *)
Record signature : Type := {
  name : string;
  parameters : list (string * option value)
}.

Fixpoint assoc {A} (key : string) (items : list (string * A)) : option A :=
  match items with
  | [] => None
  | (k, a) :: items' => if String.eqb k key then Some a else assoc key items'
  end.

Definition mem (key : string) (keys : list string) : bool :=
  existsb (String.eqb key) keys.

(** Each keyword must name a parameter that no positional argument has
    filled. *)
Fixpoint check_keywords (fn : string) (names filled : list string)
         (kwargs : list (string * value)) : result unit :=
  match kwargs with
  | [] => Ok tt
  | (k, _) :: kwargs' =>
      if negb (mem k names) then
        Raise (TypeError (fn ++ "() got an unexpected keyword argument '" ++ k ++ "'"))
      else if mem k filled then
        Raise (TypeError (fn ++ "() got multiple values for argument '" ++ k ++ "'"))
      else check_keywords fn names (k :: filled) kwargs'
  end.

(** The parameters the positional arguments did not fill take their keyword
    argument, else their default, else the call is short of an argument. *)
Fixpoint fill_rest (fn : string) (ps : list (string * option value))
         (kwargs : list (string * value)) : result (list (string * value)) :=
  match ps with
  | [] => Ok []
  | (p, default) :: ps' =>
      v <- match assoc p kwargs, default with
           | Some v, _ => Ok v
           | None, Some d => Ok d
           | None, None =>
               Raise (TypeError (fn ++ "() missing 1 required positional argument: '"
                                    ++ p ++ "'"))
           end ;;
      rest <- fill_rest fn ps' kwargs ;;
      Ok ((p, v) :: rest)
  end.

(** Binding of the positional and keyword arguments of a call of [f] to
    the parameters of [f]: the local variables of the call, or the
    [TypeError] of a call that does not fit the signature. *)
Definition bind_arguments (sg : signature) (args : list value)
           (kwargs : list (string * value)) : result (list (string * value)) :=
  let names := map fst (parameters sg) in
  let npos := List.length args in
  _ <- check_keywords (name sg) names (firstn npos names) kwargs ;;
  if (List.length names <? npos)%nat then
    Raise (TypeError (name sg ++ "() takes " ++ str_of_int (Z.of_nat (List.length names))
                         ++ " positional arguments but " ++ str_of_int (Z.of_nat npos)
                         ++ " were given"))
  else
    rest <- fill_rest (name sg) (skipn npos (parameters sg)) kwargs ;;
    Ok (combine names args ++ rest)%list.

Definition as_str (what : string) (v : option value) : result string :=
  match v with
  | Some (VStr s) => Ok s
  | _ => Raise (TypeError (what ++ " must be str"))
  end.

End Call.

(** ** Pillow: images and canvases *)

Module Pillow.

(** A [PIL.Image.Image]: its [size], an identity standing for its pixels,
    whether [close()] was called on it, and what was pasted on it. *)
Record Image : Type := {
  size : Z * Z;
  pixels : nat;
  closed : bool;
  pasted : list (nat * (Z * Z) * (Z * Z))
}.

(** [Image.new('RGBA', size, color)]; the color is not part of the model. *)
Definition new (sz : Z * Z) : Image :=
  {| size := sz; pixels := O; closed := false; pasted := [] |}.

(** [image.resize(size, Image.LANCZOS)]: a new image, [image] is unchanged. *)
Definition resize (image : Image) (sz : Z * Z) : Image :=
  {| size := sz; pixels := pixels image; closed := false; pasted := pasted image |}.

(** [canvas.paste(image, xy)]: the pasted image (its pixels and its size)
    and its upper left corner are added to the canvas. *)
Definition paste (canvas image : Image) (xy : Z * Z) : Image :=
  {| size := size canvas; pixels := pixels canvas; closed := closed canvas;
     pasted := (pasted canvas ++ [(pixels image, size image, xy)])%list |}.

(** [image.close()]. *)
Definition close (image : Image) : Image :=
  {| size := size image; pixels := pixels image; closed := true;
     pasted := pasted image |}.

End Pillow.

(** ** What FFprobe prints *)

Module Probe.

(** [stream['tags']], the keys read by the code. *)
Record tags : Type := {
  language : option string;
  LANGUAGE : option string
}.

(** One entry of [self._ffprobe['streams']]: a field is [None] when the
    dict has no such key. *)
Record stream : Type := {
  index : option Z;
  codec_type : option string;
  codec_name : option string;
  codec_tag_string : option string;
  profile : option string;
  level : option Z;
  width : option Z;
  height : option Z;
  display_aspect_ratio : option string;
  r_frame_rate : option string;
  avg_frame_rate : option string;
  bit_rate : option Q;
  stream_tags : option tags
}.

(** [self._ffprobe]: [format.size] and [format.duration] at their numeric
    value, [format.tags.title] if there is one, and the streams. *)
Record output : Type := {
  format_size : Z;
  format_duration : Q;
  format_title : option string;
  streams : list stream
}.

End Probe.

(** ** The outside world *)

Module World.

(** A frame as [storyboard.frame.extract_frame] returns it. *)
Record Frame : Type := {
  timestamp : Q;
  image : Pillow.Image
}.

(** What the code does to the outside world, in the order it does it. *)
Inductive event : Type :=
| PathExists (path : string)
| RunFFprobe (ffprobe_bin path : string)
| ReadHead (path : string)
| RunFFprobeFrames (ffprobe_bin : string)
| ExtractFrame (ffmpeg_bin codec path : string) (time : Q)
| Stderr (text : string).

(** The answers of the outside world. *)
Record world : Type := {
  abspath : string -> string;
  basename : string -> string;
  path_exists : string -> bool;
  (** ffprobe on a file: its JSON output, or its stderr on a nonzero exit *)
  ffprobe : string -> string -> string + Probe.output;
  (** does ffprobe report an interlaced frame in the first megabyte *)
  interlaced_frame : string -> string -> bool;
  (** [storyboard.frame.extract_frame], [None] when ffmpeg fails *)
  extract_frame : string -> string -> string -> Q -> option Frame
}.

(** Computations that act on the world: the events so far go in, the
    result and the events so far come out. *)
Definition M (A : Type) : Type := list event -> result A * list event.

Definition ret {A} (a : A) : M A := fun log => (Ok a, log).

Definition raise {A} (e : exn) : M A := fun log => (Raise e, log).

Definition bind {A B} (m : M A) (k : A -> M B) : M B :=
  fun log =>
    match m log with
    | (Ok a, log') => k a log'
    | (Raise e, log') => (Raise e, log')
    end.

Definition lift {A} (r : result A) : M A := fun log => (r, log).

Definition emit (e : event) : M unit := fun log => (Ok tt, (log ++ [e])%list).

(** [try: m  except: handler; raise]. *)
Definition on_exception {A} (m : M A) (handler : M unit) : M A :=
  fun log =>
    match m log with
    | (Ok a, log') => (Ok a, log')
    | (Raise e, log') =>
        match handler log' with
        | (Ok _, log'') => (Raise e, log'')
        | (Raise e', log'') => (Raise e', log'')
        end
    end.

(** [for x in xs: self = body(x, self)]. *)
Fixpoint for_each {X S : Type} (xs : list X) (body : X -> S -> M S) (s : S) : M S :=
  match xs with
  | [] => ret s
  | x :: xs' => bind (body x s) (for_each xs' body)
  end.

End World.

Declare Scope world_scope.
Delimit Scope world_scope with world.
Notation "x <- e ;; k" := (World.bind e (fun x => k))
  (at level 61, e at next level, right associativity) : world_scope.
Notation "' pat <- e ;; k" := (World.bind e (fun x => match x with pat => k end))
  (at level 61, pat pattern, e at next level, right associativity) : world_scope.

(** ** metadata.py *)

Module Metadata.

(** [_round_up(number, ndigits)]:
    [math.ceil(number * 10 ** ndigits) / 10 ** ndigits]. *)
Definition _round_up (number : Q) (ndigits : nat) : Q :=
  let multiplier := 10 ^ Z.of_nat ndigits in
  Qred (inject_Z (Qceiling (number * inject_Z multiplier)) / inject_Z multiplier).

(** *** [_evaluate_ratio] and its two regular expressions *)

Definition is_digit (c : ascii) : bool :=
  let n := nat_of_ascii c in ((48 <=? n) && (n <=? 57))%nat.

Definition is_nonzero_digit (c : ascii) : bool :=
  let n := nat_of_ascii c in ((49 <=? n) && (n <=? 57))%nat.

(** The longest prefix of digits (a greedy starred digit class) and what
    follows it. *)
Fixpoint span_digits (s : string) : string * string :=
  match s with
  | String c s' =>
      if is_digit c then let (ds, rest) := span_digits s' in (String c ds, rest)
      else (EmptyString, s)
  | EmptyString => (EmptyString, EmptyString)
  end.

(** The group of both patterns, a nonzero digit followed by digits, at
    the start of [s]: the group and the rest. *)
Definition match_positive (s : string) : option (string * string) :=
  match s with
  | String c _ => if is_nonzero_digit c then Some (span_digits s) else None
  | EmptyString => None
  end.

(** [$] without [re.MULTILINE]: the end of the string, or the position
    before a newline that ends the string. *)
Definition at_end (s : string) : bool :=
  match s with
  | EmptyString => true
  | String c EmptyString => Ascii.eqb c "010"%char
  | _ => false
  end.

(** [match] of the compiled pattern: start of string, group, separator,
    group, end anchor; the result is the two groups. *)
Definition match_ratio (sep : ascii) (s : string) : option (string * string) :=
  match match_positive s with
  | Some (num, String c rest) =>
      if Ascii.eqb c sep then
        match match_positive rest with
        | Some (den, tail) => if at_end tail then Some (num, den) else None
        | None => None
        end
      else None
  | _ => None
  end.

Definition _NUM_COLON_DEN := match_ratio ":"%char.
Definition _NUM_SLASH_DEN := match_ratio "/"%char.

(** [int(s)] on a string of decimal digits. *)
Definition digit_value (c : ascii) : Z := Z.of_nat (nat_of_ascii c - 48).

Fixpoint int_of_digits_from (acc : Z) (s : string) : Z :=
  match s with
  | EmptyString => acc
  | String c s' => int_of_digits_from (10 * acc + digit_value c) s'
  end.

Definition int_of_digits (s : string) : Z := int_of_digits_from 0 s.

Definition _evaluate_ratio (ratio_str : string) : option Q :=
  match _NUM_COLON_DEN ratio_str with
  | Some (g1, g2) =>
      let numerator := int_of_digits g1 in
      let denominator := int_of_digits g2 in
      Some (Qred (inject_Z numerator / inject_Z denominator))
  | None =>
      match _NUM_SLASH_DEN ratio_str with
      | Some (g1, g2) =>
          let numerator := int_of_digits g1 in
          let denominator := int_of_digits g2 in
          Some (Qred (inject_Z numerator / inject_Z denominator))
      | None => None
      end
  end.

(** *** [Video._extract_size]: the human readable size *)

Definition size_units : list string := ["Ki"; "Mi"; "Gi"; "Ti"; "Pi"; "Ei"; "Zi"].

(** The [for unit in [...]] loop with its [else] clause; [unit] is the
    value the loop variable holds when the list is exhausted. *)
Fixpoint size_human_loop (units : list string) (size : Q) (unit : string)
  : string :=
  match units with
  | [] => str_of_float 1 (_round_up size 1) ++ unit ++ "B"
  | unit :: units' =>
      let size := Qred (size / 1024) in
      if Qltb size 1024 then
        if Qltb size 10 then str_of_float 2 (_round_up size 2) ++ unit ++ "B"
        else str_of_float 1 (_round_up size 1) ++ unit ++ "B"
      else size_human_loop units' size unit
  end.

(** The value [_extract_size] stores in [self.size_human] for
    [self.size = size]. *)
Definition size_human (size : Z) : string :=
  let multiplier := 1024%Q in
  if Qltb (inject_Z size) multiplier then str_of_int size ++ "B"
  else size_human_loop size_units (float_of_int size) "".

(** *** The classes [Stream] and [Video] *)

Module Stream.

(** The attributes [Stream.__init__] sets to [None]. *)
Record t : Type := {
  index : option Z;
  type : option string;
  codec : option string;
  info_string : option string;
  bit_rate : option Q;
  bit_rate_text : option string;
  language_code : option string;
  height : option Z;
  width : option Z;
  dimension : option (Z * Z);
  dimension_text : option string;
  frame_rate : option Q;
  frame_rate_text : option string;
  dar : option Q;
  dar_text : option string
}.

End Stream.

Module Video.

(** The attributes of a [Video] once [__init__] has got to
    [self._extract_streams()]. *)
Record t : Type := {
  path : string;
  filename : string;
  title : option string;
  size : Z;
  size_human : string;
  duration : Q;
  duration_human : string;
  scan_type : string;
  sha1sum : option string;
  dimension : option (Z * Z);
  dimension_text : option string;
  dar : option Q;
  dar_text : option string;
  frame_rate : option Q;
  frame_rate_text : option string;
  streams : list Stream.t
}.

(** [self.dimension = d; self.dimension_text = text]. *)
Definition set_dimension (self : t) (d : option (Z * Z)) (text : option string) : t :=
  {| path := path self; filename := filename self; title := title self;
     size := size self; size_human := size_human self;
     duration := duration self; duration_human := duration_human self;
     scan_type := scan_type self; sha1sum := sha1sum self;
     dimension := d; dimension_text := text;
     dar := dar self; dar_text := dar_text self;
     frame_rate := frame_rate self; frame_rate_text := frame_rate_text self;
     streams := streams self |}.

(** [self.dar = r; self.dar_text = text]. *)
Definition set_dar (self : t) (r : option Q) (text : option string) : t :=
  {| path := path self; filename := filename self; title := title self;
     size := size self; size_human := size_human self;
     duration := duration self; duration_human := duration_human self;
     scan_type := scan_type self; sha1sum := sha1sum self;
     dimension := dimension self; dimension_text := dimension_text self;
     dar := r; dar_text := text;
     frame_rate := frame_rate self; frame_rate_text := frame_rate_text self;
     streams := streams self |}.

(** [self.frame_rate = r; self.frame_rate_text = text]. *)
Definition set_frame_rate (self : t) (r : option Q) (text : option string) : t :=
  {| path := path self; filename := filename self; title := title self;
     size := size self; size_human := size_human self;
     duration := duration self; duration_human := duration_human self;
     scan_type := scan_type self; sha1sum := sha1sum self;
     dimension := dimension self; dimension_text := dimension_text self;
     dar := dar self; dar_text := dar_text self;
     frame_rate := r; frame_rate_text := text;
     streams := streams self |}.

(** [self.streams = l]. *)
Definition set_streams (self : t) (l : list Stream.t) : t :=
  {| path := path self; filename := filename self; title := title self;
     size := size self; size_human := size_human self;
     duration := duration self; duration_human := duration_human self;
     scan_type := scan_type self; sha1sum := sha1sum self;
     dimension := dimension self; dimension_text := dimension_text self;
     dar := dar self; dar_text := dar_text self;
     frame_rate := frame_rate self; frame_rate_text := frame_rate_text self;
     streams := l |}.

End Video.

Definition is_None {A} (o : option A) : bool :=
  match o with
  | None => true
  | Some _ => false
  end.

(** *** [Video._process_stream] *)

(** The codec label of a video stream. *)
Definition video_codec (stream : Probe.stream) : string :=
  match Probe.codec_name stream with
  | None => "unknown codec"
  | Some codec_name =>
      if codec_name =? "h264" then
        match Probe.profile stream, Probe.level stream with
        | Some profile, Some level =>
            "H.264 (" ++ profile ++ " Profile level "
              ++ str_of_float 1 (Qred (inject_Z level / 10)) ++ ")"
        | _, _ => "H.264"
        end
      else if codec_name =? "mpeg2video" then
        match Probe.profile stream with
        | Some profile => "MPEG-2 video (" ++ profile ++ " Profile)"
        | None => "MPEG-2 video"
        end
      else if codec_name =? "mpeg4" then
        match Probe.profile stream with
        | Some profile => "MPEG-4 Part 2 (" ++ profile ++ ")"
        | None => "MPEG-4 Part 2"
        end
      else if codec_name =? "mjpeg" then "MJPEG"
      else upper codec_name
  end%string.

(** The codec label of an audio stream. *)
Definition audio_codec (stream : Probe.stream) : string :=
  match Probe.codec_name stream with
  | None => "unknown codec"
  | Some codec_name =>
      if codec_name =? "aac" then
        match Probe.profile stream with
        | Some profile =>
            "AAC (" ++ (if profile =? "LC" then "Low Complexity" else profile) ++ ")"
        | None => "AAC"
        end
      else if codec_name =? "ac3" then "Dolby AC-3"
      else if codec_name =? "mp3" then "MP3"
      else upper codec_name
  end%string.

(** The codec label of a subtitle stream. *)
Definition subtitle_codec (stream : Probe.stream) : string :=
  match Probe.codec_name stream with
  | None =>
      match Probe.codec_tag_string stream with
      | Some tag => if tag =? "c608" then "EIA-608" else "unknown codec"
      | None => "unknown codec"
      end
  | Some codec_name =>
      if codec_name =? "srt" then "SubRip"
      else if codec_name =? "ass" then "ASS"
      else upper codec_name
  end%string.

(** [stream['tags']['language']], else [stream['tags']['LANGUAGE']]. *)
Definition language_of (stream : Probe.stream) : option string :=
  match Probe.stream_tags stream with
  | Some tags =>
      match Probe.language tags with
      | Some l => Some l
      | None => Probe.LANGUAGE tags
      end
  | None => None
  end.

(** ['%d kb/s' % int(round(s.bit_rate / 1000))]. *)
Definition bit_rate_text_of (bit_rate : Q) : string :=
  str_of_int (round_half_even (Qred (bit_rate / 1000))) ++ " kb/s".

(** The text of a frame rate that is not [None]:
    [if abs(fps - int(fps)) < 0.0001: '%d fps' % int(fps)], else
    ["%.2f fps" % fps]. *)
Definition frame_rate_text_of (fps : Q) : string :=
  if Qltb (fabs (fps - float_of_int (int_of_float fps))) (1 # 10000)
  then str_of_int (int_of_float fps) ++ " fps"
  else str_of_float 2 fps ++ " fps".

(** [text] appended after [", "] when it is neither [None] nor empty. *)
Definition append_clause (info : string) (text : option string) : string :=
  if truthy text then info ++ ", " ++ str_of_opt text else info.

(** The branch [stream['codec_type'] == "video"]. *)
Definition process_video_stream (self : Video.t) (stream : Probe.stream) (index : Z)
  : result (Video.t * Stream.t) :=
  let codec := video_codec stream in
  (* dimension *)
  width <- getitem "width" (Probe.width stream) ;;
  height <- getitem "height" (Probe.height stream) ;;
  let dimension := (width, height) in
  let dimension_text := str_of_int width ++ "x" ++ str_of_int height in
  let self :=
    if is_None (Video.dimension self)
    then Video.set_dimension self (Some dimension) (Some dimension_text)
    else self in
  (* display aspect ratio (DAR) *)
  ' (dar, dar_text) <-
    match Probe.display_aspect_ratio stream with
    | Some text =>
        let dar := _evaluate_ratio text in
        Ok (dar, if is_None dar then None else Some text)
    | None =>
        let gcd := fractions_gcd width height in
        reduced_width <- floordiv width gcd ;;
        reduced_height <- floordiv height gcd ;;
        dar <- truediv (float_of_int reduced_width) (float_of_int reduced_height) ;;
        Ok (Some dar,
            Some (str_of_int reduced_width ++ ":" ++ str_of_int reduced_height))
    end ;;
  let self := if is_None (Video.dar self) then Video.set_dar self dar dar_text else self in
  (* frame rate *)
  let frame_rate :=
    match Probe.r_frame_rate stream with
    | Some text => _evaluate_ratio text
    | None =>
        match Probe.avg_frame_rate stream with
        | Some text => _evaluate_ratio text
        | None => None
        end
    end in
  let frame_rate_text := option_map frame_rate_text_of frame_rate in
  let self :=
    if is_None (Video.frame_rate self)
    then Video.set_frame_rate self frame_rate frame_rate_text
    else self in
  (* bit rate *)
  let bit_rate := Probe.bit_rate stream in
  let bit_rate_text := option_map bit_rate_text_of bit_rate in
  (* assemble info string *)
  let info_string :=
    "Video, " ++ codec ++ ", " ++ dimension_text ++ " (DAR " ++ str_of_opt dar_text ++ ")" in
  let info_string := append_clause info_string frame_rate_text in
  let info_string := append_clause info_string bit_rate_text in
  Ok (self,
      {| Stream.index := Some index; Stream.type := Some "video";
         Stream.codec := Some codec; Stream.info_string := Some info_string;
         Stream.bit_rate := bit_rate; Stream.bit_rate_text := bit_rate_text;
         Stream.language_code := None;
         Stream.height := Some height; Stream.width := Some width;
         Stream.dimension := Some dimension;
         Stream.dimension_text := Some dimension_text;
         Stream.frame_rate := frame_rate; Stream.frame_rate_text := frame_rate_text;
         Stream.dar := dar; Stream.dar_text := dar_text |}).

(** A stream that is not a video stream: the video attributes stay [None]. *)
Definition other_stream (index : Z) (type codec : option string) (info_string : string)
           (bit_rate : option Q) (language_code : option string) : Stream.t :=
  {| Stream.index := Some index; Stream.type := type;
     Stream.codec := codec; Stream.info_string := Some info_string;
     Stream.bit_rate := bit_rate;
     Stream.bit_rate_text := option_map bit_rate_text_of bit_rate;
     Stream.language_code := language_code;
     Stream.height := None; Stream.width := None;
     Stream.dimension := None; Stream.dimension_text := None;
     Stream.frame_rate := None; Stream.frame_rate_text := None;
     Stream.dar := None; Stream.dar_text := None |}.

(** The branch [stream['codec_type'] == "audio"]. *)
Definition process_audio_stream (stream : Probe.stream) (index : Z) : Stream.t :=
  let codec := audio_codec stream in
  let bit_rate := Probe.bit_rate stream in
  let language_code := language_of stream in
  let info_string :=
    if truthy language_code
    then "Audio (" ++ str_of_opt language_code ++ "), " ++ codec
    else "Audio, " ++ codec in
  let info_string := append_clause info_string (option_map bit_rate_text_of bit_rate) in
  other_stream index (Some "audio") (Some codec) info_string bit_rate language_code.

(** The branch [stream['codec_type'] == "subtitle"]; it leaves [s.type]
    as it is. *)
Definition process_subtitle_stream (stream : Probe.stream) (index : Z) : Stream.t :=
  let codec := subtitle_codec stream in
  let language_code := language_of stream in
  let info_string :=
    if truthy language_code
    then "Subtitle (" ++ str_of_opt language_code ++ "), " ++ codec
    else "Subtitle, " ++ codec in
  other_stream index None (Some codec) info_string None language_code.

(** [self._process_stream(stream)]: the [Stream] object, and [self] with the
    attributes the video branch assigns. *)
Definition _process_stream (self : Video.t) (stream : Probe.stream)
  : result (Video.t * Stream.t) :=
  index <- getitem "index" (Probe.index stream) ;;
  match Probe.codec_type stream with
  | None => Ok (self, other_stream index (Some "unknown") None "Data" None None)
  | Some codec_type =>
      if (codec_type =? "video")%string then process_video_stream self stream index
      else if (codec_type =? "audio")%string then
        Ok (self, process_audio_stream stream index)
      else if (codec_type =? "subtitle")%string then
        Ok (self, process_subtitle_stream stream index)
      else Ok (self, other_stream index (Some codec_type) None "Data" None None)
  end.

(** The loop of [_extract_streams]:
    [self.streams.append(self._process_stream(stream))] for each stream. *)
Fixpoint extract_streams_loop (self : Video.t) (raw : list Probe.stream)
  : result Video.t :=
  match raw with
  | [] => Ok self
  | stream :: raw' =>
      ' (self, s) <- _process_stream self stream ;;
      extract_streams_loop
        (Video.set_streams self (Video.streams self ++ [s])%list) raw'
  end.

(** [self._extract_streams()] on [self._ffprobe['streams'] = raw]. *)
Definition _extract_streams (self : Video.t) (raw : list Probe.stream)
  : result Video.t :=
  extract_streams_loop (Video.set_streams self []) raw.

(** *** [Video.__init__] *)

(** [def __init__(self, video, ffprobe_bin='ffprobe')]. *)
Definition __init___signature : Call.signature :=
  {| Call.name := "__init__";
     Call.parameters := [("video", None); ("ffprobe_bin", Some (Call.VStr "ffprobe"))] |}.

(** ["%02d:%02d:%05.2f" % (hh, mm, ss)] of [_extract_duration]. *)
Definition duration_human_of (t : Q) : string :=
  let hh := int_of_float t / 3600 in
  let mm := (int_of_float t / 60) mod 60 in
  let ss := Qred (t - float_of_int (int_of_float t / 60 * 60)) in
  zero_pad 2 (str_of_int hh) ++ ":" ++ zero_pad 2 (str_of_int mm) ++ ":"
    ++ zero_pad 5 (str_of_float 2 ss).

(** A call of [metadata.Video] with positional arguments [args] and keyword
    arguments [kwargs]: they are bound to the parameters of [__init__], then
    its body runs.  The message of the
    [OSError] of a failed ffprobe is given before its [strip()]. *)
Definition __init__ (w : World.world) (args : list Call.value)
           (kwargs : list (string * Call.value)) : World.M Video.t :=
  (locals <- World.lift (Call.bind_arguments __init___signature args kwargs) ;;
   video <- World.lift (Call.as_str "video" (Call.assoc "video" locals)) ;;
   let path := World.abspath w video in
   _ <- World.emit (World.PathExists path) ;;
   if negb (World.path_exists w path)
   then World.raise (OSError ("'" ++ video ++ "' does not exist"))
   else
     let filename := World.basename w path in
     (* self._call_ffprobe(ffprobe_bin) *)
     ffprobe_bin <-
       World.lift (Call.as_str "ffprobe_bin" (Call.assoc "ffprobe_bin" locals)) ;;
     _ <- World.emit (World.RunFFprobe ffprobe_bin path) ;;
     match World.ffprobe w ffprobe_bin path with
     | inl ffprobe_err =>
         World.raise
           (OSError ("ffprobe failed on '" ++ path ++ "'" ++ String "010" ffprobe_err))
     | inr _ffprobe =>
         (* self._extract_title(), _extract_size(), _extract_duration() *)
         let size := Probe.format_size _ffprobe in
         let duration := Probe.format_duration _ffprobe in
         (* self._extract_scan_type(ffprobe_bin) *)
         _ <- World.emit (World.ReadHead path) ;;
         _ <- World.emit (World.RunFFprobeFrames ffprobe_bin) ;;
         let scan_type :=
           if World.interlaced_frame w ffprobe_bin path
           then "Interlaced scan" else "Progressive scan" in
         let self :=
           {| Video.path := path; Video.filename := filename;
              Video.title := Probe.format_title _ffprobe;
              Video.size := size; Video.size_human := size_human size;
              Video.duration := duration;
              Video.duration_human := duration_human_of duration;
              Video.scan_type := scan_type; Video.sha1sum := None;
              Video.dimension := None; Video.dimension_text := None;
              Video.dar := None; Video.dar_text := None;
              Video.frame_rate := None; Video.frame_rate_text := None;
              Video.streams := [] |} in
         World.lift (_extract_streams self (Probe.streams _ffprobe))
     end)%world.

End Metadata.

(** ** storyboard.py *)

Module Storyboard.

Import Pillow.

(** *** [tile_images] *)

(** The keys of [params] that [tile_images] understands; [None] is a key
    that is missing (for [tile_size], also one that is there with the value
    [None]). *)
Record tile_params : Type := {
  tile_size : option (Z * Z);
  tile_spacing : option (Z * Z);
  margins : option (Z * Z);
  canvas_color : option string;
  close_separate_images : option bool
}.

(** [params = {}]. *)
Definition no_params : tile_params :=
  {| tile_size := None; tile_spacing := None; margins := None;
     canvas_color := None; close_separate_images := None |}.

Definition get {A} (o : option A) (default : A) : A :=
  match o with
  | Some a => a
  | None => default
  end.

(** ["{} images cannot fit into a {}x{}={} array"]. *)
Definition count_message (n cols rows : Z) : string :=
  str_of_int n ++ " images cannot fit into a " ++ str_of_int cols ++ "x"
    ++ str_of_int rows ++ "=" ++ str_of_int (cols * rows) ++ " array".

(** The message of both consistency checks, [what] being ["width"] or
    ["height"], with the ten arguments of [format] in their order. *)
Definition mismatch_message (what : string)
           (a0 a1 a2 a3 a4 a5 a6 a7 a8 a9 : Z) : string :=
  "the " ++ what ++ " of image #" ++ str_of_int a0
    ++ " (row #" ++ str_of_int a1 ++ ", col #" ++ str_of_int a2 ++ ", "
    ++ str_of_int a3 ++ "x" ++ str_of_int a4 ++ ") "
    ++ "does not agree with that of image #" ++ str_of_int a5
    ++ " (row #" ++ str_of_int a6 ++ ", col #" ++ str_of_int a7 ++ ", "
    ++ str_of_int a8 ++ "x" ++ str_of_int a9 ++ ")".

(** The check of the column widths, which adds up the canvas width. *)
Definition check_columns (images : list Image) (cols rows : Z) (start : Z)
  : result Z :=
  for_each (range 0 cols)
    (fun col canvas_width =>
       (* reference width set by the first image in the column *)
       let ref_index := 0 * cols + col in
       ref <- index images ref_index ;;
       let '(ref_width, ref_height) := size ref in
       let canvas_width := canvas_width + ref_width in
       _ <- for_each (range 1 rows)
              (fun row (_ : unit) =>
                 let index := row * cols + col in
                 image <- Py.index images index ;;
                 let '(width, height) := size image in
                 if negb (width =? ref_width) then
                   Raise (ValueError
                            (mismatch_message "width"
                               index row col width height
                               ref_index 0 col ref_width ref_height))
                 else Ok tt) tt ;;
       Ok canvas_width)
    start.

(** The check of the row heights, which adds up the canvas height. *)
Definition check_rows (images : list Image) (cols rows : Z) (start : Z)
  : result Z :=
  for_each (range 0 rows)
    (fun row canvas_height =>
       let ref_index := row * cols + 0 in
       ref <- index images ref_index ;;
       let '(ref_width, ref_height) := size ref in
       let canvas_height := canvas_height + ref_height in
       _ <- for_each (range 1 cols)
              (fun col (_ : unit) =>
                 let index := row * cols + col in
                 image <- Py.index images index ;;
                 let '(width, height) := size image in
                 if negb (height =? ref_height) then
                   Raise (ValueError
                            (mismatch_message "height"
                               index row col width height
                               ref_index 0 col ref_width ref_height))
                 else Ok tt) tt ;;
       Ok canvas_height)
    start.

(** The loops that paste the images; the state is the canvas and [y]
    (outer loop), the canvas and [x] (inner loop). *)
Definition assemble (images : list Image) (cols rows : Z)
           (resize_to : option (Z * Z)) (hor_spacing ver_spacing hor_margin ver_margin : Z)
           (canvas : Image) : result (Image * Z) :=
  for_each (range 0 rows)
    (fun row '(canvas, y) =>
       ' (canvas, x) <-
         for_each (range 0 cols)
           (fun col '(canvas, x) =>
              image <- index images (row * cols + col) ;;
              let canvas :=
                match resize_to with
                | Some tile_size => paste canvas (resize image tile_size) (x, y)
                | None => paste canvas image (x, y)
                end in
              (* accumulate width of this column, as well as horizontal spacing *)
              Ok (canvas, x + fst (size image) + hor_spacing))
           (canvas, hor_margin) ;;
       (* accumulate height of this row, as well as vertical spacing *)
       first <- index images (row * cols + 0) ;;
       Ok (canvas, y + snd (size first) + ver_spacing))
    (canvas, ver_margin).

(** [tile_images(images, tile, params)]: the composite image, and [images]
    as the call leaves them. *)
Definition tile_images (images : list Image) (tile : Z * Z) (params : tile_params)
  : result (Image * list Image) :=
  let '(cols, rows) := tile in
  if negb (Z.of_nat (List.length images) =? cols * rows) then
    Raise (ValueError (count_message (Z.of_nat (List.length images)) cols rows))
  else
    let '(hor_spacing, ver_spacing) := get (tile_spacing params) (0, 0) in
    let '(hor_margin, ver_margin) := get (margins params) (0, 0) in
    let close_separate_images := get (close_separate_images params) false in
    ' (canvas_width, canvas_height) <-
      match tile_size params with
      | Some (tile_width, tile_height) =>
          Ok (tile_width * cols + hor_spacing * (cols - 1) + hor_margin * 2,
              tile_height * rows + ver_spacing * (rows - 1) + ver_margin * 2)
      | None =>
          canvas_width <-
            check_columns images cols rows (hor_spacing * (cols - 1) + hor_margin * 2) ;;
          canvas_height <-
            check_rows images cols rows (ver_spacing * (rows - 1) + ver_margin * 2) ;;
          Ok (canvas_width, canvas_height)
      end ;;
    (* start assembling images *)
    let canvas := new (canvas_width, canvas_height) in
    ' (canvas, _) <-
      assemble images cols rows (tile_size params)
        hor_spacing ver_spacing hor_margin ver_margin canvas ;;
    Ok (canvas, if close_separate_images then map close images else images).

(** *** The class [StoryBoard] *)

(** A [StoryBoard] object: the attributes [__init__] assigns, and the
    attributes [_bins] and [_frame_codec] that [gen_frames] reads, [None]
    while the object has no such attribute. *)
Record t : Type := {
  video : Metadata.Video.t;
  frames : list World.Frame;
  _bins : option (list string);
  _frame_codec : option string
}.

(** [StoryBoard.__init__(self, video, num_thumbnails, ffmpeg_bin,
    ffprobe_bin, codec, print_progress)]. *)
Definition __init__ (w : World.world)
           (video num_thumbnails ffmpeg_bin ffprobe_bin codec print_progress : Call.value)
  : World.M t :=
  (v <- Metadata.__init__ w [video]
          [("params", Call.VDict [("ffprobe_bin", ffprobe_bin);
                                  ("print_progress", print_progress)])] ;;
   World.ret {| video := v; frames := []; _bins := None; _frame_codec := None |})%world.

(** Lines 605 to 607 of [gen_frames]: [interval = duration / count] and
    [timestamps = [interval * (i + 1/2) for i in range(0, count)]]. *)
Definition sample_timestamps (duration : Q) (count : Z) : result (list Q) :=
  interval <- truediv duration (float_of_int count) ;;
  Ok (map (fun i => Qred (interval * (float_of_int i + 1 / 2))) (range 0 count)).

Definition getattr {A} (attr : string) (o : option A) : result A :=
  match o with
  | Some a => Ok a
  | None => Raise (AttributeError attr)
  end.

(** The body of [for timestamp in timestamps], on [self] and [counter]. *)
Definition extract_one (w : World.world) (count : Z) (print_progress : bool)
           (timestamp : Q) (state : t * Z) : World.M (t * Z) :=
  (let '(self, counter) := state in
   let counter := counter + 1 in
   _ <- (if print_progress
         then World.emit (World.Stderr (String "013" "Extracting frame "
                 ++ str_of_int counter ++ "/" ++ str_of_int count ++ "..."))
         else World.ret tt) ;;
   World.on_exception
     (bins <- World.lift (getattr "_bins" (_bins self)) ;;
      ffmpeg_bin <- World.lift (index bins 0) ;;
      codec <- World.lift (getattr "_frame_codec" (_frame_codec self)) ;;
      let path := Metadata.Video.path (video self) in
      _ <- World.emit (World.ExtractFrame ffmpeg_bin codec path timestamp) ;;
      match World.extract_frame w ffmpeg_bin codec path timestamp with
      | Some frame =>
          World.ret ({| video := video self; frames := (frames self ++ [frame])%list;
                        _bins := _bins self; _frame_codec := _frame_codec self |},
                     counter)
      | None => World.raise (OSError "frame extraction failed")
      end)
     (if print_progress then World.emit (World.Stderr (String "010" ""))
      else World.ret tt))%world.

(** [self.gen_frames(count, params)] with [print_progress] the value of
    that key of [params] ([False] when missing): [self] afterwards. *)
Definition gen_frames (w : World.world) (self : t) (count : Z) (print_progress : bool)
  : World.M t :=
  (if Z.of_nat (List.length (frames self)) =? count then World.ret self
   else
     let duration := Metadata.Video.duration (video self) in
     timestamps <- World.lift (sample_timestamps duration count) ;;
     ' (self, _) <- World.for_each timestamps (extract_one w count print_progress)
                      (self, 0) ;;
     _ <- (if print_progress then World.emit (World.Stderr (String "010" ""))
           else World.ret tt) ;;
     World.ret self)%world.

End Storyboard.

(** ** Sample inputs *)

Module Samples.

Import Pillow.

(** An image of the given size that nothing was done to yet. *)
Definition blank (w h : Z) (id : nat) : Image :=
  {| size := (w, h); pixels := id; closed := false; pasted := [] |}.

(** Four 10x10 thumbnails, the last one 10x20. *)
Definition uneven_row : list Image :=
  [blank 10 10 0; blank 10 10 1; blank 10 10 2; blank 10 20 3].

(** Four 100x100 frames. *)
Definition four_frames : list Image :=
  [blank 100 100 0; blank 100 100 1; blank 100 100 2; blank 100 100 3].

(** [params = {'tile_size': tile_size, 'tile_spacing': tile_spacing}]. *)
Definition resize_params (tile_size tile_spacing : Z * Z) : Storyboard.tile_params :=
  {| Storyboard.tile_size := Some tile_size;
     Storyboard.tile_spacing := Some tile_spacing;
     Storyboard.margins := None; Storyboard.canvas_color := None;
     Storyboard.close_separate_images := None |}.

(** A video stream as ffprobe reports it, with the given index, size,
    [display_aspect_ratio] and [r_frame_rate]. *)
Definition video_stream (index w h : Z) (dar r_frame_rate : option string)
  : Probe.stream :=
  {| Probe.index := Some index; Probe.codec_type := Some "video";
     Probe.codec_name := Some "h264"; Probe.codec_tag_string := None;
     Probe.profile := Some "High"; Probe.level := Some 41;
     Probe.width := Some w; Probe.height := Some h;
     Probe.display_aspect_ratio := dar;
     Probe.r_frame_rate := r_frame_rate; Probe.avg_frame_rate := None;
     Probe.bit_rate := None; Probe.stream_tags := None |}.

(** A ten second [Video] about to run [_extract_streams]. *)
Definition fresh_video : Metadata.Video.t :=
  {| Metadata.Video.path := "/tmp/clip.mp4"; Metadata.Video.filename := "clip.mp4";
     Metadata.Video.title := None;
     Metadata.Video.size := 1536; Metadata.Video.size_human := "1.50KiB";
     Metadata.Video.duration := 10; Metadata.Video.duration_human := "00:00:10.00";
     Metadata.Video.scan_type := "Progressive scan"; Metadata.Video.sha1sum := None;
     Metadata.Video.dimension := None; Metadata.Video.dimension_text := None;
     Metadata.Video.dar := None; Metadata.Video.dar_text := None;
     Metadata.Video.frame_rate := None; Metadata.Video.frame_rate_text := None;
     Metadata.Video.streams := [] |}.

(** A [StoryBoard] of that video that holds no frame yet. *)
Definition fresh_board : Storyboard.t :=
  {| Storyboard.video := fresh_video; Storyboard.frames := [];
     Storyboard._bins := None; Storyboard._frame_codec := None |}.

(** A world where every path exists and every tool fails. *)
Definition barren : World.world :=
  {| World.abspath := fun path => path; World.basename := fun path => path;
     World.path_exists := fun _ => true;
     World.ffprobe := fun _ _ => inl "";
     World.interlaced_frame := fun _ _ => false;
     World.extract_frame := fun _ _ _ _ => None |}.

End Samples.

(** ** The words of the specification *)

Module Spec.





(** The value [f] and the text [g] of the first stream of [l] that has a
    value [f]; both absent when no stream has one. *)
Fixpoint first_present {A B : Type} (f : Metadata.Stream.t -> option A)
         (g : Metadata.Stream.t -> option B) (l : list Metadata.Stream.t)
  : option A * option B :=
  match l with
  | [] => (None, None)
  | s :: l' =>
      match f s with
      | Some a => (Some a, g s)
      | None => first_present f g l'
      end
  end.

(** The image that sits in a row and a column of the grid. *)
Definition source (images : list Pillow.Image) (cols row col : Z) : Pillow.Image :=
  nth (Z.to_nat (row * cols + col)) images (Pillow.new (0, 0)).

(** The sum of [f x] over the [x] of [xs]. *)
Definition sum_over (xs : list Z) (f : Z -> Z) : Z :=
  fold_right (fun x acc => f x + acc) 0 xs.

(** Where a column starts in a row: the margin, then the widths of the
    images to its left in that row, each with the spacing. *)
Definition x_offset (images : list Pillow.Image) (cols hor_spacing hor_margin row col : Z)
  : Z :=
  hor_margin
  + sum_over (range 0 col)
      (fun c => fst (Pillow.size (source images cols row c)) + hor_spacing).

(** Where a row starts: the margin, then the heights of the first images
    of the rows above, each with the spacing. *)
Definition y_offset (images : list Pillow.Image) (cols ver_spacing ver_margin row : Z)
  : Z :=
  ver_margin
  + sum_over (range 0 row)
      (fun r => snd (Pillow.size (source images cols r 0)) + ver_spacing).

(** What is pasted for one cell of the grid: the pixels of its image, in
    the tile size when there is one, else in their own size, at the offsets
    of its column and of its row. *)
Definition cell (images : list Pillow.Image) (cols : Z) (resize_to : option (Z * Z))
           (hor_spacing ver_spacing hor_margin ver_margin row col : Z)
  : nat * (Z * Z) * (Z * Z) :=
  let image := source images cols row col in
  (Pillow.pixels image,
   match resize_to with
   | Some tile_size => tile_size
   | None => Pillow.size image
   end,
   (x_offset images cols hor_spacing hor_margin row col,
    y_offset images cols ver_spacing ver_margin row)).

(** The cells of the grid row after row, each row from left to right. *)
Definition layout (images : list Pillow.Image) (cols rows : Z) (resize_to : option (Z * Z))
           (hor_spacing ver_spacing hor_margin ver_margin : Z)
  : list (nat * (Z * Z) * (Z * Z)) :=
  flat_map
    (fun row =>
       map (cell images cols resize_to hor_spacing ver_spacing hor_margin ver_margin row)
           (range 0 cols))
    (range 0 rows).

(** The images of a column are as wide as its first one. *)
Definition widths_agree (images : list Pillow.Image) (cols rows : Z) : Prop :=
  forall row col, 0 <= row < rows -> 0 <= col < cols ->
    fst (Pillow.size (source images cols row col))
    = fst (Pillow.size (source images cols 0 col)).

(** The images of a row are as high as its first one. *)
Definition heights_agree (images : list Pillow.Image) (cols rows : Z) : Prop :=
  forall row col, 0 <= row < rows -> 0 <= col < cols ->
    snd (Pillow.size (source images cols row col))
    = snd (Pillow.size (source images cols row 0)).

End Spec.

(** ** Notions used to state further properties *)

Module Props.


End Props.


(** ** storyboard.py: fonts, text blocks, thumbnails and the parts of a storyboard *)

Module Render.

(** *** Exceptions *)

(** Besides the exceptions of [Py.exn] this code can raise
    [UnboundLocalError]: it reads local variables that are assigned in one
    branch only. *)
Inductive error : Type :=
| Builtin (e : exn)
| UnboundLocalError (name : string).

Inductive outcome (A : Type) : Type :=
| Done (a : A)
| Fail (e : error).
Arguments Done {A} a.
Arguments Fail {A} e.

Definition bind {A B} (r : outcome A) (k : A -> outcome B) : outcome B :=
  match r with
  | Done a => k a
  | Fail e => Fail e
  end.

Definition of_result {A} (r : result A) : outcome A :=
  match r with
  | Ok a => Done a
  | Raise e => Fail (Builtin e)
  end.

(** Reading the local variable [name], which holds a value only when an
    assignment to it was executed. *)
Definition local {A} (name : string) (o : option A) : outcome A :=
  match o with
  | Some a => Done a
  | None => Fail (UnboundLocalError name)
  end.

(** [for x in xs: s = body(x, s)], leaving at the first exception. *)
Fixpoint for_each {X St : Type} (xs : list X) (body : X -> St -> outcome St) (s : St)
  : outcome St :=
  match xs with
  | [] => Done s
  | x :: xs' => bind (body x s) (for_each xs' body)
  end.

End Render.

Declare Scope render_scope.
Delimit Scope render_scope with render.
Notation "x <- e ;; k" := (Render.bind e (fun x => k))
  (at level 61, e at next level, right associativity) : render_scope.
Notation "' pat <- e ;; k" := (Render.bind e (fun x => match x with pat => k end))
  (at level 61, pat pattern, e at next level, right associativity) : render_scope.

(** *** Text and fonts *)

Module Text.

Import Render.

(** The characters at which [str.splitlines] of Python 3 ends a line,
    among the first 256 code points: LF, VT, FF, CR, FS, GS, RS and NEL;
    CR LF counts once. *)
Definition is_linebreak (c : ascii) : bool :=
  let n := nat_of_ascii c in
  ((n =? 10) || (n =? 11) || (n =? 12) || (n =? 13)
   || (n =? 28) || (n =? 29) || (n =? 30) || (n =? 133))%nat.

(** [splitlines] with the line read so far. *)
Fixpoint splitlines_from (line : string) (s : string) : list string :=
  match s with
  | EmptyString =>
      match line with
      | EmptyString => []
      | _ => [line]
      end
  | String c s' =>
      if Ascii.eqb c "013"%char then
        match s' with
        | String c' s'' =>
            if Ascii.eqb c' "010"%char then line :: splitlines_from "" s''
            else line :: splitlines_from "" s'
        | EmptyString => line :: splitlines_from "" s'
        end
      else if is_linebreak c then line :: splitlines_from "" s'
      else splitlines_from (line ++ String c "") s'
  end.

(** [text.splitlines()]. *)
Definition splitlines (text : string) : list string := splitlines_from "" text.

(** A font object of Pillow, as [ImageFont.truetype] makes it of a file and
    a size. *)
Record FreeTypeFont : Type := {
  font_file : string;
  font_size : Z
}.

(** What this code asks of its surroundings: the path of a file of the
    package ([pkg_resources.resource_filename(__name__, name)]), whether
    FreeType loads a font file at a size ([ImageFont.truetype] raises
    [IOError] when it does not), the size of a line of text in a font
    ([ImageDraw.Draw.textsize]), [util.humantime(t, ndigits=0)] and the
    version string of the package. *)
Record typesetter : Type := {
  resource_filename : string -> string;
  truetype_loads : string -> Z -> bool;
  textsize : string -> FreeTypeFont -> Z * Z;
  humantime : Q -> string;
  __version__ : string
}.

(** A line of text drawn by [ImageDraw.Draw.text]. *)
Record drawn : Type := {
  xy : Z * Z;
  line : string;
  fill : string;
  face : FreeTypeFont
}.

(** An image with the text drawn on it, in the order of the drawing. *)
Record Sheet : Type := {
  image : Pillow.Image;
  texts : list drawn
}.

(** [ImageDraw.Draw(sheet).text(xy, line, fill=fill, font=face)]. *)
Definition draw_text (sheet : Sheet) (xy : Z * Z) (line fill : string)
           (face : FreeTypeFont) : Sheet :=
  {| image := image sheet;
     texts := (texts sheet
               ++ [{| xy := xy; line := line; fill := fill; face := face |}])%list |}.

(** The class [Font]. *)
Module Font.

Record t : Type := {
  obj : FreeTypeFont;
  size : Z
}.

End Font.

Definition DEFAULT_FONT_FILE (ts : typesetter) : string :=
  resource_filename ts "SourceCodePro-Regular.otf".

Definition DEFAULT_FONT_SIZE : Z := 16.

(** [Font(font_file, font_size)], a [None] standing for an argument that is
    [None] or left out. *)
Definition Font__init__ (ts : typesetter) (font_file : option string)
           (font_size : option Z) : outcome Font.t :=
  let font_file := Storyboard.get font_file (DEFAULT_FONT_FILE ts) in
  let font_size := Storyboard.get font_size DEFAULT_FONT_SIZE in
  if truetype_loads ts font_file font_size then
    Done {| Font.obj := {| font_file := font_file; font_size := font_size |};
            Font.size := font_size |}
  else
    Fail (Builtin (OSError ("font file '" ++ font_file ++ "' cannot be loaded"))).

(** [params[key] if key in params else Font()]. *)
Definition font_or_default (ts : typesetter) (o : option Font.t) : outcome Font.t :=
  match o with
  | Some font => Done font
  | None => Font__init__ ts None None
  end.

(** *** [draw_text_block] *)

(** The keys of [params] that [draw_text_block] understands. *)
Module TextBlock.

Record params : Type := {
  font : option Font.t;
  color : option string;
  spacing : option Q;
  dry_run : option bool
}.

End TextBlock.

(** The body of [for line in text.splitlines()]: the state is the local
    variable [draw] (the canvas that is drawn on, if [draw] was assigned),
    [width], [height] and [y]. *)
Definition draw_line (ts : typesetter) (font : Font.t) (color : string)
           (dry_run : bool) (x line_height : Z) (line : string)
           (state : option Sheet * Z * Z * Z) : outcome (option Sheet * Z * Z * Z) :=
  (let '(draw, width, height, y) := state in
   sheet <- local "draw" draw ;;
   let '(w, _) := textsize ts line (Font.obj font) in
   let sheet :=
     if negb dry_run then draw_text sheet (x, y) line color (Font.obj font)
     else sheet in
   let width := if width <? w then w else width in
   Done (Some sheet, width, height + line_height, y + line_height))%render.

(** [draw_text_block(canvas, xy, text, params)]: the canvas afterwards and
    the size of the text block.  [canvas] is [None] for the [None] of
    Python, on which [ImageDraw.Draw] fails. *)
Definition draw_text_block (ts : typesetter) (canvas : option Sheet) (xy : Z * Z)
           (text : string) (params : TextBlock.params)
  : outcome (option Sheet * (Z * Z)) :=
  (let '(x, y) := xy in
   font <- font_or_default ts (TextBlock.font params) ;;
   let color := Storyboard.get (TextBlock.color params) "black" in
   let spacing := Storyboard.get (TextBlock.spacing params) (12 # 10) in
   let dry_run := Storyboard.get (TextBlock.dry_run params) false in
   draw <-
     (if negb dry_run then
        match canvas with
        | Some sheet => Done (Some sheet)
        | None => Fail (Builtin (AttributeError "load"))
        end
      else Done None) ;;
   let line_height := round_half_even (Qred (inject_Z (Font.size font) * spacing)) in
   ' (draw, width, height, _) <-
     for_each (splitlines text) (draw_line ts font color dry_run x line_height)
       (draw, 0, 0, y) ;;
   Done (match draw with
         | Some sheet => Some sheet
         | None => canvas
         end, (width, height)))%render.

(** *** [create_thumbnail] *)

(** The keys of [params] that [create_thumbnail] understands; the value of
    [aspect_ratio] may be [None]. *)
Module Thumbnail.

Record params : Type := {
  aspect_ratio : option (option Q);
  draw_timestamp : option bool;
  timestamp_font : option Font.t;
  timestamp_align : option string
}.

End Thumbnail.

(** The two loops that draw the black border of the timestamp. *)
Definition draw_border (thumbnail : Sheet) (timestamp_x timestamp_y : Z)
           (timestamp_text : string) (face : FreeTypeFont) : Sheet :=
  fold_left
    (fun thumbnail x_offset =>
       fold_left
         (fun thumbnail y_offset =>
            draw_text thumbnail (timestamp_x + x_offset, timestamp_y + y_offset)
              timestamp_text "black" face)
         (range (-1) 2) thumbnail)
    (range (-1) 2) thumbnail.

(** [create_thumbnail(frame, width, params)]. *)
Definition create_thumbnail (ts : typesetter) (frame : World.Frame) (width : Z)
           (params : Thumbnail.params) : outcome Sheet :=
  (aspect_ratio <-
     match Thumbnail.aspect_ratio params with
     | Some aspect_ratio => Done aspect_ratio
     | None =>
         let '(image_width, image_height) := Pillow.size (World.image frame) in
         aspect_ratio <-
           of_result (truediv (float_of_int image_width) (float_of_int image_height)) ;;
         Done (Some aspect_ratio)
     end ;;
   quotient <-
     match aspect_ratio with
     | Some aspect_ratio => of_result (truediv (float_of_int width) aspect_ratio)
     | None =>
         Fail (Builtin (TypeError
                          "unsupported operand type(s) for /: 'int' and 'NoneType'"))
     end ;;
   let height := round_half_even quotient in
   let size := (width, height) in
   let draw_timestamp := Storyboard.get (Thumbnail.draw_timestamp params) false in
   ' (timestamp_font, timestamp_align) <-
     (if draw_timestamp then
        timestamp_font <- font_or_default ts (Thumbnail.timestamp_font params) ;;
        Done (Some timestamp_font,
              Some (Storyboard.get (Thumbnail.timestamp_align params) "right"))
      else Done (None, None)) ;;
   let thumbnail :=
     {| image := Pillow.resize (World.image frame) size; texts := [] |} in
   if draw_timestamp then
     let timestamp_text := humantime ts (World.timestamp frame) in
     timestamp_font <- local "timestamp_font" timestamp_font ;;
     let '(timestamp_width, timestamp_height) :=
       textsize ts timestamp_text (Font.obj timestamp_font) in
     (* calculate upperleft corner of the timestamp overlay *)
     let timestamp_y := height - 5 - timestamp_height in
     timestamp_align <- local "timestamp_align" timestamp_align ;;
     timestamp_x <-
       (if (timestamp_align =? "right")%string then Done (width - 5 - timestamp_width)
        else if (timestamp_align =? "left")%string then Done 5
        else if (timestamp_align =? "center")%string then
          Done (int_of_float (Qred (inject_Z (width - timestamp_width) / 2)))
        else
          Fail (Builtin (ValueError ("timestamp alignment option '" ++ timestamp_align
                                       ++ "' not recognized")))) ;;
     (* draw white timestamp with 1px thick black border *)
     let thumbnail :=
       draw_border thumbnail timestamp_x timestamp_y timestamp_text
         (Font.obj timestamp_font) in
     Done (draw_text thumbnail (timestamp_x, timestamp_y) timestamp_text "white"
             (Font.obj timestamp_font))
   else Done thumbnail)%render.

(** *** [StoryBoard._gen_promotional_banner] *)

Module Banner.

Record params : Type := {
  text_font : option Font.t;
  text_color : option string;
  background_color : option string
}.

End Banner.

(** [StoryBoard._gen_promotional_banner(total_width, params)]. *)
Definition _gen_promotional_banner (ts : typesetter) (total_width : Z)
           (params : Banner.params) : outcome (option Sheet) :=
  (text_font <- font_or_default ts (Banner.text_font params) ;;
   let text_color := Storyboard.get (Banner.text_color params) "black" in
   let background_color := Storyboard.get (Banner.background_color params) "white" in
   let text :=
     "Generated by storyboard version " ++ __version__ ts ++ ". "
       ++ "Fork me on GitHub: github.com/zmwangx/storyboard" in
   ' (_, (text_width, total_height)) <-
     draw_text_block ts None (0, 0) text
       {| TextBlock.font := Some text_font; TextBlock.color := None;
          TextBlock.spacing := None; TextBlock.dry_run := Some true |} ;;
   let banner :=
     {| image := Pillow.new (total_width, total_height); texts := [] |} in
   (* center the text *)
   let text_x := int_of_float (Qred (inject_Z (total_width - text_width) / 2)) in
   ' (banner, _) <-
     draw_text_block ts (Some banner) (text_x, 0) text
       {| TextBlock.font := Some text_font; TextBlock.color := Some text_color;
          TextBlock.spacing := None; TextBlock.dry_run := None |} ;;
   Done banner)%render.

End Text.

(** *** Effects of the drawing code *)

Module Stage.

Import Render.

(** Computations that act on the world and may raise any [error]. *)
Definition M (A : Type) : Type := list World.event -> outcome A * list World.event.

Definition ret {A} (a : A) : M A := fun log => (Done a, log).

Definition raise {A} (e : error) : M A := fun log => (Fail e, log).

Definition bind {A B} (m : M A) (k : A -> M B) : M B :=
  fun log =>
    match m log with
    | (Done a, log') => k a log'
    | (Fail e, log') => (Fail e, log')
    end.

Definition lift {A} (r : outcome A) : M A := fun log => (r, log).

(** A computation of [World.M], its exception kept. *)
Definition of_world {A} (m : World.M A) : M A :=
  fun log => let (r, log') := m log in (of_result r, log').

Definition emit (e : World.event) : M unit := fun log => (Done tt, (log ++ [e])%list).

(** [for x in xs: s = body(x, s)]. *)
Fixpoint for_each {X St : Type} (xs : list X) (body : X -> St -> M St) (s : St) : M St :=
  match xs with
  | [] => ret s
  | x :: xs' => bind (body x s) (for_each xs' body)
  end.

End Stage.

Declare Scope stage_scope.
Delimit Scope stage_scope with stage.
Notation "x <- e ;; k" := (Stage.bind e (fun x => k))
  (at level 61, e at next level, right associativity) : stage_scope.
Notation "' pat <- e ;; k" := (Stage.bind e (fun x => match x with pat => k end))
  (at level 61, pat pattern, e at next level, right associativity) : stage_scope.

(** *** [StoryBoard._gen_bare_storyboard] *)

Module Bare.

Import Render Text.

(** The keys of [params] that [_gen_bare_storyboard] understands; the value
    of [thumbnail_aspect_ratio] may be [None]. *)
Record params : Type := {
  tile_spacing : option (Z * Z);
  background_color : option string;
  thumbnail_aspect_ratio : option (option Q);
  draw_timestamp : option bool;
  timestamp_font : option Font.t;
  timestamp_align : option string;
  print_progress : option bool
}.

(** The body of [for frame in self.frames]: the state is [thumbnails] and
    [counter]; [timestamp_font] and [timestamp_align] are the local
    variables, which hold a value only if [draw_timestamp] was true. *)
Definition thumbnail_of (ts : typesetter) (thumbnail_width thumbnail_count : Z)
           (thumbnail_aspect_ratio : Q) (draw_timestamp : bool)
           (timestamp_font : option Font.t) (timestamp_align : option string)
           (print_progress : bool) (frame : World.Frame) (state : list Sheet * Z)
  : Stage.M (list Sheet * Z) :=
  (let '(thumbnails, counter) := state in
   let counter := counter + 1 in
   _ <- (if print_progress
         then Stage.emit (World.Stderr (String "013" "Generating thumbnail "
                 ++ str_of_int counter ++ "/" ++ str_of_int thumbnail_count ++ "..."))
         else Stage.ret tt) ;;
   timestamp_font <- Stage.lift (local "timestamp_font" timestamp_font) ;;
   timestamp_align <- Stage.lift (local "timestamp_align" timestamp_align) ;;
   thumbnail <-
     Stage.lift
       (create_thumbnail ts frame thumbnail_width
          {| Thumbnail.aspect_ratio := Some (Some thumbnail_aspect_ratio);
             Thumbnail.draw_timestamp := Some draw_timestamp;
             Thumbnail.timestamp_font := Some timestamp_font;
             Thumbnail.timestamp_align := Some timestamp_align |}) ;;
   Stage.ret ((thumbnails ++ [thumbnail])%list, counter))%stage.

(** [self._gen_bare_storyboard(tile, thumbnail_width, params)] for a [tile]
    of two ints: [self] afterwards and the bare storyboard.  The canvas
    records the thumbnails pasted on it by the pixels and the size of each;
    the timestamps drawn on the thumbnails stay with the thumbnails. *)
Definition _gen_bare_storyboard (w : World.world) (ts : typesetter)
           (self : Storyboard.t) (tile : Z * Z) (thumbnail_width : Z)
           (params : params) : Stage.M (Storyboard.t * Pillow.Image) :=
  (let tile_spacing := Storyboard.get (tile_spacing params) (0, 0) in
   let background_color := Storyboard.get (background_color params) "white" in
   let thumbnail_aspect_ratio :=
     match thumbnail_aspect_ratio params with
     | Some thumbnail_aspect_ratio => thumbnail_aspect_ratio
     | None => Metadata.Video.dar (Storyboard.video self)
     end in
   let draw_timestamp := Storyboard.get (draw_timestamp params) false in
   ' (timestamp_font, timestamp_align) <-
     Stage.lift
       (if draw_timestamp then
          (timestamp_font <- font_or_default ts (timestamp_font params) ;;
           Done (Some timestamp_font,
                 Some (Storyboard.get (timestamp_align params) "right")))%render
        else Done (None, None)) ;;
   let print_progress := Storyboard.get (print_progress params) false in
   let '(cols, rows) := tile in
   if negb ((0 <? cols) && (0 <? rows)) then
     Stage.raise (Builtin (ValueError "tile is not a tuple of positive integers"))
   else
     let thumbnail_count := cols * rows in
     self <- Stage.of_world (Storyboard.gen_frames w self (cols * rows) print_progress) ;;
     thumbnail_aspect_ratio <-
       Stage.lift
         (match thumbnail_aspect_ratio with
          | Some thumbnail_aspect_ratio => Done thumbnail_aspect_ratio
          | None =>
              (frame <- of_result (index (Storyboard.frames self) 0) ;;
               let frame_size := Pillow.size (World.image frame) in
               of_result (truediv (float_of_int (fst frame_size))
                            (float_of_int (snd frame_size))))%render
          end) ;;
     ' (thumbnails, _) <-
       Stage.for_each (Storyboard.frames self)
         (thumbnail_of ts thumbnail_width thumbnail_count thumbnail_aspect_ratio
            draw_timestamp timestamp_font timestamp_align print_progress)
         ([], 0) ;;
     _ <- (if print_progress then Stage.emit (World.Stderr (String "010" ""))
           else Stage.ret tt) ;;
     _ <- (if print_progress
           then Stage.emit (World.Stderr ("Tiling thumbnails..." ++ String "010" ""))
           else Stage.ret tt) ;;
     ' (canvas, _) <-
       Stage.lift
         (of_result
            (Storyboard.tile_images (map image thumbnails) tile
               {| Storyboard.tile_size := None;
                  Storyboard.tile_spacing := Some tile_spacing;
                  Storyboard.margins := None;
                  Storyboard.canvas_color := Some background_color;
                  Storyboard.close_separate_images := Some true |})) ;;
     Stage.ret (self, canvas))%stage.

End Bare.

(** ** Notions used to state the properties of the drawing code *)

Module Layout.

Import Text.

(** The lines of a text block as they are drawn: the first at [(x, y)],
    each of the others [line_height] below the one before. *)
Fixpoint stacked (x y line_height : Z) (fill : string) (face : FreeTypeFont)
         (lines : list string) : list drawn :=
  match lines with
  | [] => []
  | line :: lines' =>
      {| xy := (x, y); line := line; fill := fill; face := face |}
        :: stacked x (y + line_height) line_height fill face lines'
  end.

(** The width of the widest of the lines, and 0 when no line has a
    positive width. *)
Definition widest (ts : typesetter) (face : FreeTypeFont) (lines : list string) : Z :=
  fold_right (fun line width => Z.max (fst (textsize ts line face)) width) 0 lines.

(** The offsets of the nine copies of the timestamp that make its border,
    in the order they are drawn. *)
Definition border_offsets : list (Z * Z) :=
  [(-1, -1); (-1, 0); (-1, 1); (0, -1); (0, 0); (0, 1); (1, -1); (1, 0); (1, 1)].

(** The timestamp as it is drawn at [(x, y)]: nine times in black, once at
    each offset, and then in white. *)
Definition overlay (x y : Z) (text : string) (face : FreeTypeFont) : list drawn :=
  (map (fun d => {| xy := (x + fst d, y + snd d); line := text; fill := "black";
                    face := face |}) border_offsets
   ++ [{| xy := (x, y); line := text; fill := "white"; face := face |}])%list.

End Layout.
(** ** Further sample inputs *)

Module Examples.

(** An AAC audio stream in English, as ffprobe reports it. *)
Definition audio_stream (index : Z) : Probe.stream :=
  {| Probe.index := Some index; Probe.codec_type := Some "audio";
     Probe.codec_name := Some "aac"; Probe.codec_tag_string := None;
     Probe.profile := Some "LC"; Probe.level := None;
     Probe.width := None; Probe.height := None;
     Probe.display_aspect_ratio := None;
     Probe.r_frame_rate := Some "0/0"; Probe.avg_frame_rate := Some "0/0";
     Probe.bit_rate := Some 128000%Q;
     Probe.stream_tags :=
       Some {| Probe.language := Some "eng"; Probe.LANGUAGE := None |} |}.

(** A SubRip subtitle stream in English, as ffprobe reports it. *)
Definition subtitle_stream (index : Z) : Probe.stream :=
  {| Probe.index := Some index; Probe.codec_type := Some "subtitle";
     Probe.codec_name := Some "srt"; Probe.codec_tag_string := None;
     Probe.profile := None; Probe.level := None;
     Probe.width := None; Probe.height := None;
     Probe.display_aspect_ratio := None;
     Probe.r_frame_rate := Some "0/0"; Probe.avg_frame_rate := Some "0/0";
     Probe.bit_rate := None;
     Probe.stream_tags :=
       Some {| Probe.language := Some "eng"; Probe.LANGUAGE := None |} |}.

(** What ffprobe reports of a ten second clip with a video stream and an
    audio stream. *)
Definition report : Probe.output :=
  {| Probe.format_size := 1536; Probe.format_duration := 10;
     Probe.format_title := None;
     Probe.streams :=
       [Samples.video_stream 0 1920 1080 None (Some "25/1"); audio_stream 1] |}.

(** A world where every path exists, ffprobe reports [report] and ffmpeg
    gives a 1920x1080 frame at every time. *)
Definition studio : World.world :=
  {| World.abspath := fun path => "/videos/" ++ path;
     World.basename := fun path => path;
     World.path_exists := fun _ => true;
     World.ffprobe := fun _ _ => inr report;
     World.interlaced_frame := fun _ _ => false;
     World.extract_frame :=
       fun _ _ _ time =>
         Some {| World.timestamp := time; World.image := Samples.blank 1920 1080 0 |} |}.

(** A [StoryBoard] of the sample video that knows its ffmpeg binary and
    its frame codec and holds no frame yet. *)
Definition ready_board : Storyboard.t :=
  {| Storyboard.video := Samples.fresh_video; Storyboard.frames := [];
     Storyboard._bins := Some ["ffmpeg"; "ffprobe"];
     Storyboard._frame_codec := Some "png" |}.

(** The same board once it holds four frames. *)
Definition filled_board : Storyboard.t :=
  {| Storyboard.video := Samples.fresh_video;
     Storyboard.frames :=
       [{| World.timestamp := 5 # 4; World.image := Samples.blank 1920 1080 0 |};
        {| World.timestamp := 15 # 4; World.image := Samples.blank 1920 1080 1 |};
        {| World.timestamp := 25 # 4; World.image := Samples.blank 1920 1080 2 |};
        {| World.timestamp := 35 # 4; World.image := Samples.blank 1920 1080 3 |}];
     Storyboard._bins := Some ["ffmpeg"; "ffprobe"];
     Storyboard._frame_codec := Some "png" |}.

(** A typesetter with a font of fixed width: every font file loads, a
    line is ten pixels wide for each character and sixteen high, and every
    time reads [0:00]. *)
Definition monospace : Text.typesetter :=
  {| Text.resource_filename := fun name => "/pkg/" ++ name;
     Text.truetype_loads := fun _ _ => true;
     Text.textsize := fun line _ => (Z.of_nat (String.length line) * 10, 16);
     Text.humantime := fun _ => "0:00";
     Text.__version__ := "0.1" |}.


(** A [Font] of sixteen pixels. *)
Definition mono16 : Text.Font.t :=
  {| Text.Font.obj := {| Text.font_file := "mono.otf"; Text.font_size := 16 |};
     Text.Font.size := 16 |}.

(** A sheet of 100x100 pixels without text. *)
Definition blank_sheet : Text.Sheet :=
  {| Text.image := Samples.blank 100 100 0; Text.texts := [] |}.

(** A frame of 1920x1080 pixels taken at five seconds. *)
Definition frame_at_5 : World.Frame :=
  {| World.timestamp := 5; World.image := Samples.blank 1920 1080 0 |}.

(** The options of a bare storyboard with timestamps in that font, for
    thumbnails of the aspect ratio 16:9 that are 4 and 3 pixels apart. *)
Definition timestamped : Bare.params :=
  {| Bare.tile_spacing := Some (4, 3); Bare.background_color := None;
     Bare.thumbnail_aspect_ratio := Some (Some (16 # 9));
     Bare.draw_timestamp := Some true;
     Bare.timestamp_font := Some mono16; Bare.timestamp_align := None;
     Bare.print_progress := None |}.

End Examples.

(** * Loops and comparisons *)

Import Pillow.

(** ** Loops *)

Section Loops.

Context {S : Type}.
Variable inv : S -> Prop.

Lemma in_range a b x : In x (range a b) <-> a <= x < b.
Proof.
  unfold range. rewrite in_map_iff. split.
  - intros [i [<- Hi]]. apply in_seq in Hi. lia.
  - intros H. exists (Z.to_nat (x - a)). split; [lia|].
    apply in_seq. lia.
Qed.

(** A loop whose body keeps the invariant and never raises ends normally. *)
Lemma for_each_total (xs : list Z) (body : Z -> S -> result S) (s : S) :
  inv s ->
  (forall x t, In x xs -> inv t -> exists t', body x t = Ok t' /\ inv t') ->
  exists s', for_each xs body s = Ok s' /\ inv s'.
Proof.
  revert s. induction xs as [|x xs IH]; intros s Hs Hbody; simpl.
  - eauto.
  - destruct (Hbody x s (or_introl eq_refl) Hs) as [t [-> Ht]]. simpl.
    apply IH; [assumption|]. intros y u Hy. apply Hbody. now right.
Qed.


End Loops.

(** ** Ranges, sums and counting loops *)


Lemma length_range a b : List.length (range a b) = Z.to_nat (b - a).
Proof. unfold range. now rewrite length_map, length_seq. Qed.

Lemma range_cons a b : a < b -> range a b = a :: range (a + 1) b.
Proof.
  intros H. unfold range.
  replace (Z.to_nat (b - a)) with (S (Z.to_nat (b - (a + 1)))) by lia.
  cbn [seq map]. f_equal; [lia|].
  rewrite <- seq_shift, map_map. apply map_ext. intros i. lia.
Qed.

Lemma range_empty a b : b <= a -> range a b = [].
Proof. intros H. unfold range. now replace (Z.to_nat (b - a)) with 0%nat by lia. Qed.

Lemma range_snoc a b : a <= b -> range a (b + 1) = (range a b ++ [b])%list.
Proof.
  intros H. unfold range.
  replace (Z.to_nat (b + 1 - a)) with (Z.to_nat (b - a) + 1)%nat by lia.
  rewrite seq_app, map_app. cbn [seq map]. do 2 f_equal. lia.
Qed.

Lemma sum_over_snoc xs x f : Spec.sum_over (xs ++ [x]) f = Spec.sum_over xs f + f x.
Proof.
  unfold Spec.sum_over. induction xs as [|y xs IH]; cbn [app fold_right]; lia.
Qed.

(** A counting loop whose body takes the invariant from [i] to [i + 1]. *)
Lemma for_each_counting {St : Type} (inv : Z -> St -> Prop)
      (body : Z -> St -> result St) (n : nat) :
  forall (a : Z) (s : St),
    inv a s ->
    (forall i t, a <= i < a + Z.of_nat n -> inv i t ->
                 exists t', body i t = Ok t' /\ inv (i + 1) t') ->
    exists s', for_each (range a (a + Z.of_nat n)) body s = Ok s'
               /\ inv (a + Z.of_nat n) s'.
Proof.
  induction n as [|n IH]; intros a s Hs Hbody.
  - rewrite range_empty by lia. exists s. split; [reflexivity|].
    now replace (a + Z.of_nat 0) with a by lia.
  - rewrite range_cons by lia. cbn [for_each].
    destruct (Hbody a s) as [t [-> Ht]]; [lia | assumption |]. cbn [bind].
    replace (a + Z.of_nat (S n)) with (a + 1 + Z.of_nat n) by lia.
    apply IH; [assumption|]. intros i u Hi. apply Hbody. lia.
Qed.

Lemma for_each_raise {St : Type} (xs : list Z) (body : Z -> St -> result St) :
  forall (s : St) (e : exn),
    for_each xs body s = Raise e -> exists x t, In x xs /\ body x t = Raise e.
Proof.
  induction xs as [|x xs IH]; intros s e; cbn [for_each]; [discriminate|].
  destruct (body x s) as [t|e'] eqn:E; cbn [bind].
  - intros H. destruct (IH _ _ H) as [y [u [Hy Hu]]]. exists y, u. split; [now right | exact Hu].
  - intros [= <-]. exists x, s. split; [now left | exact E].
Qed.

Lemma for_each_ok {St : Type} (xs : list Z) (body : Z -> St -> result St) :
  forall (s s' : St),
    for_each xs body s = Ok s' ->
    forall x, In x xs -> exists t t', body x t = Ok t'.
Proof.
  induction xs as [|x xs IH]; intros s s'; cbn [for_each]; [intros _ y []|].
  destruct (body x s) as [t|e'] eqn:E; cbn [bind]; [|discriminate].
  intros H y [<-|Hy]; [eauto | eapply IH; eassumption].
Qed.

Lemma sum_over_ext xs f g :
  (forall x, In x xs -> f x = g x) -> Spec.sum_over xs f = Spec.sum_over xs g.
Proof.
  unfold Spec.sum_over. induction xs as [|x xs IH]; intros H; cbn [fold_right]; [reflexivity|].
  rewrite (H x), IH; [reflexivity | intros y Hy; apply H; now right | now left].
Qed.

Lemma sum_over_plus xs f c :
  Spec.sum_over xs (fun x => f x + c)
  = Spec.sum_over xs f + Z.of_nat (List.length xs) * c.
Proof.
  unfold Spec.sum_over. induction xs as [|x xs IH]; cbn [fold_right List.length]; lia.
Qed.

(** ** Comparison of floats *)


Lemma Qltb_ge x y : Qltb x y = false <-> (y <= x)%Q.
Proof.
  unfold Qltb. rewrite negb_false_iff. apply Qle_bool_iff.
Qed.


Lemma inject_pos z : 0 < z -> (0 < inject_Z z)%Q.
Proof. intros H. change 0%Q with (inject_Z 0). now rewrite <- Zlt_Qlt. Qed.

Lemma inject_nonzero z : 0 < z -> ~ (inject_Z z == 0)%Q.
Proof. intros H E. apply inject_pos in H. rewrite E in H. discriminate. Qed.

(** * Properties of [metadata.py] *)

(** ** Ratios *)







(** [int] of a nonnegative float is its floor. *)
Lemma int_of_float_floor x : (0 <= x)%Q -> int_of_float x = Qfloor x.
Proof.
  destruct x as [a b]. unfold Qle, int_of_float, Qfloor. simpl. intros H.
  apply Z.quot_div_nonneg; lia.
Qed.

(** ** The text of a frame rate *)




(** ** The display aspect ratio of a video stream *)

(** On nonnegative integers [fractions.gcd] is the greatest common
    divisor. *)
Lemma fractions_gcd_nonneg a b : 0 <= a -> 0 <= b -> fractions_gcd a b = Z.gcd a b.
Proof.
  functional induction (fractions_gcd a b); intros Ha Hb.
  - apply Z.eqb_eq in e. subst b. rewrite Z.gcd_0_r. lia.
  - apply Z.eqb_neq in e.
    rewrite IHz; [|assumption | apply Z.mod_pos_bound; lia].
    rewrite (Z.gcd_comm b), Z.gcd_mod by assumption. apply Z.gcd_comm.
Qed.

Section Reduced.

Variables w h : Z.
Hypothesis w_pos : 0 < w.
Hypothesis h_pos : 0 < h.

Let g := Z.gcd w h.

Lemma gcd_pos : 0 < g.
Proof.
  pose proof (Z.gcd_nonneg w h). unfold g.
  destruct (Z.eq_dec (Z.gcd w h) 0) as [E|]; [|lia].
  apply Z.gcd_eq_0_l in E. lia.
Qed.

Lemma reduced_exact : w = w / g * g /\ h = h / g * g.
Proof.
  pose proof gcd_pos.
  destruct (Z.gcd_divide_l w h) as [p Hp], (Z.gcd_divide_r w h) as [q Hq].
  fold g in Hp, Hq. split.
  - rewrite Hp at 2. rewrite Z.div_mul by lia. exact Hp.
  - rewrite Hq at 2. rewrite Z.div_mul by lia. exact Hq.
Qed.

Lemma reduced_pos : 0 < w / g /\ 0 < h / g.
Proof. pose proof gcd_pos. pose proof reduced_exact. nia. Qed.

Lemma reduced_ratio : (inject_Z (w / g) / inject_Z (h / g) == inject_Z w / inject_Z h)%Q.
Proof.
  destruct reduced_exact as [Hw Hh], reduced_pos as [Hrw Hrh].
  pose proof (inject_nonzero _ gcd_pos). pose proof (inject_nonzero _ Hrh).
  rewrite Hw at 2. rewrite Hh at 2. rewrite !inject_Z_mult.
  field. split; assumption.
Qed.

End Reduced.

(** C1, as stated, fails when the field is there and does not parse: for
    the ratio "0:1" that ffprobe prints when it knows none, the [Stream] of a
    1920x1080 video stream has neither a DAR nor a DAR text. *)
Lemma malformed_ratio_leaves_dar_absent :
  Probe.display_aspect_ratio
    (Samples.video_stream 0 1920 1080 (Some "0:1") (Some "30/1")) = Some "0:1"
  /\ Metadata._evaluate_ratio "0:1" = None
  /\ match Metadata._process_stream Samples.fresh_video
             (Samples.video_stream 0 1920 1080 (Some "0:1") (Some "30/1")) with
     | Ok (_, s) =>
         Metadata.Stream.type s = Some "video"
         /\ Metadata.Stream.dimension s = Some (1920, 1080)
         /\ Metadata.Stream.dar s = None
         /\ Metadata.Stream.dar_text s = None
     | Raise _ => False
     end.
Proof. vm_compute. repeat split; reflexivity. Qed.

(** C1, amended.  For a video stream of positive width [w] and height [h],
    [_process_stream] builds a [Stream].  When [display_aspect_ratio] is
    absent, its DAR is [w/g : h/g], [g] the greatest common divisor of [w]
    and [h]: the value is their quotient (which is [w / h]) and the text is
    "w/g:h/g", so neither is absent.  When the field is there, the DAR is
    what [_evaluate_ratio] makes of it and the text is the field as it is;
    if it does not parse, the DAR and its text are both absent. *)
Theorem process_stream_dar
        (self : Metadata.Video.t) (stream : Probe.stream) (index w h : Z) :
  Probe.index stream = Some index ->
  Probe.codec_type stream = Some "video" ->
  Probe.width stream = Some w ->
  Probe.height stream = Some h ->
  0 < w -> 0 < h ->
  exists self' s,
    Metadata._process_stream self stream = Ok (self', s)
    /\ match Probe.display_aspect_ratio stream with
       | None =>
           let g := Z.gcd w h in
           (exists dar, Metadata.Stream.dar s = Some dar
                        /\ (dar == inject_Z (w / g) / inject_Z (h / g))%Q
                        /\ (dar == inject_Z w / inject_Z h)%Q)
           /\ Metadata.Stream.dar_text s
              = Some (str_of_int (w / g) ++ ":" ++ str_of_int (h / g))
       | Some text =>
           Metadata.Stream.dar s = Metadata._evaluate_ratio text
           /\ Metadata.Stream.dar_text s
              = match Metadata._evaluate_ratio text with
                | Some _ => Some text
                | None => None
                end
       end.
Proof.
  intros Hindex Htype Hw Hh Hwpos Hhpos.
  unfold Metadata._process_stream. rewrite Hindex, Htype.
  cbn [getitem bind]. change ("video" =? "video")%string with true. cbv iota.
  unfold Metadata.process_video_stream. rewrite Hw, Hh. cbn [getitem bind].
  destruct (Probe.display_aspect_ratio stream) as [text|].
  - cbn [bind]. do 2 eexists. split; [reflexivity|]. cbn [Metadata.Stream.dar Metadata.Stream.dar_text].
    split; [reflexivity|]. now destruct (Metadata._evaluate_ratio text).
  - rewrite fractions_gcd_nonneg by lia.
    pose proof (gcd_pos w h Hwpos) as Hg.
    destruct (reduced_pos w h Hwpos Hhpos) as [Hrw Hrh].
    unfold floordiv.
    destruct (Z.eqb_spec (Z.gcd w h) 0) as [E|_]; [lia|]. cbn [bind].
    unfold truediv, float_of_int.
    assert (Hnz : Qeq_bool (inject_Z (h / Z.gcd w h)) 0 = false).
    { apply not_true_iff_false. rewrite Qeq_bool_iff. now apply inject_nonzero. }
    rewrite Hnz. cbn [bind].
    do 2 eexists. split; [reflexivity|].
    cbn [Metadata.Stream.dar Metadata.Stream.dar_text]. cbv zeta.
    split; [|reflexivity].
    eexists. split; [reflexivity|]. rewrite Qred_correct.
    split; [reflexivity | now apply reduced_ratio].
Qed.

Lemma process_stream_dar_witness :
  exists self' s,
    Metadata._process_stream Samples.fresh_video
      (Samples.video_stream 0 1920 1080 None (Some "30/1")) = Ok (self', s)
    /\ (exists dar, Metadata.Stream.dar s = Some dar
                    /\ (dar == inject_Z (1920 / Z.gcd 1920 1080)
                               / inject_Z (1080 / Z.gcd 1920 1080))%Q
                    /\ (dar == inject_Z 1920 / inject_Z 1080)%Q)
    /\ Metadata.Stream.dar_text s = Some "16:9".
Proof.
  apply (process_stream_dar Samples.fresh_video
           (Samples.video_stream 0 1920 1080 None (Some "30/1")) 0 1920 1080
           eq_refl eq_refl eq_refl eq_refl); lia.
Defined.

(** ** What the container takes from its streams *)

Lemma first_present_snoc {A B} (f : Metadata.Stream.t -> option A)
      (g : Metadata.Stream.t -> option B) l s :
  Spec.first_present f g (l ++ [s])
  = match fst (Spec.first_present f g l) with
    | Some _ => Spec.first_present f g l
    | None => match f s with Some a => (Some a, g s) | None => (None, None) end
    end.
Proof.
  induction l as [|x l IH]; simpl.
  - reflexivity.
  - destruct (f x); [reflexivity | exact IH].
Qed.

Lemma first_present_none {A B} (f : Metadata.Stream.t -> option A)
      (g : Metadata.Stream.t -> option B) l :
  fst (Spec.first_present f g l) = None -> Spec.first_present f g l = (None, None).
Proof.
  induction l as [|x l IH]; simpl; [reflexivity|].
  destruct (f x); [discriminate | exact IH].
Qed.

(** A stream that is not a video stream leaves [self] alone and has no
    video attribute. *)
Lemma process_other_stream self stream self' s :
  Metadata._process_stream self stream = Ok (self', s) ->
  Probe.codec_type stream <> Some "video" ->
  self' = self
  /\ Metadata.Stream.type s <> Some "video"
  /\ Metadata.Stream.dimension s = None
  /\ Metadata.Stream.dar s = None
  /\ Metadata.Stream.frame_rate s = None.
Proof.
  unfold Metadata._process_stream.
  destruct (Probe.index stream) as [index|]; [|discriminate]. cbn [getitem bind].
  destruct (Probe.codec_type stream) as [codec_type|].
  - destruct (String.eqb_spec codec_type "video") as [->|Hv]; [congruence|].
    intros H _.
    destruct (codec_type =? "audio")%string;
      [|destruct (codec_type =? "subtitle")%string];
      injection H as <- <-; repeat split; try discriminate.
    cbn. congruence.
  - intros [= <- <-] _. repeat split; discriminate.
Qed.

(** A video stream: each pair of container attributes that is still [None]
    takes the value and the text of the stream. *)
Lemma process_video_stream_container self stream self' s :
  Metadata._process_stream self stream = Ok (self', s) ->
  Probe.codec_type stream = Some "video" ->
  Metadata.Video.streams self' = Metadata.Video.streams self
  /\ Metadata.Stream.type s = Some "video"
  /\ (exists w h, Probe.width stream = Some w /\ Probe.height stream = Some h
                  /\ Metadata.Stream.dimension s = Some (w, h))
  /\ (Metadata.Video.dimension self', Metadata.Video.dimension_text self')
     = match Metadata.Video.dimension self with
       | Some _ => (Metadata.Video.dimension self, Metadata.Video.dimension_text self)
       | None => (Metadata.Stream.dimension s, Metadata.Stream.dimension_text s)
       end
  /\ (Metadata.Video.dar self', Metadata.Video.dar_text self')
     = match Metadata.Video.dar self with
       | Some _ => (Metadata.Video.dar self, Metadata.Video.dar_text self)
       | None => (Metadata.Stream.dar s, Metadata.Stream.dar_text s)
       end
  /\ (Metadata.Video.frame_rate self', Metadata.Video.frame_rate_text self')
     = match Metadata.Video.frame_rate self with
       | Some _ => (Metadata.Video.frame_rate self, Metadata.Video.frame_rate_text self)
       | None => (Metadata.Stream.frame_rate s, Metadata.Stream.frame_rate_text s)
       end
  /\ (Metadata.Stream.dar s = None -> Metadata.Stream.dar_text s = None)
  /\ (Metadata.Stream.frame_rate s = None -> Metadata.Stream.frame_rate_text s = None).
Proof.
  unfold Metadata._process_stream. intros H Htype. rewrite Htype in H.
  destruct (Probe.index stream) as [index|]; [|discriminate]. cbn [getitem bind] in H.
  change ("video" =? "video")%string with true in H. cbv iota in H.
  unfold Metadata.process_video_stream in H.
  destruct (Probe.width stream) as [w|]; [|discriminate].
  destruct (Probe.height stream) as [h|]; [|discriminate].
  cbn [getitem bind] in H.
  match type of H with
  | bind ?dar_step _ = _ => destruct dar_step as [[dar dar_text]|e] eqn:Edar; [|discriminate]
  end.
  cbn [bind] in H. injection H as <- <-.
  assert (Htext : dar = None -> dar_text = None).
  { destruct (Probe.display_aspect_ratio stream) as [text|].
    - injection Edar as <- <-. now intros ->.
    - destruct (floordiv w _); [|discriminate]. cbn [bind] in Edar.
      destruct (floordiv h _); [|discriminate]. cbn [bind] in Edar.
      destruct (truediv _ _); [|discriminate]. injection Edar as <- <-. discriminate. }
  cbn [Metadata.Stream.type Metadata.Stream.dimension Metadata.Stream.dimension_text
       Metadata.Stream.dar Metadata.Stream.dar_text
       Metadata.Stream.frame_rate Metadata.Stream.frame_rate_text].
  assert (Hrate : forall r : option Q, r = None -> option_map Metadata.frame_rate_text_of r = None)
    by now intros r ->.
  destruct self as [? ? ? ? ? ? ? ? ? vdim vdimt vdar vdart vrate vratet ?].
  destruct vdim, vdar, vrate;
    cbn [Metadata.is_None Metadata.Video.set_dimension Metadata.Video.set_dar
         Metadata.Video.set_frame_rate Metadata.Video.streams
         Metadata.Video.dimension Metadata.Video.dimension_text
         Metadata.Video.dar Metadata.Video.dar_text
         Metadata.Video.frame_rate Metadata.Video.frame_rate_text];
    repeat (split; [solve [reflexivity | eauto]|]); apply Hrate.
Qed.

Section Container.

Import Metadata.

(** The container pairs are those of the first stream so far that has the
    value. *)
Let settled (self : Video.t) : Prop :=
  (Video.dimension self, Video.dimension_text self)
  = Spec.first_present Stream.dimension Stream.dimension_text (Video.streams self)
  /\ (Video.dar self, Video.dar_text self)
     = Spec.first_present Stream.dar Stream.dar_text (Video.streams self)
  /\ (Video.frame_rate self, Video.frame_rate_text self)
     = Spec.first_present Stream.frame_rate Stream.frame_rate_text (Video.streams self).

Lemma adopt_snoc {A B} (f : Stream.t -> option A) (g : Stream.t -> option B)
      (l : list Stream.t) (s : Stream.t) (old : option A * option B) :
  old = Spec.first_present f g l ->
  (f s = None -> g s = None) ->
  match fst old with
  | Some _ => old
  | None => (f s, g s)
  end = Spec.first_present f g (l ++ [s]).
Proof.
  intros -> Hg. rewrite first_present_snoc.
  destruct (fst (Spec.first_present f g l)); [reflexivity|].
  destruct (f s); [reflexivity|]. now rewrite Hg.
Qed.

Lemma settled_step self stream self' s :
  settled self ->
  _process_stream self stream = Ok (self', s) ->
  settled (Video.set_streams self' (Video.streams self' ++ [s])).
Proof.
  intros [Hdim [Hdar Hrate]] H. unfold settled.
  cbn [Video.set_streams Video.streams Video.dimension Video.dimension_text
       Video.dar Video.dar_text Video.frame_rate Video.frame_rate_text].
  assert (Hdec : {Probe.codec_type stream = Some "video"}
                 + {Probe.codec_type stream <> Some "video"})
    by (decide equality; apply string_dec).
  destruct Hdec as [Hv|Hv].
  - destruct (process_video_stream_container _ _ _ _ H Hv)
      as [Hs [_ [[w [h [_ [_ Hd]]]] [Edim [Edar [Erate [Hdt Hrt]]]]]]].
    rewrite Hs, Edim, Edar, Erate.
    repeat split.
    + apply (adopt_snoc Stream.dimension Stream.dimension_text _ s _ Hdim).
      rewrite Hd. discriminate.
    + apply (adopt_snoc Stream.dar Stream.dar_text _ s _ Hdar Hdt).
    + apply (adopt_snoc Stream.frame_rate Stream.frame_rate_text _ s _ Hrate Hrt).
  - destruct (process_other_stream _ _ _ _ H Hv) as [-> [_ [Hd [Hr Hf]]]].
    rewrite !first_present_snoc, Hd, Hr, Hf, <- Hdim, <- Hdar, <- Hrate.
    cbn [fst].
    repeat split.
    + destruct (Video.dimension self) eqn:E; [reflexivity|].
      rewrite Hdim. apply first_present_none. now rewrite <- Hdim.
    + destruct (Video.dar self) eqn:E; [reflexivity|].
      rewrite Hdar. apply first_present_none. now rewrite <- Hdar.
    + destruct (Video.frame_rate self) eqn:E; [reflexivity|].
      rewrite Hrate. apply first_present_none. now rewrite <- Hrate.
Qed.

Lemma settled_loop raw : forall self self',
  settled self -> extract_streams_loop self raw = Ok self' -> settled self'.
Proof.
  induction raw as [|stream raw IH]; intros self self' Hs; cbn [extract_streams_loop].
  - now intros [= <-].
  - destruct (_process_stream self stream) as [[self1 s]|e] eqn:E; [|discriminate].
    cbn [bind]. apply IH. eapply settled_step; eassumption.
Qed.

(** What [_extract_streams] leaves in the container attributes, starting
    from the [None]s that [__init__] puts there: the dimension, the DAR and
    the frame rate, each with its text, of the first [Stream] that has one.
    Every video stream has a dimension; its DAR and its frame rate may be
    [None], and then a later stream provides the container's. *)
Lemma extract_streams_container self raw self' :
  (Video.dimension self, Video.dimension_text self) = (None, None) ->
  (Video.dar self, Video.dar_text self) = (None, None) ->
  (Video.frame_rate self, Video.frame_rate_text self) = (None, None) ->
  _extract_streams self raw = Ok self' ->
  (Video.dimension self', Video.dimension_text self')
  = Spec.first_present Stream.dimension Stream.dimension_text (Video.streams self')
  /\ (Video.dar self', Video.dar_text self')
     = Spec.first_present Stream.dar Stream.dar_text (Video.streams self')
  /\ (Video.frame_rate self', Video.frame_rate_text self')
     = Spec.first_present Stream.frame_rate Stream.frame_rate_text (Video.streams self').
Proof.
  intros Hd Hr Hf H. unfold _extract_streams in H.
  apply settled_loop in H; [exact H|].
  unfold settled.
  cbn [Video.set_streams Video.streams Video.dimension Video.dimension_text
       Video.dar Video.dar_text Video.frame_rate Video.frame_rate_text
       Spec.first_present].
  auto.
Qed.

End Container.

(** C7, at the input where the code departs from it.  The first video
    stream reports the frame rate "0/0", which does not parse, so its frame
    rate is [None]; the second video stream reports "25/1".  The container
    takes its dimension and its aspect ratio from the first video stream
    and its frame rate from the second one. *)
Theorem container_frame_rate_from_second_stream :
  match
    Metadata._extract_streams Samples.fresh_video
      [Samples.video_stream 0 1920 1080 (Some "16:9") (Some "0/0");
       Samples.video_stream 1 640 480 (Some "4:3") (Some "25/1")]
  with
  | Ok self =>
      match Metadata.Video.streams self with
      | [first; second] =>
          Metadata.Stream.frame_rate first = None /\
          Metadata.Stream.frame_rate_text first = None /\
          Metadata.Stream.frame_rate second = Some (25 # 1) /\
          Metadata.Video.frame_rate self = Some (25 # 1) /\
          Metadata.Video.frame_rate_text self = Some "25 fps" /\
          Metadata.Video.dimension self = Metadata.Stream.dimension first /\
          Metadata.Video.dar self = Metadata.Stream.dar first /\
          Metadata.Video.dar self = Some (16 # 9)
      | _ => False
      end
  | Raise _ => False
  end.
Proof. vm_compute. repeat split; reflexivity. Qed.

(** ** The human readable size *)







Section SizeLoop.










End SizeLoop.







(** * Properties of [storyboard.py] *)

(** ** Constructing a [StoryBoard] *)


(** ** Sampling points *)

Section Sampling.

Variables (duration : Q) (count : Z).
Hypothesis duration_pos : (0 < duration)%Q.
Hypothesis count_pos : 0 < count.

Lemma count_nonzero : Qeq_bool (inject_Z count) 0 = false.
Proof.
  apply not_true_iff_false. rewrite Qeq_bool_iff.
  unfold Qeq, inject_Z; simpl. lia.
Qed.


Lemma sample_timestamps_eq :
  Storyboard.sample_timestamps duration count =
  Ok (map (fun i => Qred (Qred (duration / inject_Z count) * (inject_Z i + 1 / 2)))
          (range 0 count)).
Proof.
  unfold Storyboard.sample_timestamps, truediv, float_of_int.
  now rewrite count_nonzero.
Qed.




End Sampling.



(** ** Sampling with a count of zero *)

(** C4, as stated, fails on a board that holds no frame: [gen_frames(0)]
    returns at once, [self] and the log of events unchanged. *)
Lemma gen_frames_zero_is_silent_on_fresh_board :
  Storyboard.gen_frames Samples.barren Samples.fresh_board 0 false []
  = (Ok Samples.fresh_board, []).
Proof. reflexivity. Qed.

(** C4, amended.  [gen_frames(0)] raises [ZeroDivisionError], before any
    effect on the world, exactly when the board holds frames already; on a
    board without frames, whose number of frames is the requested count, it
    returns without doing anything. *)
Theorem gen_frames_zero_count
        (w : World.world) (self : Storyboard.t) (print_progress : bool)
        (log : list World.event) :
  Storyboard.gen_frames w self 0 print_progress log =
  match Storyboard.frames self with
  | [] => (Ok self, log)
  | _ :: _ => (Raise ZeroDivisionError, log)
  end.
Proof.
  unfold Storyboard.gen_frames.
  destruct (Storyboard.frames self) as [|frame frames]; reflexivity.
Qed.

(** ** [gen_frames] asks for one frame at each sampling point *)

Section GenFrames.

Import Storyboard.

Variables (w : World.world) (count : Z).
Variables (ffmpeg_bin codec : string) (bins : list string).

(** The frames loop on a board that has its [_bins] and its [_frame_codec],
    in a world where ffmpeg gives a frame at each of the [timestamps]. *)
Lemma extract_loop (timestamps : list Q) :
  forall (self : t) (counter : Z) (log : list World.event),
    _bins self = Some (ffmpeg_bin :: bins) ->
    _frame_codec self = Some codec ->
    (forall time, In time timestamps ->
       World.extract_frame w ffmpeg_bin codec (Metadata.Video.path (video self)) time
       <> None) ->
    exists self' new_frames,
      World.for_each timestamps (extract_one w count false) (self, counter) log
      = (Ok (self', counter + Z.of_nat (List.length timestamps)),
         (log ++ map (World.ExtractFrame ffmpeg_bin codec
                        (Metadata.Video.path (video self))) timestamps)%list)
      /\ video self' = video self
      /\ frames self' = (frames self ++ new_frames)%list
      /\ Forall2 (fun time frame =>
                    World.extract_frame w ffmpeg_bin codec
                      (Metadata.Video.path (video self)) time = Some frame)
                 timestamps new_frames.
Proof.
  induction timestamps as [|time timestamps IH]; intros self counter log Hbins Hcodec Hworld.
  - exists self, []. cbn. rewrite !app_nil_r, Z.add_0_r. auto.
  - destruct (World.extract_frame w ffmpeg_bin codec
                (Metadata.Video.path (video self)) time) as [frame|] eqn:Eframe;
      [|exfalso; apply (Hworld time); [now left | assumption]].
    set (self1 := {| video := video self; frames := (frames self ++ [frame])%list;
                     _bins := _bins self; _frame_codec := _frame_codec self |}).
    destruct (IH self1 (counter + 1)
                (log ++ [World.ExtractFrame ffmpeg_bin codec
                           (Metadata.Video.path (video self)) time])%list)
      as [self' [new_frames [Hrun [Hvideo [Hframes Hall]]]]];
      [exact Hbins | exact Hcodec | intros t Ht; apply Hworld; now right |].
    exists self', (frame :: new_frames).
    split; [|split; [exact Hvideo|split]].
    + cbn [World.for_each]. unfold World.bind at 1.
      unfold extract_one at 1, World.bind, World.ret, World.on_exception, World.lift,
        World.emit, World.raise.
      rewrite Hbins, Hcodec. cbn [getattr index Z.ltb Z.compare Z.to_nat nth_error].
      rewrite Eframe. unfold self1 in Hrun.
      cbn [video Metadata.Video.path] in Hrun. rewrite Hbins, Hcodec in Hrun.
      rewrite Hrun.
      rewrite <- app_assoc. cbn [List.length map app].
      do 2 f_equal. f_equal. lia.
    + rewrite Hframes. cbn [frames self1]. now rewrite <- app_assoc.
    + constructor; assumption.
Qed.

(** [gen_frames(count)] on such a board, when the board does not hold
    [count] frames already: one frame is asked of ffmpeg at each sampling
    point, in their order, and the frames are appended to [self.frames]. *)
Lemma gen_frames_samples (self : t) (timestamps : list Q) (log : list World.event) :
  Z.of_nat (List.length (frames self)) <> count ->
  _bins self = Some (ffmpeg_bin :: bins) ->
  _frame_codec self = Some codec ->
  sample_timestamps (Metadata.Video.duration (video self)) count = Ok timestamps ->
  (forall time, In time timestamps ->
     World.extract_frame w ffmpeg_bin codec (Metadata.Video.path (video self)) time
     <> None) ->
  exists self' new_frames,
    gen_frames w self count false log
    = (Ok self',
       (log ++ map (World.ExtractFrame ffmpeg_bin codec
                      (Metadata.Video.path (video self))) timestamps)%list)
    /\ frames self' = (frames self ++ new_frames)%list
    /\ Forall2 (fun time frame =>
                  World.extract_frame w ffmpeg_bin codec
                    (Metadata.Video.path (video self)) time = Some frame)
               timestamps new_frames.
Proof.
  intros Hlen Hbins Hcodec Hsample Hworld.
  destruct (extract_loop timestamps self 0 log Hbins Hcodec Hworld)
    as [self' [new_frames [Hrun [_ [Hframes Hall]]]]].
  exists self', new_frames. split; [|split; assumption].
  unfold gen_frames. apply Z.eqb_neq in Hlen. rewrite Hlen.
  unfold World.bind, World.lift, World.ret. rewrite Hsample, Hrun. reflexivity.
Qed.

End GenFrames.

(** ** The canvas of [tile_images] with a tile size *)

Section ForcedResize.

Variables (images : list Image) (cols rows : Z).

Lemma index_in_bounds (i : Z) :
  0 <= i < Z.of_nat (List.length images) ->
  exists image, index images i = Ok image /\ nth_error images (Z.to_nat i) = Some image.
Proof.
  intros Hi. unfold index.
  destruct (Z.ltb_spec i 0) as [?|_]; [lia|].
  destruct (nth_error images (Z.to_nat i)) as [image|] eqn:E; [eauto|].
  apply nth_error_None in E. lia.
Qed.



End ForcedResize.



(** ** The layout of [tile_images] *)

Section Layout.

Variables (images : list Image) (cols rows : Z).
Variables (resize_to : option (Z * Z)) (hs vs hm vm : Z).
Hypothesis cols_pos : 0 < cols.
Hypothesis rows_pos : 0 < rows.
Hypothesis filled : Z.of_nat (List.length images) = cols * rows.

Lemma index_source row col :
  0 <= row < rows -> 0 <= col < cols ->
  index images (row * cols + col) = Ok (Spec.source images cols row col).
Proof.
  intros Hrow Hcol.
  destruct (index_in_bounds images (row * cols + col)) as [image [-> Hnth]]; [nia|].
  unfold Spec.source. f_equal. symmetry. now apply nth_error_nth.
Qed.

(** The inner loop pastes the cells of one row. *)
Lemma assemble_row (row : Z) (canvas : Image) :
  0 <= row < rows ->
  exists canvas' x,
    for_each (range 0 cols)
      (fun col '(canvas, x) =>
         image <- index images (row * cols + col) ;;
         let canvas :=
           match resize_to with
           | Some tile_size =>
               paste canvas (resize image tile_size)
                     (x, Spec.y_offset images cols vs vm row)
           | None => paste canvas image (x, Spec.y_offset images cols vs vm row)
           end in
         Ok (canvas, x + fst (size image) + hs))
      (canvas, hm) = Ok (canvas', x)
    /\ x = Spec.x_offset images cols hs hm row cols
    /\ size canvas' = size canvas
    /\ pasted canvas'
       = (pasted canvas
          ++ map (Spec.cell images cols resize_to hs vs hm vm row) (range 0 cols))%list.
Proof.
  intros Hrow.
  pose (inv := fun col (st : Image * Z) =>
       snd st = Spec.x_offset images cols hs hm row col
       /\ size (fst st) = size canvas
       /\ pasted (fst st)
          = (pasted canvas
             ++ map (Spec.cell images cols resize_to hs vs hm vm row) (range 0 col))%list).
  assert (Hinit : inv 0 (canvas, hm)).
  { unfold inv. cbn [fst snd]. rewrite range_empty by lia. cbn [map].
    unfold Spec.x_offset. rewrite range_empty by lia. cbn.
    rewrite app_nil_r. repeat split; lia. }
  match goal with
  | |- exists c x, for_each _ ?body _ = _ /\ _ =>
      destruct (for_each_counting inv body (Z.to_nat cols) 0 (canvas, hm) Hinit)
        as [[canvas' x] [Hrun [Hx [Hsize Hpasted]]]]
  end.
  - intros col [c x] Hcol [Hx [Hsize Hpasted]]. cbn [fst snd] in *.
    rewrite index_source by lia. cbn [bind].
    eexists. split; [reflexivity|]. unfold inv. cbn [fst snd].
    rewrite range_snoc by lia. split; [|split].
    + unfold Spec.x_offset in *. rewrite range_snoc, sum_over_snoc by lia. lia.
    + now destruct resize_to.
    + rewrite map_app, app_assoc, <- Hpasted. cbn [map].
      unfold Spec.cell. rewrite <- Hx.
      destruct resize_to; reflexivity.
  - replace (0 + Z.of_nat (Z.to_nat cols)) with cols in * by lia.
    cbn [fst snd] in *. exists canvas', x. auto.
Qed.

(** The two loops paste the cells of the grid, row after row. *)
Lemma assemble_layout (canvas : Image) :
  exists canvas',
    Storyboard.assemble images cols rows resize_to hs vs hm vm canvas
    = Ok (canvas', Spec.y_offset images cols vs vm rows)
    /\ size canvas' = size canvas
    /\ pasted canvas'
       = (pasted canvas ++ Spec.layout images cols rows resize_to hs vs hm vm)%list.
Proof.
  unfold Storyboard.assemble.
  pose (inv := fun row (st : Image * Z) =>
       snd st = Spec.y_offset images cols vs vm row
       /\ size (fst st) = size canvas
       /\ pasted (fst st)
          = (pasted canvas
             ++ flat_map
                  (fun row =>
                     map (Spec.cell images cols resize_to hs vs hm vm row) (range 0 cols))
                  (range 0 row))%list).
  assert (Hinit : inv 0 (canvas, vm)).
  { unfold inv. cbn [fst snd]. unfold Spec.y_offset. rewrite range_empty by lia. cbn.
    rewrite app_nil_r. repeat split; lia. }
  match goal with
  | |- exists c, for_each _ ?body _ = _ /\ _ =>
      destruct (for_each_counting inv body (Z.to_nat rows) 0 (canvas, vm) Hinit)
        as [[canvas' y] [Hrun [Hy [Hsize Hpasted]]]]
  end.
  - intros row [c y] Hrow [Hy [Hsize Hpasted]]. cbn [fst snd] in *. subst y.
    destruct (assemble_row row c) as [c' [x [Hinner [_ [Hsize' Hpasted']]]]]; [lia|].
    cbv beta iota zeta in Hinner |- *. rewrite Hinner.
    cbn [bind]. rewrite index_source by lia. cbn [bind].
    eexists. split; [reflexivity|]. unfold inv. cbn [fst snd].
    rewrite range_snoc by lia. split; [|split].
    + unfold Spec.y_offset. rewrite range_snoc, sum_over_snoc by lia. lia.
    + congruence.
    + rewrite flat_map_app, app_assoc, <- Hpasted. cbn [flat_map].
      now rewrite app_nil_r.
  - replace (0 + Z.of_nat (Z.to_nat rows)) with rows in * by lia.
    cbn [fst snd] in *. subst y. exists canvas'. unfold Spec.layout. auto.
Qed.

End Layout.

(** ** The consistency checks of [tile_images] *)

Section Checks.

Variables (images : list Image) (cols rows : Z).
Hypothesis cols_pos : 0 < cols.
Hypothesis rows_pos : 0 < rows.
Hypothesis filled : Z.of_nat (List.length images) = cols * rows.

Let W (col : Z) : Z := fst (size (Spec.source images cols 0 col)).
Let H (row : Z) : Z := snd (size (Spec.source images cols row 0)).

(** The body of the inner loop of the width check. *)
Let width_body (col : Z) (row : Z) (_ : unit) : result unit :=
  let index := row * cols + col in
  image <- Py.index images index ;;
  let '(width, height) := size image in
  let '(ref_width, ref_height) := size (Spec.source images cols 0 col) in
  if negb (width =? ref_width) then
    Raise (ValueError
             (Storyboard.mismatch_message "width"
                index row col width height (0 * cols + col) 0 col ref_width ref_height))
  else Ok tt.

Lemma check_columns_eq start :
  Storyboard.check_columns images cols rows start
  = for_each (range 0 cols)
      (fun col canvas_width =>
         _ <- for_each (range 1 rows) (width_body col) tt ;;
         Ok (canvas_width + W col))
      start.
Proof.
  unfold Storyboard.check_columns.
  assert (Hext : forall xs s,
    (forall col, In col xs -> 0 <= col < cols) ->
    for_each xs
      (fun col canvas_width =>
       let ref_index := 0 * cols + col in
       ref <- index images ref_index ;;
       let '(ref_width, ref_height) := size ref in
       let canvas_width := canvas_width + ref_width in
       _ <- for_each (range 1 rows)
              (fun row (_ : unit) =>
                 let index := row * cols + col in
                 image <- Py.index images index ;;
                 let '(width, height) := size image in
                 if negb (width =? ref_width) then
                   Raise (ValueError
                            (Storyboard.mismatch_message "width"
                               index row col width height
                               ref_index 0 col ref_width ref_height))
                 else Ok tt) tt ;;
       Ok canvas_width) s
    = for_each xs
        (fun col canvas_width =>
           _ <- for_each (range 1 rows) (width_body col) tt ;;
           Ok (canvas_width + W col)) s).
  { induction xs as [|col xs IH]; intros s Hin; [reflexivity|].
    cbn [for_each]. cbv zeta.
    rewrite (index_source images cols rows cols_pos rows_pos filled 0 col)
      by (try apply Hin; try lia; now left).
    cbn [bind]. unfold width_body, W.
    destruct (size (Spec.source images cols 0 col)) as [ref_width ref_height] eqn:Eref.
    cbn [fst].
    destruct (for_each (range 1 rows) _ tt) as [[]|e]; cbn [bind]; [|reflexivity].
    apply IH. intros c Hc. apply Hin. now right. }
  apply Hext. intros col Hcol. now apply in_range in Hcol.
Qed.

(** The width check passes exactly when the widths agree, and then adds the
    widths of the columns to its start value. *)
Lemma check_columns_passes start :
  Spec.widths_agree images cols rows ->
  Storyboard.check_columns images cols rows start = Ok (start + Spec.sum_over (range 0 cols) W).
Proof.
  intros Hagree. rewrite check_columns_eq.
  destruct (for_each_counting (fun col w => w = start + Spec.sum_over (range 0 col) W)
    (fun col canvas_width =>
         _ <- for_each (range 1 rows) (width_body col) tt ;;
         Ok (canvas_width + W col)) (Z.to_nat cols) 0 start) as [w [Hrun Hw]].
  - rewrite range_empty by lia. cbn. lia.
  - intros col w Hcol ->.
    destruct (for_each_total (fun _ : unit => True) (range 1 rows) (width_body col) tt I)
      as [[] [Hin _]].
    + intros row [] Hrow _. apply in_range in Hrow. exists tt. split; [|exact I].
      unfold width_body. cbv zeta.
      rewrite (index_source images cols rows cols_pos rows_pos filled) by lia. cbn [bind].
      pose proof (Hagree row col) as Heq.
      destruct (size (Spec.source images cols row col)) as [width height].
      destruct (size (Spec.source images cols 0 col)) as [ref_width ref_height].
      cbn [fst] in Heq. rewrite Heq, Z.eqb_refl by lia. reflexivity.
    + rewrite Hin. cbn [bind]. eexists. split; [reflexivity|].
      rewrite range_snoc, sum_over_snoc by lia. lia.
  - replace (0 + Z.of_nat (Z.to_nat cols)) with cols in * by lia. now rewrite Hrun, Hw.
Qed.

Lemma check_columns_sound start w :
  Storyboard.check_columns images cols rows start = Ok w ->
  Spec.widths_agree images cols rows.
Proof.
  rewrite check_columns_eq. intros Hrun row col Hrow Hcol.
  destruct (Z.eq_dec row 0) as [->|Hnz]; [reflexivity|].
  destruct (for_each_ok _ _ _ _ Hrun col) as [t [t' Hbody]]; [apply in_range; lia|].
  destruct (for_each (range 1 rows) (width_body col) tt) as [[]|e] eqn:Einner;
    [|discriminate].
  destruct (for_each_ok _ _ _ _ Einner row) as [[] [[] Hrowbody]]; [apply in_range; lia|].
  unfold width_body in Hrowbody. cbv zeta in Hrowbody.
  rewrite (index_source images cols rows cols_pos rows_pos filled) in Hrowbody by lia.
  cbn [bind] in Hrowbody.
  destruct (size (Spec.source images cols row col)) as [width height].
  destruct (size (Spec.source images cols 0 col)) as [ref_width ref_height].
  cbn [fst]. destruct (Z.eqb_spec width ref_width); [assumption | discriminate].
Qed.

(** What the width check raises: a [ValueError] that names an image, its
    row and column and its size, and the first image of that column, which
    is in row 0, with its size. *)
Lemma check_columns_raises start e :
  Storyboard.check_columns images cols rows start = Raise e ->
  exists row col,
    1 <= row < rows /\ 0 <= col < cols
    /\ fst (size (Spec.source images cols row col))
       <> fst (size (Spec.source images cols 0 col))
    /\ e = ValueError
             (Storyboard.mismatch_message "width"
                (row * cols + col) row col
                (fst (size (Spec.source images cols row col)))
                (snd (size (Spec.source images cols row col)))
                (0 * cols + col) 0 col
                (fst (size (Spec.source images cols 0 col)))
                (snd (size (Spec.source images cols 0 col)))).
Proof.
  rewrite check_columns_eq. intros Hrun.
  destruct (for_each_raise _ _ _ _ Hrun) as [col [w [Hcol Hbody]]].
  apply in_range in Hcol.
  destruct (for_each (range 1 rows) (width_body col) tt) as [[]|e'] eqn:Einner;
    [discriminate|].
  cbn [bind] in Hbody. injection Hbody as ->.
  destruct (for_each_raise _ _ _ _ Einner) as [row [[] [Hrow Hrowbody]]].
  apply in_range in Hrow. exists row, col.
  unfold width_body in Hrowbody. cbv zeta in Hrowbody.
  rewrite (index_source images cols rows cols_pos rows_pos filled) in Hrowbody by lia.
  cbn [bind] in Hrowbody.
  destruct (size (Spec.source images cols row col)) as [width height].
  destruct (size (Spec.source images cols 0 col)) as [ref_width ref_height].
  cbn [fst snd].
  destruct (Z.eqb_spec width ref_width); [discriminate|].
  cbn [negb] in Hrowbody. injection Hrowbody as <-. auto.
Qed.

(** The body of the inner loop of the height check. *)
Let height_body (row : Z) (col : Z) (_ : unit) : result unit :=
  let index := row * cols + col in
  image <- Py.index images index ;;
  let '(width, height) := size image in
  let '(ref_width, ref_height) := size (Spec.source images cols row 0) in
  if negb (height =? ref_height) then
    Raise (ValueError
             (Storyboard.mismatch_message "height"
                index row col width height (row * cols + 0) 0 col ref_width ref_height))
  else Ok tt.

Lemma check_rows_eq start :
  Storyboard.check_rows images cols rows start
  = for_each (range 0 rows)
      (fun row canvas_height =>
         _ <- for_each (range 1 cols) (height_body row) tt ;;
         Ok (canvas_height + H row))
      start.
Proof.
  unfold Storyboard.check_rows.
  assert (Hext : forall xs s,
    (forall row, In row xs -> 0 <= row < rows) ->
    for_each xs
      (fun row canvas_height =>
       let ref_index := row * cols + 0 in
       ref <- index images ref_index ;;
       let '(ref_width, ref_height) := size ref in
       let canvas_height := canvas_height + ref_height in
       _ <- for_each (range 1 cols)
              (fun col (_ : unit) =>
                 let index := row * cols + col in
                 image <- Py.index images index ;;
                 let '(width, height) := size image in
                 if negb (height =? ref_height) then
                   Raise (ValueError
                            (Storyboard.mismatch_message "height"
                               index row col width height
                               ref_index 0 col ref_width ref_height))
                 else Ok tt) tt ;;
       Ok canvas_height) s
    = for_each xs
        (fun row canvas_height =>
           _ <- for_each (range 1 cols) (height_body row) tt ;;
           Ok (canvas_height + H row)) s).
  { induction xs as [|row xs IH]; intros s Hin; [reflexivity|].
    cbn [for_each]. cbv zeta.
    rewrite (index_source images cols rows cols_pos rows_pos filled row 0)
      by (try apply Hin; try lia; now left).
    cbn [bind]. unfold height_body, H.
    destruct (size (Spec.source images cols row 0)) as [ref_width ref_height] eqn:Eref.
    cbn [snd].
    destruct (for_each (range 1 cols) _ tt) as [[]|e]; cbn [bind]; [|reflexivity].
    apply IH. intros r Hr. apply Hin. now right. }
  apply Hext. intros row Hrow. now apply in_range in Hrow.
Qed.

(** The height check passes when the heights agree, and then adds the
    heights of the rows to its start value. *)
Lemma check_rows_passes start :
  Spec.heights_agree images cols rows ->
  Storyboard.check_rows images cols rows start = Ok (start + Spec.sum_over (range 0 rows) H).
Proof.
  intros Hagree. rewrite check_rows_eq.
  destruct (for_each_counting (fun row h => h = start + Spec.sum_over (range 0 row) H)
    (fun row canvas_height =>
         _ <- for_each (range 1 cols) (height_body row) tt ;;
         Ok (canvas_height + H row)) (Z.to_nat rows) 0 start) as [h [Hrun Hh]].
  - rewrite range_empty by lia. cbn. lia.
  - intros row h Hrow ->.
    destruct (for_each_total (fun _ : unit => True) (range 1 cols) (height_body row) tt I)
      as [[] [Hin _]].
    + intros col [] Hcol _. apply in_range in Hcol. exists tt. split; [|exact I].
      unfold height_body. cbv zeta.
      rewrite (index_source images cols rows cols_pos rows_pos filled) by lia. cbn [bind].
      pose proof (Hagree row col) as Heq.
      destruct (size (Spec.source images cols row col)) as [width height].
      destruct (size (Spec.source images cols row 0)) as [ref_width ref_height].
      cbn [snd] in Heq. rewrite Heq, Z.eqb_refl by lia. reflexivity.
    + rewrite Hin. cbn [bind]. eexists. split; [reflexivity|].
      rewrite range_snoc, sum_over_snoc by lia. lia.
  - replace (0 + Z.of_nat (Z.to_nat rows)) with rows in * by lia. now rewrite Hrun, Hh.
Qed.

Lemma check_rows_sound start h :
  Storyboard.check_rows images cols rows start = Ok h ->
  Spec.heights_agree images cols rows.
Proof.
  rewrite check_rows_eq. intros Hrun row col Hrow Hcol.
  destruct (Z.eq_dec col 0) as [->|Hnz]; [reflexivity|].
  destruct (for_each_ok _ _ _ _ Hrun row) as [t [t' Hbody]]; [apply in_range; lia|].
  destruct (for_each (range 1 cols) (height_body row) tt) as [[]|e] eqn:Einner;
    [|discriminate].
  destruct (for_each_ok _ _ _ _ Einner col) as [[] [[] Hcolbody]]; [apply in_range; lia|].
  unfold height_body in Hcolbody. cbv zeta in Hcolbody.
  rewrite (index_source images cols rows cols_pos rows_pos filled) in Hcolbody by lia.
  cbn [bind] in Hcolbody.
  destruct (size (Spec.source images cols row col)) as [width height].
  destruct (size (Spec.source images cols row 0)) as [ref_width ref_height].
  cbn [snd]. destruct (Z.eqb_spec height ref_height); [assumption | discriminate].
Qed.

(** What the height check raises: a [ValueError] that names an image, its
    row and column and its size, and the first image of that row with its
    size; that image is in column 0 of the same row, and the message gives
    row 0 and the column of the other image for it. *)
Lemma check_rows_raises start e :
  Storyboard.check_rows images cols rows start = Raise e ->
  exists row col,
    0 <= row < rows /\ 1 <= col < cols
    /\ snd (size (Spec.source images cols row col))
       <> snd (size (Spec.source images cols row 0))
    /\ e = ValueError
             (Storyboard.mismatch_message "height"
                (row * cols + col) row col
                (fst (size (Spec.source images cols row col)))
                (snd (size (Spec.source images cols row col)))
                (row * cols + 0) 0 col
                (fst (size (Spec.source images cols row 0)))
                (snd (size (Spec.source images cols row 0)))).
Proof.
  rewrite check_rows_eq. intros Hrun.
  destruct (for_each_raise _ _ _ _ Hrun) as [row [h [Hrow Hbody]]].
  apply in_range in Hrow.
  destruct (for_each (range 1 cols) (height_body row) tt) as [[]|e'] eqn:Einner;
    [discriminate|].
  cbn [bind] in Hbody. injection Hbody as ->.
  destruct (for_each_raise _ _ _ _ Einner) as [col [[] [Hcol Hcolbody]]].
  apply in_range in Hcol. exists row, col.
  unfold height_body in Hcolbody. cbv zeta in Hcolbody.
  rewrite (index_source images cols rows cols_pos rows_pos filled) in Hcolbody by lia.
  cbn [bind] in Hcolbody.
  destruct (size (Spec.source images cols row col)) as [width height].
  destruct (size (Spec.source images cols row 0)) as [ref_width ref_height].
  cbn [fst snd].
  destruct (Z.eqb_spec height ref_height); [discriminate|].
  cbn [negb] in Hcolbody. injection Hcolbody as <-. auto.
Qed.

End Checks.

(** ** [tile_images] without a tile size *)

Section AsIs.

Variables (images : list Image) (cols rows : Z) (params : Storyboard.tile_params).
Hypothesis cols_pos : 0 < cols.
Hypothesis rows_pos : 0 < rows.
Hypothesis filled : Z.of_nat (List.length images) = cols * rows.
Hypothesis as_is : Storyboard.tile_size params = None.

Let hs : Z := fst (Storyboard.get (Storyboard.tile_spacing params) (0, 0)).
Let vs : Z := snd (Storyboard.get (Storyboard.tile_spacing params) (0, 0)).
Let hm : Z := fst (Storyboard.get (Storyboard.margins params) (0, 0)).
Let vm : Z := snd (Storyboard.get (Storyboard.margins params) (0, 0)).

Lemma tile_images_as_is_eq :
  Storyboard.tile_images images (cols, rows) params
  = (canvas_width <- Storyboard.check_columns images cols rows (hs * (cols - 1) + hm * 2) ;;
     canvas_height <- Storyboard.check_rows images cols rows (vs * (rows - 1) + vm * 2) ;;
     ' (canvas, _) <- Storyboard.assemble images cols rows None hs vs hm vm
                        (new (canvas_width, canvas_height)) ;;
     Ok (canvas,
         if Storyboard.get (Storyboard.close_separate_images params) false
         then map close images else images)).
Proof.
  unfold Storyboard.tile_images, hs, vs, hm, vm.
  rewrite filled, Z.eqb_refl, as_is. cbn [negb].
  destruct (Storyboard.get (Storyboard.tile_spacing params) (0, 0)) as [sh sv].
  destruct (Storyboard.get (Storyboard.margins params) (0, 0)) as [mh mv].
  cbn [fst snd].
  destruct (Storyboard.check_columns _ _ _ _); [|reflexivity]. cbn [bind].
  destruct (Storyboard.check_rows _ _ _ _); reflexivity.
Qed.

(** When the widths agree in every column and the heights in every row, the
    images are pasted as they are, row after row and from left to right in
    each row; past the last column of each row the offset, less the last
    spacing and plus the margin, is the width of the canvas, and past the
    last row it is its height. *)
Lemma tile_images_as_is_layout :
  Spec.widths_agree images cols rows ->
  Spec.heights_agree images cols rows ->
  exists canvas images',
    Storyboard.tile_images images (cols, rows) params = Ok (canvas, images')
    /\ pasted canvas = Spec.layout images cols rows None hs vs hm vm
    /\ (forall row, 0 <= row < rows ->
          Spec.x_offset images cols hs hm row cols - hs + hm = fst (size canvas))
    /\ Spec.y_offset images cols vs vm rows - vs + vm = snd (size canvas).
Proof.
  intros Hw Hh. rewrite tile_images_as_is_eq.
  rewrite (check_columns_passes images cols rows cols_pos rows_pos filled _ Hw).
  rewrite (check_rows_passes images cols rows cols_pos rows_pos filled _ Hh).
  cbn [bind].
  destruct (assemble_layout images cols rows None hs vs hm vm cols_pos rows_pos filled
              (new (hs * (cols - 1) + hm * 2
                    + Spec.sum_over (range 0 cols)
                        (fun col => fst (size (Spec.source images cols 0 col))),
                    vs * (rows - 1) + vm * 2
                    + Spec.sum_over (range 0 rows)
                        (fun row => snd (size (Spec.source images cols row 0))))))
    as [canvas [-> [Hsize Hpasted]]].
  cbn [bind]. do 2 eexists. split; [reflexivity|].
  rewrite Hsize. unfold new at 1 2. cbn [size pasted fst snd] in *.
  split; [exact Hpasted|]. split.
  - intros row Hrow. unfold Spec.x_offset.
    rewrite sum_over_plus, length_range.
    rewrite (sum_over_ext _ _ (fun col => fst (size (Spec.source images cols 0 col)))).
    + nia.
    + intros col Hcol. apply in_range in Hcol. now apply Hw.
  - unfold Spec.y_offset. rewrite sum_over_plus, length_range. nia.
Qed.

(** A width or a height that does not agree makes [tile_images] raise the
    [ValueError] of the check that finds it. *)
Lemma tile_images_as_is_raises e :
  Storyboard.tile_images images (cols, rows) params = Raise e ->
  (exists start, Storyboard.check_columns images cols rows start = Raise e)
  \/ (exists start, Storyboard.check_rows images cols rows start = Raise e).
Proof.
  rewrite tile_images_as_is_eq.
  destruct (Storyboard.check_columns _ _ _ _) as [w|e1] eqn:Ec; cbn [bind].
  - destruct (Storyboard.check_rows _ _ _ _) as [h|e2] eqn:Er; cbn [bind].
    + destruct (assemble_layout images cols rows None hs vs hm vm cols_pos rows_pos filled
                  (new (w, h))) as [canvas [-> _]].
      discriminate.
    + intros [= <-]. right. eauto.
  - intros [= <-]. left. eauto.
Qed.

Lemma tile_images_as_is_detects :
  ~ (Spec.widths_agree images cols rows /\ Spec.heights_agree images cols rows) ->
  exists message,
    Storyboard.tile_images images (cols, rows) params = Raise (ValueError message).
Proof.
  intros Hbad. rewrite tile_images_as_is_eq.
  destruct (Storyboard.check_columns _ _ _ _) as [w|e1] eqn:Ec; cbn [bind].
  - destruct (Storyboard.check_rows _ _ _ _) as [h|e2] eqn:Er; cbn [bind].
    + exfalso. apply Hbad. split.
      * eapply check_columns_sound; eassumption.
      * eapply check_rows_sound; eassumption.
    + destruct (check_rows_raises images cols rows cols_pos rows_pos filled _ _ Er)
        as [row [col [_ [_ [_ ->]]]]]. eauto.
  - destruct (check_columns_raises images cols rows cols_pos rows_pos filled _ _ Ec)
      as [row [col [_ [_ [_ ->]]]]]. eauto.
Qed.

End AsIs.

(** C5, at the input where the code departs from it.  Image #3 (row 1,
    column 1) is taller than image #2, the first image of its row (row 1,
    column 0); the message gives row 0, column 1 as the place of image #2. *)
Theorem tile_images_height_mismatch_message :
  Storyboard.tile_images Samples.uneven_row (2, 2) Storyboard.no_params
  = Raise (ValueError
      ("the height of image #3 (row #1, col #1, 10x20) " ++
       "does not agree with that of image #2 (row #0, col #1, 10x10)")).
Proof. reflexivity. Qed.

(** ** [tile_images] with a tile size *)


(** C6, at the input where the code departs from it.  Four 100x100 images
    tiled 2x2 with [tile_size = (10, 10)]: the canvas is 20x20 and each
    pasted tile is 10x10, yet the tiles are pasted 100 pixels apart, the size
    of the images before they were resized. *)
Theorem tile_images_resize_steps_by_source_size :
  Storyboard.tile_images Samples.four_frames (2, 2) (Samples.resize_params (10, 10) (0, 0))
  = Ok ({| size := (20, 20); pixels := 0; closed := false;
           pasted := [(0%nat, (10, 10), (0, 0)); (1%nat, (10, 10), (100, 0));
                      (2%nat, (10, 10), (0, 100)); (3%nat, (10, 10), (100, 100))] |},
        Samples.four_frames).
Proof. reflexivity. Qed.

(** * Further properties of the code *)

(** ** [_round_up] *)



(** ** Decimal numerals and [_evaluate_ratio] *)
















(** ** What makes [_process_stream] fail *)




(** ** The type and the language of a stream *)

(** The [Stream] object has the index of the reported stream.  Its type is
    the reported [codec_type], and ['unknown'] when there is none, except for
    a subtitle stream: that branch never assigns [s.type], which stays
    [None].  The language code is read for audio and subtitle streams only;
    a video stream has none, whatever its tags say.  A stream that is not a
    video stream leaves the [Video] as it is. *)
Theorem process_stream_type_and_language
        (self : Metadata.Video.t) (stream : Probe.stream)
        (self' : Metadata.Video.t) (s : Metadata.Stream.t) :
  Metadata._process_stream self stream = Ok (self', s) ->
  Metadata.Stream.index s = Probe.index stream
  /\ Metadata.Stream.type s
     = match Probe.codec_type stream with
       | None => Some "unknown"
       | Some codec_type =>
           if (codec_type =? "subtitle")%string then None else Some codec_type
       end
  /\ Metadata.Stream.language_code s
     = match Probe.codec_type stream with
       | None => None
       | Some codec_type =>
           if ((codec_type =? "audio") || (codec_type =? "subtitle"))%string
           then Metadata.language_of stream else None
       end
  /\ (Probe.codec_type stream <> Some "video" -> self' = self).
Proof.
  unfold Metadata._process_stream.
  destruct (Probe.index stream) as [index|]; cbn [getitem bind]; [|discriminate].
  destruct (Probe.codec_type stream) as [codec_type|];
    [|intros [= <- <-]; repeat split].
  destruct (String.eqb_spec codec_type "video") as [->|Hv].
  - unfold Metadata.process_video_stream.
    destruct (Probe.width stream) as [width|]; cbn [getitem bind]; [|discriminate].
    destruct (Probe.height stream) as [height|]; cbn [getitem bind]; [|discriminate].
    destruct (match Probe.display_aspect_ratio stream with
              | Some _ => _
              | None => _
              end) as [[dar dar_text]|]; cbn [bind]; [|discriminate].
    intros [= <- <-]. repeat split. intros H. now elim H.
  - destruct (String.eqb_spec codec_type "audio") as [->|Ha].
    + intros [= <- <-]. repeat split.
    + destruct (String.eqb_spec codec_type "subtitle") as [->|Hs].
      * intros [= <- <-]. repeat split.
      * intros [= <- <-]. repeat split.
Qed.

Lemma process_stream_type_and_language_witness :
  exists self' s,
    Metadata._process_stream Samples.fresh_video (Examples.subtitle_stream 2)
    = Ok (self', s)
    /\ Metadata.Stream.type s = None
    /\ Metadata.Stream.language_code s = Some "eng".
Proof.
  do 2 eexists. split; [reflexivity|].
  destruct (process_stream_type_and_language Samples.fresh_video
              (Examples.subtitle_stream 2) _ _ eq_refl) as [_ [Htype [Hlang _]]].
  split; [exact Htype | exact Hlang].
Defined.

(** ** [_extract_streams]: the streams in their order *)

(** Neither the [Stream] object nor the exception of [_process_stream]
    depends on the [Video] it is called on. *)
Lemma process_stream_independent (self v : Metadata.Video.t) (stream : Probe.stream) :
  match Metadata._process_stream self stream, Metadata._process_stream v stream with
  | Ok (_, s), Ok (_, s') => s = s'
  | Raise e, Raise e' => e = e'
  | _, _ => False
  end.
Proof.
  unfold Metadata._process_stream.
  destruct (Probe.index stream) as [index|]; cbn [getitem bind]; [|reflexivity].
  destruct (Probe.codec_type stream) as [codec_type|]; [|reflexivity].
  destruct (codec_type =? "video")%string.
  - unfold Metadata.process_video_stream.
    destruct (Probe.width stream) as [width|]; cbn [getitem bind]; [|reflexivity].
    destruct (Probe.height stream) as [height|]; cbn [getitem bind]; [|reflexivity].
    destruct (Probe.display_aspect_ratio stream) as [text|]; cbn [bind]; [reflexivity|].
    destruct (floordiv width _) as [rw|]; cbn [bind]; [|reflexivity].
    destruct (floordiv height _) as [rh|]; cbn [bind]; [|reflexivity].
    destruct (truediv _ _) as [dar|]; cbn [bind]; reflexivity.
  - destruct (codec_type =? "audio")%string; [reflexivity|].
    destruct (codec_type =? "subtitle")%string; reflexivity.
Qed.

Lemma process_stream_ok_anywhere (self v : Metadata.Video.t) (stream : Probe.stream)
      (self' : Metadata.Video.t) (s : Metadata.Stream.t) :
  Metadata._process_stream self stream = Ok (self', s) ->
  exists v', Metadata._process_stream v stream = Ok (v', s).
Proof.
  intros H. pose proof (process_stream_independent self v stream) as Hi.
  rewrite H in Hi. destruct (Metadata._process_stream v stream) as [[v' s']|e].
  - subst. eauto.
  - contradiction.
Qed.

Lemma process_stream_raise_anywhere (self v : Metadata.Video.t) (stream : Probe.stream)
      (e : exn) :
  Metadata._process_stream self stream = Raise e ->
  Metadata._process_stream v stream = Raise e.
Proof.
  intros H. pose proof (process_stream_independent self v stream) as Hi.
  rewrite H in Hi. destruct (Metadata._process_stream v stream) as [[v' s']|e'].
  - contradiction.
  - now subst.
Qed.

(** What [_process_stream] leaves alone in [self], and the index of the
    [Stream] object. *)
Lemma process_stream_keeps (self : Metadata.Video.t) (stream : Probe.stream)
      (self' : Metadata.Video.t) (s : Metadata.Stream.t) :
  Metadata._process_stream self stream = Ok (self', s) ->
  Metadata.Stream.index s = Probe.index stream
  /\ Metadata.Video.streams self' = Metadata.Video.streams self
  /\ Metadata.Video.path self' = Metadata.Video.path self
  /\ Metadata.Video.filename self' = Metadata.Video.filename self
  /\ Metadata.Video.title self' = Metadata.Video.title self
  /\ Metadata.Video.size self' = Metadata.Video.size self
  /\ Metadata.Video.size_human self' = Metadata.Video.size_human self
  /\ Metadata.Video.duration self' = Metadata.Video.duration self
  /\ Metadata.Video.duration_human self' = Metadata.Video.duration_human self
  /\ Metadata.Video.scan_type self' = Metadata.Video.scan_type self
  /\ Metadata.Video.sha1sum self' = Metadata.Video.sha1sum self.
Proof.
  unfold Metadata._process_stream.
  destruct (Probe.index stream) as [index|]; cbn [getitem bind]; [|discriminate].
  destruct (Probe.codec_type stream) as [codec_type|];
    [|intros [= <- <-]; repeat split].
  destruct (codec_type =? "video")%string.
  - unfold Metadata.process_video_stream.
    destruct (Probe.width stream) as [width|]; cbn [getitem bind]; [|discriminate].
    destruct (Probe.height stream) as [height|]; cbn [getitem bind]; [|discriminate].
    destruct (match Probe.display_aspect_ratio stream with
              | Some _ => _
              | None => _
              end) as [[dar dar_text]|]; cbn [bind]; [|discriminate].
    intros [= <- <-].
    repeat
      (cbn [Metadata.Video.set_dimension Metadata.Video.set_dar
            Metadata.Video.set_frame_rate Metadata.Video.dimension
            Metadata.Video.dar Metadata.Video.frame_rate];
       match goal with
       | |- context [Metadata.is_None ?x] => destruct (Metadata.is_None x)
       end);
      cbn [Metadata.Stream.index Metadata.Video.set_dimension Metadata.Video.set_dar
           Metadata.Video.set_frame_rate Metadata.Video.streams
           Metadata.Video.path Metadata.Video.filename Metadata.Video.title
           Metadata.Video.size Metadata.Video.size_human Metadata.Video.duration
           Metadata.Video.duration_human Metadata.Video.scan_type
           Metadata.Video.sha1sum];
      repeat split.
  - destruct (codec_type =? "audio")%string; [intros [= <- <-]; repeat split|].
    destruct (codec_type =? "subtitle")%string; intros [= <- <-]; repeat split.
Qed.

(** The loop of [_extract_streams] appends to [self.streams], for each
    stream in turn, the [Stream] object that [_process_stream] makes of
    it. *)
Lemma extract_streams_loop_ok (raw : list Probe.stream) :
  forall self self' : Metadata.Video.t,
    Metadata.extract_streams_loop self raw = Ok self' ->
    exists new : list Metadata.Stream.t,
      Metadata.Video.streams self' = (Metadata.Video.streams self ++ new)%list
      /\ Forall2 (fun stream s =>
                    forall v, exists v', Metadata._process_stream v stream = Ok (v', s))
                 raw new
      /\ map Metadata.Stream.index new = map Probe.index raw
      /\ Metadata.Video.path self' = Metadata.Video.path self
      /\ Metadata.Video.filename self' = Metadata.Video.filename self
      /\ Metadata.Video.title self' = Metadata.Video.title self
      /\ Metadata.Video.size self' = Metadata.Video.size self
      /\ Metadata.Video.size_human self' = Metadata.Video.size_human self
      /\ Metadata.Video.duration self' = Metadata.Video.duration self
      /\ Metadata.Video.duration_human self' = Metadata.Video.duration_human self
      /\ Metadata.Video.scan_type self' = Metadata.Video.scan_type self
      /\ Metadata.Video.sha1sum self' = Metadata.Video.sha1sum self.
Proof.
  induction raw as [|stream raw IH]; intros self self'; cbn [Metadata.extract_streams_loop].
  - intros [= <-]. exists []. rewrite app_nil_r. repeat split. constructor.
  - destruct (Metadata._process_stream self stream) as [[self1 s]|e] eqn:E;
      [|discriminate].
    cbn [bind]. intros Hloop.
    destruct (process_stream_keeps _ _ _ _ E)
      as [Hi [Hs [H1 [H2 [H3 [H4 [H5 [H6 [H7 [H8 H9]]]]]]]]]].
    destruct (IH _ _ Hloop)
      as [new [Hnew [Hall [Hidx [G1 [G2 [G3 [G4 [G5 [G6 [G7 [G8 G9]]]]]]]]]]]].
    cbn [Metadata.Video.set_streams Metadata.Video.streams Metadata.Video.path
         Metadata.Video.filename Metadata.Video.title Metadata.Video.size
         Metadata.Video.size_human Metadata.Video.duration
         Metadata.Video.duration_human Metadata.Video.scan_type
         Metadata.Video.sha1sum] in *.
    exists (s :: new). rewrite Hnew, Hs, <- app_assoc. cbn [app map].
    rewrite Hi, Hidx.
    repeat split; try congruence.
    constructor; [|exact Hall].
    intros v. eapply process_stream_ok_anywhere. exact E.
Qed.

(** When [_extract_streams] returns, [self.streams] holds one [Stream]
    object for each stream that ffprobe reported, in the order of the
    report and with the index of the report: the object [_process_stream]
    makes of that stream, whatever the streams before it.  What
    [self.streams] held before is gone, and the path, the file name, the
    title, the size, the duration, the scan type and the digest of the
    video are as they were. *)
Theorem extract_streams_in_order
        (self : Metadata.Video.t) (raw : list Probe.stream) (self' : Metadata.Video.t) :
  Metadata._extract_streams self raw = Ok self' ->
  Forall2 (fun stream s =>
             forall v, exists v', Metadata._process_stream v stream = Ok (v', s))
          raw (Metadata.Video.streams self')
  /\ map Metadata.Stream.index (Metadata.Video.streams self') = map Probe.index raw
  /\ Metadata.Video.path self' = Metadata.Video.path self
  /\ Metadata.Video.filename self' = Metadata.Video.filename self
  /\ Metadata.Video.title self' = Metadata.Video.title self
  /\ Metadata.Video.size self' = Metadata.Video.size self
  /\ Metadata.Video.size_human self' = Metadata.Video.size_human self
  /\ Metadata.Video.duration self' = Metadata.Video.duration self
  /\ Metadata.Video.duration_human self' = Metadata.Video.duration_human self
  /\ Metadata.Video.scan_type self' = Metadata.Video.scan_type self
  /\ Metadata.Video.sha1sum self' = Metadata.Video.sha1sum self.
Proof.
  unfold Metadata._extract_streams. intros H.
  destruct (extract_streams_loop_ok _ _ _ H) as [new [Hnew Hrest]].
  cbn [Metadata.Video.set_streams Metadata.Video.streams Metadata.Video.path
       Metadata.Video.filename Metadata.Video.title Metadata.Video.size
       Metadata.Video.size_human Metadata.Video.duration
       Metadata.Video.duration_human Metadata.Video.scan_type
       Metadata.Video.sha1sum app] in *.
  rewrite Hnew. exact Hrest.
Qed.

(** The loop fails at the first stream that [_process_stream] cannot
    process, with the exception of that stream. *)
Lemma extract_streams_loop_raise (e : exn) (raw : list Probe.stream) :
  forall self : Metadata.Video.t,
    Metadata.extract_streams_loop self raw = Raise e <->
    exists good bad rest,
      raw = (good ++ bad :: rest)%list
      /\ (forall stream, In stream good ->
            exists out, Metadata._process_stream self stream = Ok out)
      /\ Metadata._process_stream self bad = Raise e.
Proof.
  induction raw as [|stream raw IH]; intros self; cbn [Metadata.extract_streams_loop].
  - split; [discriminate|]. intros [[|? ?] [bad [rest [H _]]]]; discriminate.
  - destruct (Metadata._process_stream self stream) as [[self1 s]|e1] eqn:E; cbn [bind].
    + rewrite IH. split.
      * intros [good [bad [rest [-> [Hgood Hbad]]]]].
        exists (stream :: good), bad, rest. split; [reflexivity|]. split.
        -- intros x [<-|Hx]; [eauto|].
           destruct (Hgood x Hx) as [[u t] Hu].
           destruct (process_stream_ok_anywhere _ self _ _ _ Hu) as [u' Hu']. eauto.
        -- eapply process_stream_raise_anywhere. exact Hbad.
      * intros [[|x good] [bad [rest [Hraw [Hgood Hbad]]]]]; cbn [app] in Hraw;
          injection Hraw as <- ->.
        -- congruence.
        -- exists good, bad, rest. split; [reflexivity|]. split.
           ++ intros y Hy. destruct (Hgood y (or_intror Hy)) as [[u t] Hu].
              destruct (process_stream_ok_anywhere _
                          (Metadata.Video.set_streams self1
                             (Metadata.Video.streams self1 ++ [s])) _ _ _ Hu)
                as [u' Hu']. eauto.
           ++ eapply process_stream_raise_anywhere. exact Hbad.
    + split.
      * intros [= <-]. exists [], stream, raw. repeat split; [|exact E].
        intros x [].
      * intros [[|x good] [bad [rest [Hraw [Hgood Hbad]]]]]; cbn [app] in Hraw;
          injection Hraw as <- ->.
        -- congruence.
        -- destruct (Hgood stream (or_introl eq_refl)) as [out Hout]. congruence.
Qed.

(** [_extract_streams] fails exactly when [_process_stream] fails on one of
    the streams, and then with the exception of the first such stream; the
    streams after it are not looked at.  So it returns exactly when every
    stream can be processed on its own. *)
Theorem extract_streams_fails_at_first
        (self : Metadata.Video.t) (raw : list Probe.stream) (e : exn) :
  Metadata._extract_streams self raw = Raise e <->
  exists good bad rest,
    raw = (good ++ bad :: rest)%list
    /\ (forall stream, In stream good ->
          exists out, Metadata._process_stream self stream = Ok out)
    /\ Metadata._process_stream self bad = Raise e.
Proof.
  unfold Metadata._extract_streams. rewrite extract_streams_loop_raise.
  split; intros [good [bad [rest [Hraw [Hgood Hbad]]]]];
    exists good, bad, rest; (split; [exact Hraw|]); split.
  - intros x Hx. destruct (Hgood x Hx) as [[u t] Hu].
    destruct (process_stream_ok_anywhere _ self _ _ _ Hu) as [u' Hu']. eauto.
  - eapply process_stream_raise_anywhere. exact Hbad.
  - intros x Hx. destruct (Hgood x Hx) as [[u t] Hu].
    destruct (process_stream_ok_anywhere _ (Metadata.Video.set_streams self []) _ _ _ Hu)
      as [u' Hu']. eauto.
  - eapply process_stream_raise_anywhere. exact Hbad.
Qed.

Lemma extract_streams_in_order_witness :
  exists self',
    Metadata._extract_streams Samples.fresh_video (Probe.streams Examples.report)
    = Ok self'
    /\ map Metadata.Stream.index (Metadata.Video.streams self') = [Some 0; Some 1].
Proof.
  eexists. split; [reflexivity|].
  exact (proj1 (proj2 (extract_streams_in_order Samples.fresh_video
                         (Probe.streams Examples.report) _ eq_refl))).
Defined.

(** ** The constructor of [Video] *)





(** What a [Video] is when its constructor returns.  The file exists and
    ffprobe ran on it without an error; the constructor has looked for the
    path, run ffprobe on the file, read the head of the file and run ffprobe
    on it, in this order and nothing else; the size, the duration, the title
    and the file name are those of the report and of the path, with their
    readable forms; no digest was computed; there is one [Stream] object for
    each reported stream, in the order of the report; and the dimension, the
    aspect ratio and the frame rate of the video, each with its text, are
    those of the first stream that has one. *)
Theorem Video_init_returns
        (w : World.world) (args : list Call.value) (kwargs : list (string * Call.value))
        (log : list World.event) (v : Metadata.Video.t) (log' : list World.event) :
  Metadata.__init__ w args kwargs log = (Ok v, log') ->
  exists (ffprobe_bin : string) (out : Probe.output),
    World.path_exists w (Metadata.Video.path v) = true
    /\ World.ffprobe w ffprobe_bin (Metadata.Video.path v) = inr out
    /\ log' = (log ++ [World.PathExists (Metadata.Video.path v);
                       World.RunFFprobe ffprobe_bin (Metadata.Video.path v);
                       World.ReadHead (Metadata.Video.path v);
                       World.RunFFprobeFrames ffprobe_bin])%list
    /\ Metadata.Video.filename v = World.basename w (Metadata.Video.path v)
    /\ Metadata.Video.title v = Probe.format_title out
    /\ Metadata.Video.size v = Probe.format_size out
    /\ Metadata.Video.size_human v = Metadata.size_human (Probe.format_size out)
    /\ Metadata.Video.duration v = Probe.format_duration out
    /\ Metadata.Video.duration_human v
       = Metadata.duration_human_of (Probe.format_duration out)
    /\ Metadata.Video.sha1sum v = None
    /\ Forall2 (fun stream s =>
                  forall u, exists u', Metadata._process_stream u stream = Ok (u', s))
               (Probe.streams out) (Metadata.Video.streams v)
    /\ (Metadata.Video.dimension v, Metadata.Video.dimension_text v)
       = Spec.first_present Metadata.Stream.dimension Metadata.Stream.dimension_text
           (Metadata.Video.streams v)
    /\ (Metadata.Video.dar v, Metadata.Video.dar_text v)
       = Spec.first_present Metadata.Stream.dar Metadata.Stream.dar_text
           (Metadata.Video.streams v)
    /\ (Metadata.Video.frame_rate v, Metadata.Video.frame_rate_text v)
       = Spec.first_present Metadata.Stream.frame_rate Metadata.Stream.frame_rate_text
           (Metadata.Video.streams v).
Proof.
  unfold Metadata.__init__, World.bind, World.lift, World.emit, World.raise.
  destruct (Call.bind_arguments _ _ _) as [locals|]; [|discriminate].
  destruct (Call.as_str "video" _) as [video|]; [|discriminate].
  destruct (World.path_exists w (World.abspath w video)) eqn:Eexists;
    cbn [negb]; [|discriminate].
  destruct (Call.as_str "ffprobe_bin" _) as [ffprobe_bin|]; [|discriminate].
  destruct (World.ffprobe w ffprobe_bin (World.abspath w video)) as [err|out] eqn:Eprobe;
    [discriminate|].
  match goal with
  | |- (Metadata._extract_streams ?s0 ?raw, ?l) = _ -> _ =>
      set (self := s0); set (events := l);
      destruct (Metadata._extract_streams self raw) as [v'|] eqn:Estreams
  end; [|discriminate].
  intros [= -> <-].
  destruct (extract_streams_container self (Probe.streams out) v
              eq_refl eq_refl eq_refl Estreams) as [Hd [Hr Hf]].
  unfold Metadata._extract_streams in Estreams.
  destruct (extract_streams_loop_ok _ _ _ Estreams)
    as [new [Hnew [Hall [_ [Hpath [Hname [Htitle [Hsize [Hsh [Hdur [Hdh [_ Hsha]]]]]]]]]]]].
  cbn [Metadata.Video.set_streams Metadata.Video.streams app] in Hnew.
  rewrite <- Hnew in Hall.
  exists ffprobe_bin, out. unfold self in *.
  cbn [Metadata.Video.path Metadata.Video.filename Metadata.Video.title
       Metadata.Video.size Metadata.Video.size_human Metadata.Video.duration
       Metadata.Video.duration_human Metadata.Video.sha1sum] in *.
  rewrite Hpath, Hname, Htitle, Hsize, Hsh, Hdur, Hdh, Hsha.
  repeat split; try assumption.
  unfold events. rewrite <- !app_assoc. reflexivity.
Qed.

Lemma Video_init_returns_witness :
  exists v log',
    Metadata.__init__ Examples.studio [Call.VStr "clip.mp4"] [] [] = (Ok v, log')
    /\ Metadata.Video.sha1sum v = None
    /\ (Metadata.Video.dimension v, Metadata.Video.dimension_text v)
       = Spec.first_present Metadata.Stream.dimension Metadata.Stream.dimension_text
           (Metadata.Video.streams v).
Proof.
  do 2 eexists. split; [lazy; reflexivity|].
  destruct (Video_init_returns Examples.studio [Call.VStr "clip.mp4"] [] [] _ _ eq_refl)
    as [ffprobe_bin [out [_ [_ [_ [_ [_ [_ [_ [_ [_ [Hsha [_ [Hdim _]]]]]]]]]]]]]].
  split; [exact Hsha | exact Hdim].
Defined.



(** ** The readable duration *)

Lemma Qfloor_unique (x : Q) (n : Z) :
  (inject_Z n <= x)%Q -> (x < inject_Z (n + 1))%Q -> Qfloor x = n.
Proof.
  intros Hle Hlt.
  pose proof (Qfloor_le x) as H1. pose proof (Qlt_floor x) as H2.
  assert (Ha : (inject_Z n < inject_Z (Qfloor x + 1))%Q)
    by (eapply Qle_lt_trans; eassumption).
  assert (Hb : (inject_Z (Qfloor x) < inject_Z (n + 1))%Q)
    by (eapply Qle_lt_trans; eassumption).
  rewrite <- Zlt_Qlt in Ha, Hb. lia.
Qed.

(** [round] of a float above the middle of two integers. *)
Lemma round_half_even_above (x : Q) (n : Z) :
  (inject_Z n + (1 # 2) < x)%Q -> (x < inject_Z (n + 1))%Q ->
  round_half_even x = n + 1.
Proof.
  intros Hlo Hhi. unfold round_half_even.
  assert (Hfl : Qfloor x = n).
  { apply Qfloor_unique; [|exact Hhi]. apply Qlt_le_weak.
    eapply Qle_lt_trans; [|exact Hlo]. lra. }
  rewrite Hfl.
  assert (Hgt : (1 < Qred (2 * (x - inject_Z n)))%Q) by (rewrite Qred_correct; lra).
  destruct (Qcompare (Qred (2 * (x - inject_Z n))) 1) eqn:E.
  - apply Qeq_alt in E. rewrite E in Hgt. discriminate.
  - apply Qlt_alt in E. exfalso. eapply Qlt_irrefl, Qlt_trans; eassumption.
  - reflexivity.
Qed.

(** The three fields of a duration that is not negative. *)
Lemma duration_fields (t : Q) :
  (0 <= t)%Q ->
  let T := int_of_float t in
  0 <= T / 3600
  /\ 0 <= (T / 60) mod 60 < 60
  /\ (0 <= t - float_of_int (T / 60 * 60))%Q
  /\ (t - float_of_int (T / 60 * 60) < 60)%Q
  /\ (t == inject_Z (3600 * (T / 3600) + 60 * ((T / 60) mod 60))
           + (t - float_of_int (T / 60 * 60)))%Q.
Proof.
  intros Ht T. unfold T. rewrite (int_of_float_floor t Ht). clear T.
  pose proof (Qfloor_le t) as Hle. pose proof (Qlt_floor t) as Hlt.
  set (F := Qfloor t) in *.
  assert (HF : 0 <= F).
  { assert (H : (inject_Z 0 < inject_Z (F + 1))%Q)
      by (eapply Qle_lt_trans; [exact Ht | exact Hlt]).
    rewrite <- Zlt_Qlt in H. lia. }
  pose proof (Z.div_mod F 60 ltac:(lia)) as Hdm.
  pose proof (Z.mod_pos_bound F 60 ltac:(lia)) as Hmb.
  assert (Hsum : 3600 * (F / 3600) + 60 * ((F / 60) mod 60) = F / 60 * 60).
  { replace 3600 with (60 * 60) by reflexivity.
    rewrite <- Z.div_div by lia.
    pose proof (Z.div_mod (F / 60) 60 ltac:(lia)). lia. }
  unfold float_of_int.
  assert (Hlow : (inject_Z (F / 60 * 60) <= inject_Z F)%Q) by (rewrite <- Zle_Qle; lia).
  assert (Hhigh : (inject_Z (F + 1) <= inject_Z (F / 60 * 60) + 60)%Q).
  { change 60%Q with (inject_Z 60). rewrite <- inject_Z_plus, <- Zle_Qle. lia. }
  split; [apply Z.div_pos; lia|].
  split; [apply Z.mod_pos_bound; lia|].
  split; [lra|]. split; [lra|].
  rewrite Hsum. ring.
Qed.

(** The readable duration of a duration that is not negative has the
    fields [hh:mm:ss] with whole hours [hh], less than sixty whole minutes
    [mm] and less than sixty seconds [ss], which add up to the duration. *)
Theorem duration_human_adds_up (t : Q) :
  (0 <= t)%Q ->
  exists (hh mm : Z) (ss : Q),
    Metadata.duration_human_of t
    = zero_pad 2 (str_of_int hh) ++ ":" ++ zero_pad 2 (str_of_int mm) ++ ":"
        ++ zero_pad 5 (str_of_float 2 ss)
    /\ 0 <= hh /\ 0 <= mm < 60 /\ (0 <= ss)%Q /\ (ss < 60)%Q
    /\ (t == inject_Z (3600 * hh + 60 * mm) + ss)%Q.
Proof.
  intros Ht. destruct (duration_fields t Ht) as [Hh [Hm [Hs0 [Hs1 Hsum]]]].
  exists (int_of_float t / 3600), ((int_of_float t / 60) mod 60),
    (Qred (t - float_of_int (int_of_float t / 60 * 60))).
  split; [reflexivity|].
  rewrite Qred_correct. auto.
Qed.

Lemma duration_human_adds_up_witness :
  exists (hh mm : Z) (ss : Q),
    Metadata.duration_human_of (7451 # 2)
    = zero_pad 2 (str_of_int hh) ++ ":" ++ zero_pad 2 (str_of_int mm) ++ ":"
        ++ zero_pad 5 (str_of_float 2 ss)
    /\ 0 <= hh /\ 0 <= mm < 60 /\ (0 <= ss)%Q /\ (ss < 60)%Q
    /\ (7451 # 2 == inject_Z (3600 * hh + 60 * mm) + ss)%Q.
Proof.
  apply (duration_human_adds_up (7451 # 2)). discriminate.
Defined.

(** The seconds of the readable duration are rounded to two decimals on
    their own: past 59.995 seconds they read [60.00], and the minutes are
    not advanced. *)
Theorem duration_human_sixty_seconds (t : Q) :
  (0 <= t)%Q ->
  (59995 # 1000 < t - inject_Z (int_of_float t / 60 * 60))%Q ->
  Metadata.duration_human_of t
  = zero_pad 2 (str_of_int (int_of_float t / 3600)) ++ ":"
      ++ zero_pad 2 (str_of_int ((int_of_float t / 60) mod 60)) ++ ":60.00".
Proof.
  intros Ht Hss. destruct (duration_fields t Ht) as [_ [_ [Hs0 [Hs1 _]]]].
  unfold Metadata.duration_human_of. do 4 f_equal.
  unfold float_of_int in *.
  set (ss := (t - inject_Z (int_of_float t / 60 * 60))%Q) in *.
  unfold str_of_float.
  assert (Hsign : Qltb (Qred ss) 0 = false).
  { apply Qltb_ge. rewrite Qred_correct. exact Hs0. }
  rewrite Hsign.
  assert (Hm : round_half_even (Qabs (Qred ss) * inject_Z (10 ^ Z.of_nat 2)) = 5999 + 1).
  { apply round_half_even_above.
    - rewrite Qabs_pos by (rewrite Qred_correct; exact Hs0).
      rewrite Qred_correct. change (inject_Z (10 ^ Z.of_nat 2)) with 100%Q.
      change (inject_Z 5999) with 5999%Q.
      assert (E : (59995 # 1000 == 59995 / 1000)%Q) by reflexivity.
      rewrite E in Hss. lra.
    - rewrite Qabs_pos by (rewrite Qred_correct; exact Hs0).
      rewrite Qred_correct. change (inject_Z (10 ^ Z.of_nat 2)) with 100%Q.
      change (inject_Z (5999 + 1)) with 6000%Q. lra. }
  rewrite Hm. reflexivity.
Qed.

Lemma duration_human_sixty_seconds_witness :
  Metadata.duration_human_of (59996 # 1000) = "00:00:60.00".
Proof.
  apply (duration_human_sixty_seconds (59996 # 1000)); reflexivity || discriminate.
Defined.

(** ** [gen_frames]: what happens to [self.frames] *)

(** [gen_frames(count)] on a board whose number of frames is not [count],
    with a positive [count] and an ffmpeg that gives every frame: the board
    keeps the frames it held and [count] new frames come after them, so the
    frames are not overwritten.  On a board that held frames, the number of
    frames is then still not [count]. *)
Theorem gen_frames_appends
        (w : World.world) (self : Storyboard.t) (count : Z)
        (ffmpeg_bin codec : string) (bins : list string) (log : list World.event) :
  0 < count ->
  Z.of_nat (List.length (Storyboard.frames self)) <> count ->
  Storyboard._bins self = Some (ffmpeg_bin :: bins) ->
  Storyboard._frame_codec self = Some codec ->
  (forall time,
     World.extract_frame w ffmpeg_bin codec
       (Metadata.Video.path (Storyboard.video self)) time <> None) ->
  exists self' new_frames log',
    Storyboard.gen_frames w self count false log = (Ok self', log')
    /\ Storyboard.frames self' = (Storyboard.frames self ++ new_frames)%list
    /\ Z.of_nat (List.length new_frames) = count
    /\ Storyboard.video self' = Storyboard.video self
    /\ (Storyboard.frames self <> [] ->
        Z.of_nat (List.length (Storyboard.frames self')) <> count).
Proof.
  intros Hcount Hlen Hbins Hcodec Hworld.
  pose proof (sample_timestamps_eq (Metadata.Video.duration (Storyboard.video self))
                count Hcount) as Hsample.
  set (timestamps := map _ (range 0 count)) in Hsample.
  destruct (extract_loop w count ffmpeg_bin codec bins timestamps self 0 log
              Hbins Hcodec (fun time _ => Hworld time))
    as [self' [new_frames [Hrun [Hvideo [Hframes Hall]]]]].
  exists self', new_frames. eexists.
  assert (Hnew : Z.of_nat (List.length new_frames) = count).
  { apply Forall2_length in Hall. rewrite <- Hall. unfold timestamps.
    rewrite length_map, length_range. lia. }
  split; [|split; [exact Hframes | split; [exact Hnew | split; [exact Hvideo|]]]].
  - unfold Storyboard.gen_frames. apply Z.eqb_neq in Hlen. rewrite Hlen.
    unfold World.bind, World.lift, World.ret. rewrite Hsample, Hrun. reflexivity.
  - intros Hheld. rewrite Hframes, length_app.
    destruct (Storyboard.frames self); [contradiction|]. cbn [List.length]. lia.
Qed.

Lemma gen_frames_appends_witness :
  exists self' new_frames log',
    Storyboard.gen_frames Examples.studio Examples.ready_board 4 false []
    = (Ok self', log')
    /\ Storyboard.frames self'
       = (Storyboard.frames Examples.ready_board ++ new_frames)%list
    /\ Z.of_nat (List.length new_frames) = 4
    /\ Storyboard.video self' = Storyboard.video Examples.ready_board
    /\ (Storyboard.frames Examples.ready_board <> [] ->
        Z.of_nat (List.length (Storyboard.frames self')) <> 4).
Proof.
  apply (gen_frames_appends Examples.studio Examples.ready_board 4
           "ffmpeg" "png" ["ffprobe"] []);
    [lia | discriminate | reflexivity | reflexivity | discriminate].
Defined.

(** [gen_frames] with a negative [count] extracts nothing and raises
    nothing: the board is as it was, and with [print_progress] a newline
    goes to stderr. *)
Theorem gen_frames_negative_count
        (w : World.world) (self : Storyboard.t) (count : Z) (print_progress : bool)
        (log : list World.event) :
  count < 0 ->
  Storyboard.gen_frames w self count print_progress log
  = (Ok self,
     if print_progress then (log ++ [World.Stderr (String "010" "")])%list else log).
Proof.
  intros Hcount. unfold Storyboard.gen_frames.
  destruct (Z.eqb_spec (Z.of_nat (List.length (Storyboard.frames self))) count) as [E|_];
    [lia|].
  unfold Storyboard.sample_timestamps, truediv, float_of_int.
  assert (Hnz : Qeq_bool (inject_Z count) 0 = false).
  { apply not_true_iff_false. rewrite Qeq_bool_iff.
    unfold Qeq, inject_Z. cbn [Qnum Qden]. lia. }
  rewrite Hnz. cbn [bind]. rewrite range_empty by lia. cbn [map].
  unfold World.bind, World.lift, World.ret, World.emit. cbn [World.for_each].
  unfold World.ret. now destruct print_progress.
Qed.

Lemma gen_frames_negative_count_witness :
  Storyboard.gen_frames Samples.barren Samples.fresh_board (-1) true []
  = (Ok Samples.fresh_board, [World.Stderr (String "010" "")]).
Proof.
  apply (gen_frames_negative_count Samples.barren Samples.fresh_board (-1) true []).
  lia.
Defined.

(** A board that has no [_bins] attribute, as [StoryBoard.__init__] leaves
    it, cannot extract: [gen_frames] with a positive [count] that is not the
    number of frames raises [AttributeError] at the first frame, before
    ffmpeg is asked for anything.  With [print_progress] the progress line
    of the first frame and a newline went to stderr. *)
Theorem gen_frames_without_bins
        (w : World.world) (self : Storyboard.t) (count : Z) (print_progress : bool)
        (log : list World.event) :
  0 < count ->
  Z.of_nat (List.length (Storyboard.frames self)) <> count ->
  Storyboard._bins self = None ->
  Storyboard.gen_frames w self count print_progress log
  = (Raise (AttributeError "_bins"),
     if print_progress
     then (log ++ [World.Stderr (String "013" "Extracting frame "
                                   ++ str_of_int 1 ++ "/" ++ str_of_int count ++ "...");
                   World.Stderr (String "010" "")])%list
     else log).
Proof.
  intros Hcount Hlen Hbins. unfold Storyboard.gen_frames.
  apply Z.eqb_neq in Hlen. rewrite Hlen.
  unfold World.bind at 1. unfold World.lift at 1.
  rewrite (sample_timestamps_eq _ count Hcount).
  rewrite range_cons by lia. cbn [map World.for_each].
  unfold World.bind at 1 2.
  unfold Storyboard.extract_one at 1.
  unfold World.on_exception, World.bind, World.lift, World.emit, World.ret.
  rewrite Hbins. cbn [Storyboard.getattr].
  destruct print_progress.
  - cbn [Z.add]. rewrite <- app_assoc. reflexivity.
  - reflexivity.
Qed.

Lemma gen_frames_without_bins_witness :
  Storyboard.gen_frames Samples.barren Samples.fresh_board 4 false []
  = (Raise (AttributeError "_bins"), []).
Proof.
  apply (gen_frames_without_bins Samples.barren Samples.fresh_board 4 false []);
    [lia | discriminate | reflexivity].
Defined.

(** ** [gen_frames]: the progress line *)

(** One frame with [print_progress]: when the frame is there, something
    was written after the log; when an exception leaves, the last thing
    written is the newline of the handler. *)
Lemma extract_one_log (w : World.world) (count : Z) (time : Q)
      (state : Storyboard.t * Z) (log : list World.event)
      (r : result (Storyboard.t * Z)) (log' : list World.event) :
  Storyboard.extract_one w count true time state log = (r, log') ->
  match r with
  | Ok _ => exists events, log' = (log ++ events)%list
  | Raise _ =>
      exists events, log' = (log ++ events ++ [World.Stderr (String "010" "")])%list
  end.
Proof.
  destruct state as [self counter].
  unfold Storyboard.extract_one, World.on_exception, World.bind, World.lift,
    World.emit, World.ret, World.raise.
  destruct (Storyboard._bins self) as [bins|]; cbn [Storyboard.getattr].
  2:{ intros [= <- <-]. eexists. rewrite <- app_assoc. reflexivity. }
  destruct (index bins 0) as [ffmpeg_bin|].
  2:{ intros [= <- <-]. eexists. rewrite <- app_assoc. reflexivity. }
  destruct (Storyboard._frame_codec self) as [codec|]; cbn [Storyboard.getattr].
  2:{ intros [= <- <-]. eexists. rewrite <- app_assoc. reflexivity. }
  destruct (World.extract_frame w ffmpeg_bin codec
              (Metadata.Video.path (Storyboard.video self)) time) as [frame|].
  - intros [= <- <-]. eexists. rewrite <- app_assoc. reflexivity.
  - intros [= <- <-]. rewrite <- !app_assoc. eexists (_ :: _ :: nil). reflexivity.
Qed.

Lemma extract_loop_log (w : World.world) (count : Z) (timestamps : list Q) :
  forall (state : Storyboard.t * Z) (log : list World.event)
         (r : result (Storyboard.t * Z)) (log' : list World.event),
    World.for_each timestamps (Storyboard.extract_one w count true) state log
    = (r, log') ->
    match r with
    | Ok _ => exists events, log' = (log ++ events)%list
    | Raise _ =>
        exists events, log' = (log ++ events ++ [World.Stderr (String "010" "")])%list
    end.
Proof.
  induction timestamps as [|time timestamps IH]; intros state log r log';
    cbn [World.for_each].
  - unfold World.ret. intros [= <- <-]. exists []. now rewrite app_nil_r.
  - unfold World.bind at 1.
    destruct (Storyboard.extract_one w count true time state log)
      as [[state1|e] log1] eqn:E1; apply extract_one_log in E1.
    + destruct E1 as [events1 ->]. intros Hrest. apply IH in Hrest.
      destruct r; destruct Hrest as [events ->]; exists (events1 ++ events)%list;
        rewrite <- !app_assoc; reflexivity.
    + intros [= <- <-]. exact E1.
Qed.

(** With [print_progress], whatever [gen_frames] writes to stderr ends with
    a newline: at the end of the loop when all frames were extracted, and
    from the handler when an exception leaves the loop, whichever it is.
    This holds for every board and every behaviour of ffmpeg, once the loop
    is entered, that is when [count] is neither zero nor the number of the
    frames. *)
Theorem gen_frames_progress_ends_with_newline
        (w : World.world) (self : Storyboard.t) (count : Z) (log : list World.event)
        (r : result Storyboard.t) (log' : list World.event) :
  count <> 0 ->
  Z.of_nat (List.length (Storyboard.frames self)) <> count ->
  Storyboard.gen_frames w self count true log = (r, log') ->
  exists events, log' = (log ++ events ++ [World.Stderr (String "010" "")])%list.
Proof.
  intros Hcount Hlen. unfold Storyboard.gen_frames.
  apply Z.eqb_neq in Hlen. rewrite Hlen.
  unfold Storyboard.sample_timestamps, truediv, float_of_int.
  assert (Hnz : Qeq_bool (inject_Z count) 0 = false).
  { apply not_true_iff_false. rewrite Qeq_bool_iff.
    unfold Qeq, inject_Z. cbn [Qnum Qden]. lia. }
  rewrite Hnz. cbn [bind].
  unfold World.bind at 1. unfold World.lift at 1.
  unfold World.bind at 1.
  match goal with
  | |- context [World.for_each ?l ?b ?s log] =>
      destruct (World.for_each l b s log) as [[[self1 counter1]|e] log1] eqn:Eloop
  end; apply extract_loop_log in Eloop.
  - destruct Eloop as [events ->]. unfold World.bind, World.emit, World.ret.
    intros [= <- <-]. exists events. now rewrite app_assoc.
  - intros [= <- <-]. exact Eloop.
Qed.

Lemma gen_frames_progress_ends_with_newline_witness :
  exists events,
    snd (Storyboard.gen_frames Samples.barren Examples.ready_board 4 true [])
    = ([] ++ events ++ [World.Stderr (String "010" "")])%list.
Proof.
  apply (gen_frames_progress_ends_with_newline Samples.barren Examples.ready_board 4 []
           (fst (Storyboard.gen_frames Samples.barren Examples.ready_board 4 true []))
           (snd (Storyboard.gen_frames Samples.barren Examples.ready_board 4 true [])));
    [lia | vm_compute; lia | vm_compute; reflexivity].
Defined.

(** ** [tile_images]: grids without images *)


(** ** [tile_images] without a tile size *)

(** Without a tile size, on a grid with columns and rows that the images
    fill, [tile_images] returns exactly when the widths agree in every
    column and the heights in every row.  It then pastes the images as they
    are, row after row and from left to right, each where its row and its
    column start; the canvas is as wide as a row with its spacings and
    margins and as high as the rows with theirs; and the images are closed
    when [close_separate_images] asks for it, and otherwise left alone. *)
Theorem tile_images_as_is_returns
        (images : list Image) (cols rows : Z) (params : Storyboard.tile_params) :
  0 < cols -> 0 < rows -> Z.of_nat (List.length images) = cols * rows ->
  Storyboard.tile_size params = None ->
  let hs := fst (Storyboard.get (Storyboard.tile_spacing params) (0, 0)) in
  let vs := snd (Storyboard.get (Storyboard.tile_spacing params) (0, 0)) in
  let hm := fst (Storyboard.get (Storyboard.margins params) (0, 0)) in
  let vm := snd (Storyboard.get (Storyboard.margins params) (0, 0)) in
  (Spec.widths_agree images cols rows /\ Spec.heights_agree images cols rows ->
   exists canvas,
     Storyboard.tile_images images (cols, rows) params
     = Ok (canvas,
           if Storyboard.get (Storyboard.close_separate_images params) false
           then map close images else images)
     /\ pasted canvas = Spec.layout images cols rows None hs vs hm vm
     /\ (forall row, 0 <= row < rows ->
           Spec.x_offset images cols hs hm row cols - hs + hm = fst (size canvas))
     /\ Spec.y_offset images cols vs vm rows - vs + vm = snd (size canvas))
  /\ (forall canvas images',
        Storyboard.tile_images images (cols, rows) params = Ok (canvas, images') ->
        Spec.widths_agree images cols rows /\ Spec.heights_agree images cols rows).
Proof.
  intros Hcols Hrows Hfilled Has_is hs vs hm vm. split.
  - intros [Hw Hh].
    destruct (tile_images_as_is_layout images cols rows params
                Hcols Hrows Hfilled Has_is Hw Hh)
      as [canvas [images' [Hrun Hrest]]].
    exists canvas. split; [|exact Hrest].
    rewrite Hrun. f_equal. f_equal.
    rewrite (tile_images_as_is_eq images cols rows params) in Hrun by assumption.
    destruct (Storyboard.check_columns _ _ _ _); cbn [bind] in Hrun; [|discriminate].
    destruct (Storyboard.check_rows _ _ _ _); cbn [bind] in Hrun; [|discriminate].
    destruct (Storyboard.assemble _ _ _ _ _ _ _ _ _) as [[c y]|]; cbn [bind] in Hrun;
      [|discriminate].
    now injection Hrun.
  - intros canvas images' Hrun.
    rewrite (tile_images_as_is_eq images cols rows params) in Hrun by assumption.
    destruct (Storyboard.check_columns _ _ _ _) as [w|] eqn:Ec; cbn [bind] in Hrun;
      [|discriminate].
    destruct (Storyboard.check_rows _ _ _ _) as [h|] eqn:Er; cbn [bind] in Hrun;
      [|discriminate].
    split.
    + eapply check_columns_sound; eassumption.
    + eapply check_rows_sound; eassumption.
Qed.

Lemma tile_images_as_is_returns_witness :
  exists canvas,
    Storyboard.tile_images Samples.four_frames (2, 2) Storyboard.no_params
    = Ok (canvas, Samples.four_frames)
    /\ pasted canvas = Spec.layout Samples.four_frames 2 2 None 0 0 0 0
    /\ (forall row, 0 <= row < 2 ->
          Spec.x_offset Samples.four_frames 2 0 0 row 2 - 0 + 0 = fst (size canvas))
    /\ Spec.y_offset Samples.four_frames 2 0 0 2 - 0 + 0 = snd (size canvas).
Proof.
  apply (proj1 (tile_images_as_is_returns Samples.four_frames 2 2 Storyboard.no_params
                  ltac:(lia) ltac:(lia) eq_refl eq_refl)).
  split; intros row col Hrow Hcol;
    assert (Hr : row = 0 \/ row = 1) by lia;
    assert (Hc : col = 0 \/ col = 1) by lia;
    destruct Hr as [-> | ->]; destruct Hc as [-> | ->]; reflexivity.
Defined.

(** Without a tile size, on a grid with columns and rows that the images
    fill, [tile_images] raises nothing but the [ValueError] of one of its two
    checks, and the message is about two images that do differ: an image
    below the first row that is not as wide as the first image of its
    column, or an image right of the first column that is not as high as the
    first image of its row; the message gives the index, the row, the column
    and the size of the former and the index and the size of the latter. *)
Theorem tile_images_as_is_error
        (images : list Image) (cols rows : Z) (params : Storyboard.tile_params)
        (e : exn) :
  0 < cols -> 0 < rows -> Z.of_nat (List.length images) = cols * rows ->
  Storyboard.tile_size params = None ->
  Storyboard.tile_images images (cols, rows) params = Raise e ->
  exists row col,
    0 <= row < rows /\ 0 <= col < cols
    /\ let image := Spec.source images cols row col in
       (1 <= row
        /\ fst (size image) <> fst (size (Spec.source images cols 0 col))
        /\ e = ValueError
                 (Storyboard.mismatch_message "width"
                    (row * cols + col) row col (fst (size image)) (snd (size image))
                    (0 * cols + col) 0 col
                    (fst (size (Spec.source images cols 0 col)))
                    (snd (size (Spec.source images cols 0 col)))))
       \/ (1 <= col
           /\ snd (size image) <> snd (size (Spec.source images cols row 0))
           /\ e = ValueError
                    (Storyboard.mismatch_message "height"
                       (row * cols + col) row col (fst (size image)) (snd (size image))
                       (row * cols + 0) 0 col
                       (fst (size (Spec.source images cols row 0)))
                       (snd (size (Spec.source images cols row 0))))).
Proof.
  intros Hcols Hrows Hfilled Has_is Hrun.
  destruct (tile_images_as_is_raises images cols rows params
              Hcols Hrows Hfilled Has_is e Hrun) as [[start Hc]|[start Hr]].
  - destruct (check_columns_raises images cols rows Hcols Hrows Hfilled start e Hc)
      as [row [col [Hrow [Hcol [Hne He]]]]].
    exists row, col. split; [lia|]. split; [lia|]. left. split; [lia|]. auto.
  - destruct (check_rows_raises images cols rows Hcols Hrows Hfilled start e Hr)
      as [row [col [Hrow [Hcol [Hne He]]]]].
    exists row, col. split; [lia|]. split; [lia|]. right. split; [lia|]. auto.
Qed.

Lemma tile_images_as_is_error_witness :
  exists row col,
    0 <= row < 2 /\ 0 <= col < 2
    /\ let image := Spec.source Samples.uneven_row 2 row col in
       let e := ValueError
                  ("the height of image #3 (row #1, col #1, 10x20) " ++
                   "does not agree with that of image #2 (row #0, col #1, 10x10)") in
       (1 <= row
        /\ fst (size image) <> fst (size (Spec.source Samples.uneven_row 2 0 col))
        /\ e = ValueError
                 (Storyboard.mismatch_message "width"
                    (row * 2 + col) row col (fst (size image)) (snd (size image))
                    (0 * 2 + col) 0 col
                    (fst (size (Spec.source Samples.uneven_row 2 0 col)))
                    (snd (size (Spec.source Samples.uneven_row 2 0 col)))))
       \/ (1 <= col
           /\ snd (size image) <> snd (size (Spec.source Samples.uneven_row 2 row 0))
           /\ e = ValueError
                    (Storyboard.mismatch_message "height"
                       (row * 2 + col) row col (fst (size image)) (snd (size image))
                       (row * 2 + 0) 0 col
                       (fst (size (Spec.source Samples.uneven_row 2 row 0)))
                       (snd (size (Spec.source Samples.uneven_row 2 row 0))))).
Proof.
  apply (tile_images_as_is_error Samples.uneven_row 2 2 Storyboard.no_params _
           ltac:(lia) ltac:(lia) eq_refl eq_refl eq_refl).
Defined.


(** * Properties of the drawing code *)

(** ** [draw_text_block] *)

(** A text that is not empty has a line. *)
Lemma splitlines_from_nonempty (s : string) : forall line : string,
  line <> "" \/ s <> "" -> Text.splitlines_from line s <> [].
Proof.
  induction s as [|c s IH]; intros line H; cbn [Text.splitlines_from].
  - destruct line; [|discriminate]. destruct H as [H|H]; now elim H.
  - destruct (Ascii.eqb c "013").
    + destruct s as [|c' s']; [discriminate|].
      destruct (Ascii.eqb c' "010"); discriminate.
    + destruct (Text.is_linebreak c); [discriminate|].
      apply IH. left. destruct line; discriminate.
Qed.

Lemma splitlines_nonempty (text : string) : text <> "" -> Text.splitlines text <> [].
Proof. intros H. apply splitlines_from_nonempty. now right. Qed.

(** The loop of [draw_text_block] when it draws. *)
Lemma widest_nonneg (ts : Text.typesetter) (face : Text.FreeTypeFont)
      (lines : list string) : 0 <= Layout.widest ts face lines.
Proof. unfold Layout.widest. induction lines; cbn [fold_right]; lia. Qed.

Lemma draw_lines (ts : Text.typesetter) (font : Text.Font.t) (color : string)
      (x line_height : Z) (lines : list string) :
  forall (sheet : Text.Sheet) (width height y : Z),
    0 <= width ->
    Render.for_each lines (Text.draw_line ts font color false x line_height)
      (Some sheet, width, height, y)
    = Render.Done
        (Some {| Text.image := Text.image sheet;
                 Text.texts :=
                   (Text.texts sheet
                    ++ Layout.stacked x y line_height color (Text.Font.obj font) lines)%list |},
         Z.max width (Layout.widest ts (Text.Font.obj font) lines),
         height + line_height * Z.of_nat (List.length lines),
         y + line_height * Z.of_nat (List.length lines)).
Proof.
  induction lines as [|line lines IH]; intros sheet width height y Hwidth.
  - cbn [Render.for_each Layout.stacked Layout.widest fold_right List.length].
    rewrite app_nil_r. destruct sheet. cbn [Text.image Text.texts Z.of_nat].
    rewrite Z.max_l, Z.mul_0_r, !Z.add_0_r by lia. reflexivity.
  - cbn [Render.for_each]. unfold Text.draw_line at 1.
    cbn [Render.local Render.bind negb].
    destruct (Text.textsize ts line (Text.Font.obj font)) as [w h] eqn:Esize.
    cbn [Render.bind].
    rewrite IH by (destruct (Z.ltb_spec width w); lia).
    unfold Text.draw_text. cbn [Text.image Text.texts Layout.stacked Layout.widest
                                 fold_right List.length].
    rewrite Esize. cbn [fst]. rewrite <- app_assoc. cbn [app].
    fold (Layout.widest ts (Text.Font.obj font) lines).
    pose proof (widest_nonneg ts (Text.Font.obj font) lines) as Hnn.
    replace (Z.max (if width <? w then w else width)
               (Layout.widest ts (Text.Font.obj font) lines))
      with (Z.max width (Z.max w (Layout.widest ts (Text.Font.obj font) lines)))
      by (destruct (Z.ltb_spec width w); lia).
    replace (height + line_height + line_height * Z.of_nat (List.length lines))
      with (height + line_height * Z.of_nat (S (List.length lines))) by lia.
    replace (y + line_height + line_height * Z.of_nat (List.length lines))
      with (y + line_height * Z.of_nat (S (List.length lines))) by lia.
    reflexivity.
Qed.

(** When it draws, [draw_text_block] puts every line of the text on the
    canvas, the first at [xy] and each of the others one line height below
    the one before, in the given color and font; the image under the text
    is not touched.  The block it returns is as wide as the widest line and
    as high as the lines together, a line height being the font size times
    the spacing, rounded. *)
Theorem draw_text_block_draws
        (ts : Text.typesetter) (sheet : Text.Sheet) (x y : Z) (text : string)
        (params : Text.TextBlock.params) (font : Text.Font.t) :
  Text.TextBlock.font params = Some font ->
  Storyboard.get (Text.TextBlock.dry_run params) false = false ->
  let lines := Text.splitlines text in
  let line_height :=
    round_half_even
      (Qred (inject_Z (Text.Font.size font)
             * Storyboard.get (Text.TextBlock.spacing params) (12 # 10))) in
  Text.draw_text_block ts (Some sheet) (x, y) text params
  = Render.Done
      (Some {| Text.image := Text.image sheet;
               Text.texts :=
                 (Text.texts sheet
                  ++ Layout.stacked x y line_height
                       (Storyboard.get (Text.TextBlock.color params) "black")
                       (Text.Font.obj font) lines)%list |},
       (Layout.widest ts (Text.Font.obj font) lines,
        line_height * Z.of_nat (List.length lines))).
Proof.
  intros Hfont Hdry lines line_height. unfold Text.draw_text_block.
  rewrite Hfont, Hdry. cbn [Text.font_or_default Render.bind negb].
  fold lines. fold line_height. rewrite draw_lines by lia. cbn [Render.bind].
  rewrite Z.max_r by apply widest_nonneg. reflexivity.
Qed.

Lemma draw_text_block_draws_witness :
  Text.draw_text_block Examples.monospace (Some Examples.blank_sheet) (3, 4)
    ("ab" ++ String "010" "c")
    {| Text.TextBlock.font := Some Examples.mono16;
       Text.TextBlock.color := None; Text.TextBlock.spacing := None;
       Text.TextBlock.dry_run := None |}
  = Render.Done
      (Some {| Text.image := Samples.blank 100 100 0;
               Text.texts :=
                 [{| Text.xy := (3, 4); Text.line := "ab"; Text.fill := "black";
                     Text.face := Text.Font.obj Examples.mono16 |};
                  {| Text.xy := (3, 23); Text.line := "c"; Text.fill := "black";
                     Text.face := Text.Font.obj Examples.mono16 |}] |},
       (20, 38)).
Proof.
  apply (draw_text_block_draws Examples.monospace Examples.blank_sheet 3 4
           ("ab" ++ String "010" "c")
           {| Text.TextBlock.font := Some Examples.mono16;
              Text.TextBlock.color := None; Text.TextBlock.spacing := None;
              Text.TextBlock.dry_run := None |}
           Examples.mono16 eq_refl eq_refl).
Defined.

(** The loop of [draw_text_block] in a dry run: [draw] was not assigned,
    and the first line reads it. *)
Lemma dry_lines (ts : Text.typesetter) (font : Text.Font.t) (color : string)
      (x line_height : Z) (lines : list string) (width height y : Z) :
  Render.for_each lines (Text.draw_line ts font color true x line_height)
    (None, width, height, y)
  = match lines with
    | [] => Render.Done (None, width, height, y)
    | _ :: _ => Render.Fail (Render.UnboundLocalError "draw")
    end.
Proof. destruct lines; reflexivity. Qed.

(** With [dry_run] the function measures nothing.  On a text that is not
    empty it raises: [UnboundLocalError], since [draw] is assigned only when
    [dry_run] is off and the first line asks it for the size of the line; or
    the [OSError] of the default font, when no font is given and that font
    does not load.  On the empty text it returns the size [(0, 0)]. *)
Theorem draw_text_block_dry_run
        (ts : Text.typesetter) (canvas : option Text.Sheet) (xy : Z * Z) (text : string)
        (params : Text.TextBlock.params) :
  Storyboard.get (Text.TextBlock.dry_run params) false = true ->
  (text <> "" ->
   exists e,
     Text.draw_text_block ts canvas xy text params = Render.Fail e
     /\ (e = Render.UnboundLocalError "draw"
         \/ (Text.TextBlock.font params = None
             /\ exists msg, e = Render.Builtin (OSError msg))))
  /\ (forall font, Text.font_or_default ts (Text.TextBlock.font params) = Render.Done font ->
      Text.draw_text_block ts canvas xy "" params = Render.Done (canvas, (0, 0))).
Proof.
  intros Hdry. unfold Text.draw_text_block. destruct xy as [x y]. rewrite Hdry.
  cbn [negb]. split.
  - intros Htext. apply splitlines_nonempty in Htext.
    destruct (Text.TextBlock.font params) as [font|] eqn:Efont;
      cbn [Text.font_or_default Render.bind].
    + rewrite dry_lines. destruct (Text.splitlines text); [contradiction|].
      eexists. split; [reflexivity | now left].
    + unfold Text.Font__init__. cbn [Storyboard.get].
      destruct (Text.truetype_loads ts _ _); cbn [Render.bind].
      * rewrite dry_lines. destruct (Text.splitlines text); [contradiction|].
        eexists. split; [reflexivity | now left].
      * eexists. split; [reflexivity|]. right. split; [reflexivity|]. eauto.
  - intros font Hfont. rewrite Hfont. reflexivity.
Qed.

Lemma draw_text_block_dry_run_witness :
  exists e,
    Text.draw_text_block Examples.monospace None (0, 0) "Title"
      {| Text.TextBlock.font := None; Text.TextBlock.color := None;
         Text.TextBlock.spacing := None; Text.TextBlock.dry_run := Some true |}
    = Render.Fail e
    /\ (e = Render.UnboundLocalError "draw"
        \/ (@None Text.Font.t = None /\ exists msg, e = Render.Builtin (OSError msg))).
Proof.
  apply (proj1 (draw_text_block_dry_run Examples.monospace None (0, 0) "Title"
                  {| Text.TextBlock.font := None; Text.TextBlock.color := None;
                     Text.TextBlock.spacing := None;
                     Text.TextBlock.dry_run := Some true |} eq_refl)).
  discriminate.
Defined.

(** ** The promotional banner *)

(** [_gen_promotional_banner] never returns a banner.  It measures its text
    with a dry run of [draw_text_block], and the text is never empty, so the
    dry run raises [UnboundLocalError]; when no font is given and the
    default font does not load, the [OSError] of [Font()] comes first. *)
Theorem promotional_banner_always_raises
        (ts : Text.typesetter) (total_width : Z) (params : Text.Banner.params) :
  exists e,
    Text._gen_promotional_banner ts total_width params = Render.Fail e
    /\ (e = Render.UnboundLocalError "draw"
        \/ (Text.Banner.text_font params = None
            /\ exists msg, e = Render.Builtin (OSError msg))).
Proof.
  unfold Text._gen_promotional_banner.
  assert (Hdry : forall font text, text <> "" ->
            Text.draw_text_block ts None (0, 0) text
              {| Text.TextBlock.font := Some font; Text.TextBlock.color := None;
                 Text.TextBlock.spacing := None; Text.TextBlock.dry_run := Some true |}
            = Render.Fail (Render.UnboundLocalError "draw")).
  { intros font text Htext. apply splitlines_nonempty in Htext.
    unfold Text.draw_text_block.
    cbn [Text.TextBlock.font Text.TextBlock.dry_run Text.TextBlock.color
         Text.TextBlock.spacing Storyboard.get Text.font_or_default Render.bind negb].
    rewrite dry_lines. now destruct (Text.splitlines text). }
  destruct (Text.Banner.text_font params) as [font|];
    cbn [Text.font_or_default Render.bind].
  - rewrite Hdry by discriminate. eexists. split; [reflexivity | now left].
  - unfold Text.Font__init__. cbn [Storyboard.get].
    destruct (Text.truetype_loads ts _ _); cbn [Render.bind].
    + rewrite Hdry by discriminate. eexists. split; [reflexivity | now left].
    + eexists. split; [reflexivity|]. right. split; [reflexivity|]. eauto.
Qed.

(** ** [create_thumbnail] *)

(** [int(x)] depends on the value of the float only. *)
Lemma int_of_float_comp (x y : Q) : (x == y)%Q -> int_of_float x = int_of_float y.
Proof.
  unfold Qeq, int_of_float. intros H.
  rewrite <- (Z.quot_mul_cancel_r (Qnum x) (Zpos (Qden x)) (Zpos (Qden y))) by lia.
  rewrite <- (Z.quot_mul_cancel_r (Qnum y) (Zpos (Qden y)) (Zpos (Qden x))) by lia.
  rewrite H. f_equal. lia.
Qed.

(** [int(n / 2)] for an int [n]. *)
Lemma int_of_float_half (n : Z) : int_of_float (Qred (inject_Z n / 2)) = Z.quot n 2.
Proof.
  rewrite (int_of_float_comp _ _ (Qred_correct _)).
  unfold int_of_float, Qdiv, Qmult, Qinv, inject_Z. cbn [Qnum Qden].
  now rewrite Z.mul_1_r.
Qed.


(** The border of the timestamp, loop by loop. *)
Lemma draw_border_eq (thumbnail : Text.Sheet) (x y : Z) (text : string)
      (face : Text.FreeTypeFont) :
  Text.draw_text (Text.draw_border thumbnail x y text face) (x, y) text "white" face
  = {| Text.image := Text.image thumbnail;
       Text.texts := (Text.texts thumbnail ++ Layout.overlay x y text face)%list |}.
Proof.
  unfold Text.draw_border, Layout.overlay, Layout.border_offsets.
  change (range (-1) 2) with [-1; 0; 1].
  cbn [fold_left map fst snd]. unfold Text.draw_text.
  cbn [Text.image Text.texts]. rewrite <- !app_assoc. reflexivity.
Qed.

(** The timestamp on a thumbnail.  With [draw_timestamp], a font and an
    aspect ratio that is not zero, [create_thumbnail] resizes the image of
    the frame to the width and to the height that the aspect ratio gives it,
    and draws the time of the frame on the result: nine times in black, one
    pixel around the place of the text, and then in white.  The text ends
    five pixels above the bottom of the thumbnail; it ends five pixels left
    of the right edge (['right'], the default), starts five pixels right of
    the left edge (['left']), or starts at half the width that it leaves
    free (['center']).  Any other alignment raises [ValueError]. *)
Theorem create_thumbnail_overlay
        (ts : Text.typesetter) (frame : World.Frame) (width : Z)
        (params : Text.Thumbnail.params) (font : Text.Font.t) (aspect_ratio : Q) :
  Text.Thumbnail.aspect_ratio params = Some (Some aspect_ratio) ->
  ~ (aspect_ratio == 0)%Q ->
  Storyboard.get (Text.Thumbnail.draw_timestamp params) false = true ->
  Text.Thumbnail.timestamp_font params = Some font ->
  let align := Storyboard.get (Text.Thumbnail.timestamp_align params) "right" in
  let text := Text.humantime ts (World.timestamp frame) in
  let timestamp_width := fst (Text.textsize ts text (Text.Font.obj font)) in
  let timestamp_height := snd (Text.textsize ts text (Text.Font.obj font)) in
  let height := round_half_even (Qred (inject_Z width / aspect_ratio)) in
  let placed (x : Z) :=
    Render.Done
      {| Text.image := Pillow.resize (World.image frame) (width, height);
         Text.texts :=
           Layout.overlay x (height - 5 - timestamp_height) text (Text.Font.obj font) |} in
  Text.create_thumbnail ts frame width params
  = if (align =? "right")%string then placed (width - 5 - timestamp_width)
    else if (align =? "left")%string then placed 5
    else if (align =? "center")%string then placed (Z.quot (width - timestamp_width) 2)
    else Render.Fail
           (Render.Builtin
              (ValueError ("timestamp alignment option '" ++ align ++ "' not recognized"))).
Proof.
  intros Haspect Hnz Hdraw Hfont align text timestamp_width timestamp_height height placed.
  unfold Text.create_thumbnail. rewrite Haspect, Hdraw, Hfont.
  cbn [Render.bind Text.font_or_default Render.local].
  unfold truediv, float_of_int.
  assert (E : Qeq_bool aspect_ratio 0 = false).
  { apply not_true_iff_false. now rewrite Qeq_bool_iff. }
  rewrite E. cbn [Render.of_result Render.bind].
  fold align. fold text. fold height.
  unfold timestamp_width, timestamp_height in placed. unfold placed.
  destruct (Text.textsize ts text (Text.Font.obj font)) as [tw th]. cbn [fst snd].
  destruct (align =? "right")%string; cbn [Render.bind];
    [now rewrite draw_border_eq|].
  destruct (align =? "left")%string; cbn [Render.bind];
    [now rewrite draw_border_eq|].
  destruct (align =? "center")%string; cbn [Render.bind]; [|reflexivity].
  now rewrite draw_border_eq, int_of_float_half.
Qed.

Lemma create_thumbnail_overlay_witness :
  Text.create_thumbnail Examples.monospace Examples.frame_at_5 480
    {| Text.Thumbnail.aspect_ratio := Some (Some (16 # 9));
       Text.Thumbnail.draw_timestamp := Some true;
       Text.Thumbnail.timestamp_font := Some Examples.mono16;
       Text.Thumbnail.timestamp_align := None |}
  = Render.Done
      {| Text.image := Pillow.resize (Samples.blank 1920 1080 0) (480, 270);
         Text.texts :=
           Layout.overlay 435 249 "0:00" (Text.Font.obj Examples.mono16) |}.
Proof.
  apply (create_thumbnail_overlay Examples.monospace Examples.frame_at_5 480
           {| Text.Thumbnail.aspect_ratio := Some (Some (16 # 9));
              Text.Thumbnail.draw_timestamp := Some true;
              Text.Thumbnail.timestamp_font := Some Examples.mono16;
              Text.Thumbnail.timestamp_align := None |}
           Examples.mono16 (16 # 9) eq_refl ltac:(discriminate) eq_refl eq_refl).
Defined.



(** ** The bare storyboard *)

(** A frame that [gen_frames] extracts is added to [self.frames]. *)
Lemma extract_one_ok (w : World.world) (count : Z) (print_progress : bool) (time : Q)
      (self : Storyboard.t) (counter : Z) (log : list World.event)
      (self' : Storyboard.t) (counter' : Z) (log' : list World.event) :
  Storyboard.extract_one w count print_progress time (self, counter) log
  = (Ok (self', counter'), log') ->
  exists frame, Storyboard.frames self' = (Storyboard.frames self ++ [frame])%list.
Proof.
  unfold Storyboard.extract_one, World.on_exception, World.bind, World.lift,
    World.emit, World.ret, World.raise.
  destruct print_progress;
    (destruct (Storyboard._bins self) as [bins|]; cbn [Storyboard.getattr];
     [|discriminate]);
    (destruct (index bins 0) as [ffmpeg_bin|]; [|discriminate]);
    (destruct (Storyboard._frame_codec self) as [codec|]; cbn [Storyboard.getattr];
     [|discriminate]);
    (destruct (World.extract_frame w ffmpeg_bin codec
                 (Metadata.Video.path (Storyboard.video self)) time) as [frame|];
     [|discriminate]);
    intros [= <- _ _]; exists frame; reflexivity.
Qed.

Lemma extract_loop_length (w : World.world) (count : Z) (print_progress : bool)
      (timestamps : list Q) :
  forall (self : Storyboard.t) (counter : Z) (log : list World.event)
         (self' : Storyboard.t) (counter' : Z) (log' : list World.event),
    World.for_each timestamps (Storyboard.extract_one w count print_progress)
      (self, counter) log = (Ok (self', counter'), log') ->
    List.length (Storyboard.frames self')
    = (List.length (Storyboard.frames self) + List.length timestamps)%nat.
Proof.
  induction timestamps as [|time timestamps IH];
    intros self counter log self' counter' log'; cbn [World.for_each].
  - unfold World.ret. intros [= <- _ _]. cbn [List.length]. lia.
  - unfold World.bind at 1.
    destruct (Storyboard.extract_one w count print_progress time (self, counter) log)
      as [[[self1 counter1]|e] log1] eqn:E1; [|discriminate].
    intros Hrest. apply extract_one_ok in E1. destruct E1 as [frame E1].
    apply IH in Hrest. rewrite Hrest, E1, length_app. cbn [List.length]. lia.
Qed.

(** After [gen_frames] with a positive [count] has returned, the board
    holds a frame. *)
Lemma gen_frames_ok_nonempty (w : World.world) (self : Storyboard.t) (count : Z)
      (print_progress : bool) (log : list World.event)
      (self' : Storyboard.t) (log' : list World.event) :
  0 < count ->
  Storyboard.gen_frames w self count print_progress log = (Ok self', log') ->
  Storyboard.frames self' <> [].
Proof.
  intros Hcount. unfold Storyboard.gen_frames.
  destruct (Z.eqb_spec (Z.of_nat (List.length (Storyboard.frames self))) count) as [E|E].
  - unfold World.ret. intros [= <- _].
    destruct (Storyboard.frames self); [cbn in E; lia | discriminate].
  - unfold World.bind at 1. unfold World.lift at 1.
    rewrite (sample_timestamps_eq _ count Hcount).
    unfold World.bind at 1.
    match goal with
    | |- context [World.for_each ?l ?b ?s log] =>
        destruct (World.for_each l b s log) as [[[self1 counter1]|e] log1] eqn:Eloop
    end; [|discriminate].
    apply extract_loop_length in Eloop.
    rewrite length_map, length_range in Eloop.
    unfold World.bind, World.emit, World.ret.
    destruct print_progress; intros [= <- _];
      (destruct (Storyboard.frames self1); [cbn in Eloop; lia | discriminate]).
Qed.

(** The loop over the frames when [timestamp_font] was not assigned. *)
Lemma thumbnails_unbound {B : Type} (ts : Text.typesetter)
      (thumbnail_width thumbnail_count : Z) (r : Q) (print_progress : bool)
      (frame : World.Frame) (rest : list World.Frame)
      (k : list Text.Sheet * Z -> Stage.M B) (thumbnails : list Text.Sheet)
      (counter : Z) (log : list World.event) :
  Stage.bind
    (Stage.for_each (frame :: rest)
       (Bare.thumbnail_of ts thumbnail_width thumbnail_count r false None None
          print_progress) (thumbnails, counter)) k log
  = (Render.Fail (Render.UnboundLocalError "timestamp_font"),
     if print_progress
     then (log ++ [World.Stderr (String "013" "Generating thumbnail "
                     ++ str_of_int (counter + 1) ++ "/" ++ str_of_int thumbnail_count
                     ++ "...")])%list
     else log).
Proof.
  cbn [Stage.for_each]. unfold Stage.bind at 1 2.
  unfold Bare.thumbnail_of at 1.
  unfold Stage.bind, Stage.emit, Stage.ret, Stage.lift. cbn [Render.local].
  now destruct print_progress.
Qed.

(** Without [draw_timestamp], which is the default, [_gen_bare_storyboard]
    never returns a storyboard: whatever the board, the tile, the width and
    the other options are, it raises.  When the tile is valid, the frames
    are there and the aspect ratio is known, the exception is the
    [UnboundLocalError] of [timestamp_font], which is assigned only with
    [draw_timestamp] and is read for every thumbnail. *)
Theorem bare_storyboard_without_timestamps
        (w : World.world) (ts : Text.typesetter) (self : Storyboard.t)
        (cols rows : Z) (thumbnail_width : Z) (params : Bare.params)
        (log : list World.event) :
  Storyboard.get (Bare.draw_timestamp params) false = false ->
  (exists e log',
     Bare._gen_bare_storyboard w ts self (cols, rows) thumbnail_width params log
     = (Render.Fail e, log'))
  /\ (forall self' log1,
        0 < cols -> 0 < rows ->
        Storyboard.gen_frames w self (cols * rows)
          (Storyboard.get (Bare.print_progress params) false) log = (Ok self', log1) ->
        (Bare.thumbnail_aspect_ratio params = None ->
         Metadata.Video.dar (Storyboard.video self) = None ->
         forall frame rest, Storyboard.frames self' = frame :: rest ->
                            snd (Pillow.size (World.image frame)) <> 0) ->
        (Bare.thumbnail_aspect_ratio params <> Some None) ->
        fst (Bare._gen_bare_storyboard w ts self (cols, rows) thumbnail_width params log)
        = Render.Fail (Render.UnboundLocalError "timestamp_font")).
Proof.
  intros Hdraw.
  assert (Hrun :
    exists e log',
      Bare._gen_bare_storyboard w ts self (cols, rows) thumbnail_width params log
      = (Render.Fail e, log')
      /\ (forall self' log1,
            0 < cols -> 0 < rows ->
            Storyboard.gen_frames w self (cols * rows)
              (Storyboard.get (Bare.print_progress params) false) log = (Ok self', log1) ->
            (Bare.thumbnail_aspect_ratio params = None ->
             Metadata.Video.dar (Storyboard.video self) = None ->
             forall frame rest, Storyboard.frames self' = frame :: rest ->
                                snd (Pillow.size (World.image frame)) <> 0) ->
            (Bare.thumbnail_aspect_ratio params <> Some None) ->
            e = Render.UnboundLocalError "timestamp_font")).
  { unfold Bare._gen_bare_storyboard. rewrite Hdraw.
    unfold Stage.bind at 1. unfold Stage.lift at 1.
    destruct ((0 <? cols) && (0 <? rows)) eqn:Etile; cbn [negb].
    2:{ unfold Stage.raise. do 2 eexists. split; [reflexivity|].
        intros self' log1 Hcols Hrows. exfalso.
        apply andb_false_iff in Etile.
        destruct Etile as [E|E]; apply Z.ltb_ge in E; lia. }
    apply andb_true_iff in Etile. destruct Etile as [Hcols Hrows].
    apply Z.ltb_lt in Hcols, Hrows.
    unfold Stage.bind at 1. unfold Stage.of_world at 1.
    destruct (Storyboard.gen_frames w self (cols * rows)
                (Storyboard.get (Bare.print_progress params) false) log)
      as [[self1|e] log1] eqn:Egen; cbn [Render.of_result].
    2:{ do 2 eexists. split; [reflexivity|]. intros self' log2 _ _ [=]. }
    assert (Hcount : 0 < cols * rows) by nia.
    pose proof (gen_frames_ok_nonempty _ _ _ _ _ _ _ Hcount Egen) as Hframes.
    destruct (Storyboard.frames self1) as [|frame rest] eqn:Eframes; [contradiction|].
    unfold Stage.bind at 1. unfold Stage.lift at 1.
    match goal with
    | |- context [match ?scrut with Some _ => _ | None => _ end] =>
        destruct scrut as [r|] eqn:Etar
    end.
    - rewrite thumbnails_unbound. do 2 eexists. split; [reflexivity|]. reflexivity.
    - cbn [index Z.ltb Z.compare Z.to_nat nth_error Render.of_result Render.bind].
      destruct (truediv _ _) as [r|e] eqn:Ediv; cbn [Render.of_result].
      + rewrite thumbnails_unbound. do 2 eexists. split; reflexivity.
      + do 2 eexists. split; [reflexivity|].
        intros self' log2 _ _ [= <- <-] Hheight Hgiven. exfalso.
        assert (Hh : snd (Pillow.size (World.image frame)) <> 0).
        { destruct (Bare.thumbnail_aspect_ratio params) as [[r|]|] eqn:Ep;
            [discriminate | now elim Hgiven |].
          eapply Hheight; [reflexivity | exact Etar | exact Eframes]. }
        unfold truediv, float_of_int in Ediv.
        assert (E : Qeq_bool (inject_Z (snd (Pillow.size (World.image frame)))) 0 = false).
        { apply not_true_iff_false. rewrite Qeq_bool_iff.
          unfold Qeq, inject_Z. cbn [Qnum Qden]. lia. }
        rewrite E in Ediv. discriminate. }
  destruct Hrun as [e [log' [Hrun Hspec]]]. split; [eauto|].
  intros self' log1 Hcols Hrows Hgen Hheight Hgiven.
  rewrite Hrun. cbn [fst]. f_equal. eapply Hspec; eassumption.
Qed.

Lemma bare_storyboard_without_timestamps_witness :
  exists e log',
    Bare._gen_bare_storyboard Examples.studio Examples.monospace Examples.ready_board
      (2, 2) 480
      {| Bare.tile_spacing := None; Bare.background_color := None;
         Bare.thumbnail_aspect_ratio := None; Bare.draw_timestamp := None;
         Bare.timestamp_font := None; Bare.timestamp_align := None;
         Bare.print_progress := None |} []
    = (Render.Fail e, log').
Proof.
  apply (proj1 (bare_storyboard_without_timestamps Examples.studio Examples.monospace
                  Examples.ready_board 2 2 480
                  {| Bare.tile_spacing := None; Bare.background_color := None;
                     Bare.thumbnail_aspect_ratio := None; Bare.draw_timestamp := None;
                     Bare.timestamp_font := None; Bare.timestamp_align := None;
                     Bare.print_progress := None |} [] eq_refl)).
Defined.

(** A thumbnail with a timestamp is the frame's image in the size of the
    thumbnails. *)
Lemma create_thumbnail_image (ts : Text.typesetter) (frame : World.Frame) (width : Z)
      (r : Q) (font : Text.Font.t) (align : string) :
  ~ (r == 0)%Q ->
  align = "right" \/ align = "left" \/ align = "center" ->
  exists thumbnail,
    Text.create_thumbnail ts frame width
      {| Text.Thumbnail.aspect_ratio := Some (Some r);
         Text.Thumbnail.draw_timestamp := Some true;
         Text.Thumbnail.timestamp_font := Some font;
         Text.Thumbnail.timestamp_align := Some align |}
    = Render.Done thumbnail
    /\ Text.image thumbnail
       = Pillow.resize (World.image frame)
           (width, round_half_even (Qred (inject_Z width / r))).
Proof.
  intros Hnz Halign. unfold Text.create_thumbnail.
  cbn [Text.Thumbnail.aspect_ratio Text.Thumbnail.draw_timestamp
       Text.Thumbnail.timestamp_font Text.Thumbnail.timestamp_align
       Storyboard.get Render.bind Text.font_or_default Render.local].
  unfold truediv, float_of_int.
  assert (E : Qeq_bool r 0 = false).
  { apply not_true_iff_false. now rewrite Qeq_bool_iff. }
  rewrite E. cbn [Render.of_result Render.bind].
  destruct (Text.textsize ts _ _) as [tw th].
  destruct Halign as [->|[->| ->]]; cbn [String.eqb Ascii.eqb Bool.eqb Render.bind];
    rewrite draw_border_eq; eexists; (split; [reflexivity|]); reflexivity.
Qed.

(** The loop over the frames when the timestamps are drawn. *)
Lemma thumbnails_loop {B : Type} (ts : Text.typesetter)
      (thumbnail_width thumbnail_count : Z) (r : Q) (font : Text.Font.t)
      (align : string) (print_progress : bool)
      (k : list Text.Sheet * Z -> Stage.M B) :
  ~ (r == 0)%Q ->
  align = "right" \/ align = "left" \/ align = "center" ->
  forall (frames : list World.Frame) (thumbnails : list Text.Sheet) (counter : Z)
         (log : list World.event),
    exists sheets log',
      Stage.bind
        (Stage.for_each frames
           (Bare.thumbnail_of ts thumbnail_width thumbnail_count r true (Some font)
              (Some align) print_progress) (thumbnails, counter)) k log
      = k ((thumbnails ++ sheets)%list, counter + Z.of_nat (List.length frames)) log'
      /\ map Text.image sheets
         = map (fun frame =>
                  Pillow.resize (World.image frame)
                    (thumbnail_width,
                     round_half_even (Qred (inject_Z thumbnail_width / r)))) frames.
Proof.
  intros Hnz Halign.
  induction frames as [|frame frames IH]; intros thumbnails counter log.
  - exists [], log. cbn [Stage.for_each List.length Z.of_nat map].
    unfold Stage.bind, Stage.ret. now rewrite app_nil_r, Z.add_0_r.
  - destruct (create_thumbnail_image ts frame thumbnail_width r font align Hnz Halign)
      as [thumbnail [Hmake Himage]].
    cbn [Stage.for_each].
    set (log1 := if print_progress
                 then (log ++ [World.Stderr (String "013" "Generating thumbnail "
                                 ++ str_of_int (counter + 1) ++ "/"
                                 ++ str_of_int thumbnail_count ++ "...")])%list
                 else log).
    destruct (IH (thumbnails ++ [thumbnail])%list (counter + 1) log1)
      as [sheets [log' [Hrest Hsheets]]].
    exists (thumbnail :: sheets), log'. split.
    + replace (counter + Z.of_nat (List.length (frame :: frames)))
        with (counter + 1 + Z.of_nat (List.length frames))
        by (cbn [List.length]; lia).
      replace (thumbnails ++ thumbnail :: sheets)%list
        with ((thumbnails ++ [thumbnail]) ++ sheets)%list
        by (now rewrite <- app_assoc).
      rewrite <- Hrest. unfold Stage.bind.
      unfold Bare.thumbnail_of at 1.
      unfold Stage.bind, Stage.emit, Stage.ret, Stage.lift.
      cbn [Render.local]. unfold log1.
      destruct print_progress; rewrite Hmake; reflexivity.
    + cbn [map]. now rewrite Himage, Hsheets.
Qed.

(** [_gen_bare_storyboard] with timestamps, once the frames are there: the
    result is that of [tile_images] on the frames' images, each resized to
    the size of the thumbnails. *)
Lemma bare_storyboard_run
      (w : World.world) (ts : Text.typesetter) (self : Storyboard.t)
      (cols rows thumbnail_width : Z) (params : Bare.params) (log : list World.event)
      (font : Text.Font.t) (r : Q) (self' : Storyboard.t) (log1 : list World.event) :
  Storyboard.get (Bare.draw_timestamp params) false = true ->
  Text.font_or_default ts (Bare.timestamp_font params) = Render.Done font ->
  (let align := Storyboard.get (Bare.timestamp_align params) "right" in
   align = "right" \/ align = "left" \/ align = "center") ->
  0 < cols -> 0 < rows ->
  match Bare.thumbnail_aspect_ratio params with
  | Some thumbnail_aspect_ratio => thumbnail_aspect_ratio
  | None => Metadata.Video.dar (Storyboard.video self)
  end = Some r ->
  ~ (r == 0)%Q ->
  Storyboard.gen_frames w self (cols * rows)
    (Storyboard.get (Bare.print_progress params) false) log = (Ok self', log1) ->
  fst (Bare._gen_bare_storyboard w ts self (cols, rows) thumbnail_width params log)
  = match
      Storyboard.tile_images
        (map (fun frame =>
                Pillow.resize (World.image frame)
                  (thumbnail_width,
                   round_half_even (Qred (inject_Z thumbnail_width / r))))
             (Storyboard.frames self'))
        (cols, rows)
        {| Storyboard.tile_size := None;
           Storyboard.tile_spacing :=
             Some (Storyboard.get (Bare.tile_spacing params) (0, 0));
           Storyboard.margins := None;
           Storyboard.canvas_color :=
             Some (Storyboard.get (Bare.background_color params) "white");
           Storyboard.close_separate_images := Some true |}
    with
    | Ok (canvas, _) => Render.Done (self', canvas)
    | Raise e => Render.Fail (Render.Builtin e)
    end.
Proof.
  intros Hdraw Hfont Halign Hcols Hrows Htar Hnz Hgen. cbv zeta in Halign.
  unfold Bare._gen_bare_storyboard. rewrite Hdraw, Hfont, Htar.
  unfold Stage.bind at 1. unfold Stage.lift at 1. cbn [Render.bind].
  assert (Etile : (0 <? cols) && (0 <? rows) = true).
  { apply andb_true_iff. split; apply Z.ltb_lt; assumption. }
  rewrite Etile. cbn [negb].
  unfold Stage.bind at 1. unfold Stage.of_world at 1. rewrite Hgen.
  cbn [Render.of_result].
  unfold Stage.bind at 1. unfold Stage.lift at 1.
  match goal with
  | |- fst (Stage.bind (Stage.for_each _ _ _) ?k ?l) = _ =>
      destruct (thumbnails_loop ts thumbnail_width (cols * rows) r font
                  (Storyboard.get (Bare.timestamp_align params) "right")
                  (Storyboard.get (Bare.print_progress params) false)
                  k Hnz Halign (Storyboard.frames self') [] 0 l)
        as [sheets [log2 [Hloop Hsheets]]];
      rewrite Hloop
  end.
  cbn [app]. rewrite Hsheets.
  clear Hloop Hsheets.
  unfold Stage.bind, Stage.emit, Stage.ret, Stage.lift.
  destruct (Storyboard.get (Bare.print_progress params) false);
    match goal with
    | |- _ = match ?t with Ok _ => _ | Raise _ => _ end =>
        destruct t as [[canvas images']|e]
    end; reflexivity.
Qed.




(** The frames loop of [gen_frames] on a board that has its [_bins] and its
    [_frame_codec], in a world where ffmpeg gives every frame, with or
    without the progress lines. *)
Lemma extract_loop_any (w : World.world) (count : Z) (print_progress : bool)
      (ffmpeg_bin codec : string) (bins : list string) (timestamps : list Q) :
  forall (self : Storyboard.t) (counter : Z) (log : list World.event),
    Storyboard._bins self = Some (ffmpeg_bin :: bins) ->
    Storyboard._frame_codec self = Some codec ->
    (forall time,
       World.extract_frame w ffmpeg_bin codec
         (Metadata.Video.path (Storyboard.video self)) time <> None) ->
    exists self' counter' log',
      World.for_each timestamps (Storyboard.extract_one w count print_progress)
        (self, counter) log = (Ok (self', counter'), log').
Proof.
  induction timestamps as [|time timestamps IH]; intros self counter log Hbins Hcodec Hworld.
  - cbn [World.for_each]. unfold World.ret. eauto.
  - destruct (World.extract_frame w ffmpeg_bin codec
                (Metadata.Video.path (Storyboard.video self)) time) as [frame|] eqn:Eframe;
      [|exfalso; now apply (Hworld time)].
    cbn [World.for_each]. unfold World.bind at 1.
    unfold Storyboard.extract_one at 1.
    unfold World.on_exception, World.bind, World.lift, World.emit, World.ret,
      World.raise.
    rewrite Hbins, Hcodec.
    cbn [Storyboard.getattr index Z.ltb Z.compare Z.to_nat nth_error].
    rewrite Eframe.
    destruct print_progress;
      match goal with
      | |- exists _ _ _, World.for_each _ _ (?s, ?c) ?l = _ =>
          apply (IH s c l); [reflexivity | reflexivity | exact Hworld]
      end.
Qed.

(** [gen_frames] on such a board adds [count] frames to those it holds. *)
Lemma gen_frames_extracts (w : World.world) (self : Storyboard.t) (count : Z)
      (print_progress : bool) (ffmpeg_bin codec : string) (bins : list string)
      (log : list World.event) :
  0 < count ->
  Z.of_nat (List.length (Storyboard.frames self)) <> count ->
  Storyboard._bins self = Some (ffmpeg_bin :: bins) ->
  Storyboard._frame_codec self = Some codec ->
  (forall time,
     World.extract_frame w ffmpeg_bin codec
       (Metadata.Video.path (Storyboard.video self)) time <> None) ->
  exists self' log',
    Storyboard.gen_frames w self count print_progress log = (Ok self', log')
    /\ Z.of_nat (List.length (Storyboard.frames self'))
       = Z.of_nat (List.length (Storyboard.frames self)) + count.
Proof.
  intros Hcount Hlen Hbins Hcodec Hworld. unfold Storyboard.gen_frames.
  apply Z.eqb_neq in Hlen. rewrite Hlen.
  unfold World.bind at 1. unfold World.lift at 1.
  rewrite (sample_timestamps_eq _ count Hcount).
  match goal with
  | |- context [World.for_each ?l ?b ?s] =>
      destruct (extract_loop_any w count print_progress ffmpeg_bin codec bins l self 0 log
                  Hbins Hcodec Hworld) as [self' [counter' [log' Hloop]]]
  end.
  exists self'. unfold World.bind at 1. rewrite Hloop.
  apply extract_loop_length in Hloop. rewrite length_map, length_range in Hloop.
  unfold World.bind, World.emit, World.ret.
  destruct print_progress; eexists; (split; [reflexivity|]); lia.
Qed.



(** A board makes one bare storyboard only.  [gen_frames] adds frames to
    those of the board, so when a board that holds frames is asked for a
    grid of another number of cells, the thumbnails are more than the cells,
    and [tile_images] raises the [ValueError] of its count check. *)
Theorem bare_storyboard_second_tiling
        (w : World.world) (ts : Text.typesetter) (self : Storyboard.t)
        (cols rows thumbnail_width : Z) (params : Bare.params) (log : list World.event)
        (font : Text.Font.t) (r : Q) (ffmpeg_bin codec : string) (bins : list string) :
  Storyboard.get (Bare.draw_timestamp params) false = true ->
  Text.font_or_default ts (Bare.timestamp_font params) = Render.Done font ->
  (let align := Storyboard.get (Bare.timestamp_align params) "right" in
   align = "right" \/ align = "left" \/ align = "center") ->
  0 < cols -> 0 < rows ->
  match Bare.thumbnail_aspect_ratio params with
  | Some thumbnail_aspect_ratio => thumbnail_aspect_ratio
  | None => Metadata.Video.dar (Storyboard.video self)
  end = Some r ->
  ~ (r == 0)%Q ->
  Storyboard.frames self <> [] ->
  Z.of_nat (List.length (Storyboard.frames self)) <> cols * rows ->
  Storyboard._bins self = Some (ffmpeg_bin :: bins) ->
  Storyboard._frame_codec self = Some codec ->
  (forall time,
     World.extract_frame w ffmpeg_bin codec
       (Metadata.Video.path (Storyboard.video self)) time <> None) ->
  fst (Bare._gen_bare_storyboard w ts self (cols, rows) thumbnail_width params log)
  = Render.Fail
      (Render.Builtin
         (ValueError
            (Storyboard.count_message
               (Z.of_nat (List.length (Storyboard.frames self)) + cols * rows)
               cols rows))).
Proof.
  intros Hdraw Hfont Halign Hcols Hrows Htar Hnz Hheld Hlen Hbins Hcodec Hworld.
  assert (Hcount : 0 < cols * rows) by nia.
  destruct (gen_frames_extracts w self (cols * rows)
              (Storyboard.get (Bare.print_progress params) false)
              ffmpeg_bin codec bins log Hcount Hlen Hbins Hcodec Hworld)
    as [self' [log1 [Hgen Hframes]]].
  rewrite (bare_storyboard_run w ts self cols rows thumbnail_width params log font r
             self' log1 Hdraw Hfont Halign Hcols Hrows Htar Hnz Hgen).
  unfold Storyboard.tile_images. rewrite length_map, Hframes.
  assert (Hne : Z.of_nat (List.length (Storyboard.frames self)) + cols * rows
                <> cols * rows).
  { destruct (Storyboard.frames self); [contradiction|]. cbn [List.length]. lia. }
  apply Z.eqb_neq in Hne. rewrite Hne. reflexivity.
Qed.

Lemma bare_storyboard_second_tiling_witness :
  fst (Bare._gen_bare_storyboard Examples.studio Examples.monospace
         Examples.filled_board (3, 3) 480 Examples.timestamped [])
  = Render.Fail
      (Render.Builtin (ValueError "13 images cannot fit into a 3x3=9 array")).
Proof.
  apply (bare_storyboard_second_tiling Examples.studio Examples.monospace
           Examples.filled_board 3 3 480 Examples.timestamped [] Examples.mono16
           (16 # 9) "ffmpeg" "png" ["ffprobe"]
           eq_refl eq_refl (or_introl eq_refl) ltac:(lia) ltac:(lia) eq_refl
           ltac:(discriminate) ltac:(discriminate) ltac:(discriminate)
           eq_refl eq_refl ltac:(discriminate)).
Defined.
